(* ===== verification/_CoqProject ===== *)
-Q . S2P
Prelude.v
PyStr.v
PyInt.v
IntLiteral.v
Metrics.v
Runtime.v
JsonText.v
Handlers.v
Middleware.v
App.v
Exporter.v
Main.v
Threads.v
Exposition.v
