(* ===== verification/Prelude.v ===== *)
(** * A verification development of the DevOps lab Flask service ([src/app.py])

    ** The program

    [src/app.py] is a Flask application: four routes ([/], [/health],
    [/info], [/calculate]) and the [/metrics] route that
    [PrometheusMetrics(app)] adds; a [before_request] hook [start_timer]
    that stores [time.time()] in [request.start_time] and increments the
    Prometheus counter [app_visits_total]; an [after_request] hook
    [record_latency] that sleeps [random.uniform(1, 3)] seconds, then
    observes [time.time() - request.start_time] in the histogram
    [request_latency_seconds] labelled by the endpoint (or the raw path);
    an error handler for [Exception] that increments [app_errors_total] and
    answers 500 with [str(e)]; a module global [counter] that [/]
    increments; and a [__main__] block reading [PORT] and [DEBUG].

    ** Files, in dependency order

    - [Prelude] (this file): the state-and-exception monad [stexc] in which
      Python code is written ([sret], [sbind], [sraise], [stry], notation
      [x <- m ;; k] in [py_scope]), the frame combinator [stays] with its
      composition lemmas, the postcondition combinator [returns], the
      tactics [run_step], [stays_tac] and [returns_tac], the hint
      databases [pyrun] / [pyrw], and first-match association lists
      ([alist_get], the [MultiDict.get] of werkzeug).
    - [PyStr]: Python string primitives on code points U+0000..U+00FF:
      the whitespace [int()] skips, [str.lower], [repr].
    - [PyInt]: CPython 3.11 [int(str)] in base 10 ([int_of_str]: sign,
      single underscores between digits, surrounding whitespace, the
      4300-digit limit with its message) and [str(int)] ([py_str_int]).
    - [IntLiteral]: a declarative grammar of the literals [int()] accepts
      ([int_literal]), against which [int_of_str] is proved exact.
    - [Metrics]: the registry of lines 13-21: counters as integers,
      prometheus_client's [Histogram] as per-bucket counts over the default
      bounds plus the sum, labelled histograms as a [gmap] from the label
      values to child histograms.
      An interface ([HistogramOps] / [HistogramLaws]) states what a
      histogram promises its observers; the labelled-histogram lemmas are
      proved against it and [Histogram] discharges it.
    - [Runtime]: the process state [St] (the global [counter], the
      registry, the clock, the stream of [random.random()] draws, the
      stream of time elapsing between clock reads, [os.environ], the
      [start_time] attribute of the current request object), the Python
      exceptions [PyExc], [time.time], [time.sleep], [random.uniform],
      [int()] of a query value, [jsonify]; the invariant [world_wf] and the
      frame [handler_frame] that every view respects.
    - [JsonText]: the body text [jsonify] writes ([response_text]):
      [json.dumps] with [sort_keys=True] and [ensure_ascii=True] on the
      values the views build (str, int, dict), compact separators or
      [indent=2] when the app runs in debug mode, strings escaped as
      [py_encode_basestring_ascii] does, dict items put in [sorted()]
      order ([sort_by], an insertion sort on [str] order), the final
      newline; and a reference decoder [json_loads] (the part of
      [json.loads] that reads strings, integers and objects) that says
      what the text means.
    - [Handlers]: [hello_world], [health_check], [get_info], [badFunction],
      [calculate], [handle_exception], statement by statement.
    - [Middleware]: [start_timer], [record_latency].
    - [App]: the [url_map] of the four [@app.route]s and of [/metrics],
      which the exporter registers except in the child the reloader
      starts ([WERKZEUG_RUN_MAIN=true]) when [DEBUG_METRICS] is not set
      ([metrics_registered]); werkzeug's matcher ([url_match]): the rule of
      the path, else a [RequestRedirect] to the path with its doubled
      slashes merged ([merge_slashes]) when that one has a rule,
      [MethodNotAllowed], [NotFound]; the exporter's [/metrics] view with
      its [name[]] query and multiprocess switch; Flask's
      [dispatch_request], [handle_user_exception] (a redirect is answered
      308 as it is, every other exception goes to the [Exception] handler)
      and [full_dispatch_request] (fresh request object, before hook, view
      or routing exception under [try], exception handling, after hook),
      the loop [serve] of a process serving requests in sequence and the
      equivalent state machine [step] / [run].
    - [Exporter]: the request hooks [PrometheusMetrics(app)] registers
      (line 13) and the metrics they update, [flask_http_request_total]
      and [flask_http_request_duration_seconds], in a state [ExpSt] beside
      [St]; the pipeline [exp_full_dispatch_request] runs the hooks in
      Flask's order (before hooks as registered, after hooks reversed), so
      the exporter's after hook follows [record_latency]; the [/metrics]
      view is not tracked ([do_not_track]).  [exp_full_dispatch_split]
      shows it is the pipeline of [App] between the exporter's hooks.
    - [Main]: the [__main__] block: [PORT] through [int()], [DEBUG]
      through [str.lower].
    - [Threads]: concurrent [GET /] requests under the threaded server, as
      an interleaving of the statements [counter += 1] and the later read
      of [counter] (step relation [tstep], schedules [run_schedule], the
      schedule of requests served one after the other [serial_schedule]).
    - [Exposition]: what [/metrics] exposes of the registry: the metric
      families of the four declarations with their samples ([_total],
      [_bucket] per [le] bound, [_count], [_sum], [_created]), as
      prometheus_client's [generate_latest] collects them, restricted to
      the names of a [name[]] query as [restricted_registry] does
      ([metrics_families]).

    ** What is proved

    - Functional behaviour of the routes through the whole pipeline:
      [/calculate] answers [badFunction x y] ([App.calculate_response]),
      [/] increments [counter] and answers it, [OPTIONS] does not run the
      view.
    - Error paths: a bad query argument, a result too long for
      [int.__repr__], an unknown path, a wrong method, and [/metrics] in
      the reloader's child without [DEBUG_METRICS] are all answered 500 by
      the [Exception] handler, which counts exactly one error; a path
      that has a rule only once its doubled slashes are merged is
      redirected (308) without the handler.  Over any sequence of
      requests every answer is 200, 308 or 500, and
      [app_errors_total] grows by exactly the number of 500 answers (the
      views never count an error and always answer 200 when they return:
      [errors_eq] and [returns] lemmas per view).
    - Pipeline invariants: no exception escapes ([request.start_time] is
      always set before the after hook); each request adds exactly one
      latency observation of at least one second under its endpoint or
      path; [app_visits_total] counts requests; along any [run] the
      state stays well formed and the counters never decrease; [visits]
      strictly increase across sequential requests; [run] holds exactly
      when [serve] answers every request.
    - Exposition: where [/metrics] is registered and no multiprocess
      directory is set, once any request has been served, [/metrics] has
      a sample of every declared metric its query asks for and of no
      other; the first [/metrics] of a fresh process has its own visit
      (when asked for) and no latency sample; the per-endpoint
      [_count] sample is the child's observation count.
    - Bounds: the artificial delay is between 1 and 3 seconds and reaches
      3; [/calculate] observes one [calc_time] duration of at least one
      second when its arguments parse, none otherwise.
    - Conversions: [int(s)] returns [z] exactly on the literals of the
      grammar with value [z]; [int(str(z)) = z] below the digit limit, the limit
      refuses longer literals, [str(z)] succeeds exactly when
      [|z| < 10^4300].
    - JSON text: whatever [jsonify] returns, its body text (compact or
      indented) decodes with [json_loads] to the value with its keys
      sorted, and when [jsonify] raises, writing the text raises the same
      [ValueError] ([JsonText.jsonify_text]); the text is printable ASCII
      and a final newline, with newlines inside only in debug mode; the
      items come out in [sorted()] order.
    - Exporter: each request other than [/metrics] adds one count under
      its method and status and one duration of at least a second (the
      artificial sleep included); over any sequence of requests the
      exporter's count of 500 answers grows exactly as [app_errors_total].
    - Histograms: [Histogram.observe] refines the list of observations,
      and the cumulative [le] counts are right for the sorted bounds.
    - Start-up: the port read from [PORT], a bad [PORT] stops the program,
      [DEBUG] is on exactly for the case variants of "true".
    - Threads: the interleaving invariant, no increment is lost, [visits]
      are [c + 1], ..., [c + n] when the requests are served one after the
      other, and are not unique under concurrency (two requests can both
      answer [c + 2]).

    ** Bounds, fuel and units

    Time is an integer number of ticks of [2^-52] ms, so that the default
    bucket bounds (multiples of 5 ms) and every value of
    [random.uniform(1, 3)] are exact.  [random.random()] is [k / 2^53] for
    a 53-bit draw [k]; [random.uniform(1, 3) = 1 + 2 * random()] is
    computed with the double rounding of the sum ([Runtime.round53]), so
    the delay lies in [[1, 3]] seconds, 3 included.  The code between clock
    reads is given the time of an arbitrary non-negative stream [elapse];
    only sleeps and that stream move the clock.  Floating-point rounding of
    [time.time()], of the latency subtraction and of the histogram sums is
    not modelled.  The digit loop [digits_aux] runs with fuel
    [log2 n + 1], proved sufficient ([digits_fuel_enough]).  The
    reference decoder [json_loads] runs with fuel the length of its
    text, proved sufficient for every text [jsonify] writes (each nested
    value is strictly shorter than the text around it).  Integers are
    unbounded, as in Python; the only width that matters is the 4300-digit
    conversion limit, which is modelled.

    ** Not modelled

    The WSGI server and HTTP parsing (a request is given as method, path and
    decoded query pairs); JSON floats and lists, which no view returns,
    and the [\uXXXX] escapes of code points above U+00FF; the
    prometheus_flask_exporter's info gauge, its exception counter (its
    teardown hook sees no exception: the [Exception] handler handles them
    all) and the exposition of its metrics, the default process
    collectors, and the float text of sample values and [_created]
    timestamps; the samples of a multiprocess collection
    ([PROMETHEUS_MULTIPROC_DIR]), of which the model keeps only that one
    is answered; the order in which a restricted registry yields its
    families (a Python set); HEAD body stripping; the [strict_slashes]
    redirect (no rule of the app ends in a slash); code points above
    U+00FF in query strings; [app.run] itself. *)

From stdpp Require Export base list gmap strings.
From Stdlib Require Export ZArith Ascii Lia.

(** ** The state-and-exception monad

    Python code threads a mutable process state and raises exceptions
    that leave that state as it was when they were raised.  A computation
    is a function from the state to an [outcome] and the final state. *)

Inductive outcome (E A : Type) : Type :=
| Ret (a : A)
| Exn (e : E).
Arguments Ret {E A} a.
Arguments Exn {E A} e.

Definition stexc (S E A : Type) : Type := S -> outcome E A * S.

Section Monad.
Context {S E : Type}.

Definition sret {A} (a : A) : stexc S E A := fun s => (Ret a, s).

Definition sbind {A B} (m : stexc S E A) (k : A -> stexc S E B) : stexc S E B :=
  fun s => match m s with
           | (Ret a, s') => k a s'
           | (Exn e, s') => (Exn e, s')
           end.

Definition sraise {A} (e : E) : stexc S E A := fun s => (Exn e, s).

Definition sget : stexc S E S := fun s => (Ret s, s).

Definition sput (s' : S) : stexc S E unit := fun _ => (Ret tt, s').

Definition smodify (f : S -> S) : stexc S E unit := fun s => (Ret tt, f s).

(** [try m except e: h e] *)
Definition stry {A} (m : stexc S E A) (h : E -> stexc S E A) : stexc S E A :=
  fun s => match m s with
           | (Exn e, s') => h e s'
           | r => r
           end.

(** Lift a pure result ([Ret] or [Exn]) into the monad. *)
Definition slift {A} (r : outcome E A) : stexc S E A := fun s => (r, s).
End Monad.

Declare Scope py_scope.
Delimit Scope py_scope with py.
Notation "x <- m ;; k" := (sbind m (fun x => k))
  (at level 100, m at next level, right associativity) : py_scope.
Notation "m ;;; k" := (sbind m (fun _ => k))
  (at level 100, right associativity) : py_scope.

Create HintDb pyrun discriminated.
Create Rewrite HintDb pyrw.

Section MonadLaws.
Context {S E : Type}.

Lemma sbind_ret_l {A B} (a : A) (k : A -> stexc S E B) s :
  sbind (sret a) k s = k a s.
Proof. reflexivity. Qed.

Lemma sbind_ret_r {A} (m : stexc S E A) s : sbind m sret s = m s.
Proof. unfold sbind, sret. by destruct (m s) as [[] ?]. Qed.

Lemma sbind_assoc {A B C} (m : stexc S E A) (k : A -> stexc S E B)
      (k' : B -> stexc S E C) s :
  sbind (sbind m k) k' s = sbind m (fun a => sbind (k a) k') s.
Proof. unfold sbind. by destruct (m s) as [[] ?]. Qed.

Lemma sbind_raise {A B} (e : E) (k : A -> stexc S E B) s :
  sbind (sraise e) k s = (Exn e, s).
Proof. reflexivity. Qed.

(** Running a bind whose first computation is known. *)
Lemma sbind_Ret {A B} (m : stexc S E A) (k : A -> stexc S E B) s a s' :
  m s = (Ret a, s') -> sbind m k s = k a s'.
Proof. unfold sbind. by intros ->. Qed.

Lemma sbind_Exn {A B} (m : stexc S E A) (k : A -> stexc S E B) s e s' :
  m s = (Exn e, s') -> sbind m k s = (Exn e, s').
Proof. unfold sbind. by intros ->. Qed.

Lemma stry_Ret {A} (m : stexc S E A) h s a s' :
  m s = (Ret a, s') -> stry m h s = (Ret a, s').
Proof. unfold stry. by intros ->. Qed.

Lemma stry_Exn {A} (m : stexc S E A) h s e s' :
  m s = (Exn e, s') -> stry m h s = h e s'.
Proof. unfold stry. by intros ->. Qed.

(** A computation relates its initial and final states by [R], whatever
    it returns; with [R] a preorder this composes along [sbind]. *)
Definition stays {A} (R : S -> S -> Prop) (m : stexc S E A) : Prop :=
  forall s, R s (snd (m s)).

Context (R : S -> S -> Prop) `{!PreOrder R}.

Lemma stays_bind {A B} (m : stexc S E A) (k : A -> stexc S E B) :
  stays R m -> (forall a, stays R (k a)) -> stays R (sbind m k).
Proof.
  intros Hm Hk s. unfold sbind. specialize (Hm s).
  destruct (m s) as [[a|e] s']; simpl in *; [|done].
  etransitivity; [exact Hm | apply Hk].
Qed.

Lemma stays_ret {A} (a : A) : stays R (sret a).
Proof. intros s. simpl. reflexivity. Qed.

Lemma stays_raise {A} (e : E) : stays R (sraise (A:=A) e).
Proof. intros s. simpl. reflexivity. Qed.

Lemma stays_get : stays R sget.
Proof. intros s. simpl. reflexivity. Qed.

Lemma stays_modify (f : S -> S) : (forall s, R s (f s)) -> stays R (smodify f).
Proof. intros Hf s. apply Hf. Qed.

Lemma stays_lift {A} (r : outcome E A) : stays R (slift r).
Proof. intros s. simpl. reflexivity. Qed.

Lemma stays_try {A} (m : stexc S E A) h :
  stays R m -> (forall e, stays R (h e)) -> stays R (stry m h).
Proof.
  intros Hm Hh s. unfold stry. specialize (Hm s).
  destruct (m s) as [[a|e] s']; simpl in *; [done|].
  etransitivity; [exact Hm | apply Hh].
Qed.
End MonadLaws.

(** What a computation returns when it returns normally. *)
Section Returns.
Context {S E : Type}.

Definition returns {A} (P : A -> Prop) (m : stexc S E A) : Prop :=
  forall s, match fst (m s) with Ret a => P a | Exn _ => True end.

Lemma returns_bind {A B} (P : B -> Prop) (m : stexc S E A) (k : A -> stexc S E B) :
  (forall a, returns P (k a)) -> returns P (sbind m k).
Proof.
  intros Hk s. unfold sbind. destruct (m s) as [[a|e] s']; [apply Hk | done].
Qed.

Lemma returns_ret {A} (P : A -> Prop) a : P a -> returns P (sret a).
Proof. intros H s. exact H. Qed.

Lemma returns_raise {A} (P : A -> Prop) e : returns P (sraise e).
Proof. intros s. exact I. Qed.
End Returns.

#[export] Hint Rewrite @sbind_ret_l @sbind_raise : pyrw.
#[export] Hint Resolve stays_ret stays_raise stays_get stays_lift : pyrun.

(** Run the first computation of a bind whose outcome [tac] establishes. *)
Tactic Notation "run_step" tactic3(tac) := erewrite sbind_Ret by tac; cbv beta.

(** Decompose a computation into its last returns. *)
Ltac returns_tac :=
  repeat match goal with
  | |- returns _ (sbind _ _) => apply returns_bind; intros
  | |- returns _ (sraise _) => apply returns_raise
  | |- returns _ (sret _) => apply returns_ret
  | |- returns _ (match ?x with _ => _ end) => destruct x
  | |- returns _ (if ?b then _ else _) => destruct b
  | |- returns _ _ => solve [eauto with pyrun]
  end.

(** Decompose a computation into the primitives it is built from and
    close each with the lemmas of the [pyrun] database. *)
Ltac stays_tac :=
  repeat match goal with
  | |- stays _ (sbind _ _) => apply stays_bind; [typeclasses eauto| |intros]
  | |- stays _ (stry _ _) => apply stays_try; [typeclasses eauto| |intros]
  | |- stays _ (smodify _) => apply stays_modify; intros
  | |- stays _ (match ?x with _ => _ end) => destruct x
  | |- stays _ (if ?b then _ else _) => destruct b
  | |- stays _ _ => solve [eauto with pyrun typeclass_instances]
  end.

(** ** Association lists: first match wins

    A werkzeug [MultiDict] keeps every value of a repeated key in order,
    and [get] returns the first one. *)

Fixpoint alist_get {K V} `{EqDecision K} (k : K) (l : list (K * V)) : option V :=
  match l with
  | [] => None
  | (k', v) :: l' => if decide (k = k') then Some v else alist_get k l'
  end.

Lemma alist_get_app {K V} `{EqDecision K} (k : K) (l1 l2 : list (K * V)) :
  alist_get k (l1 ++ l2) =
  match alist_get k l1 with Some v => Some v | None => alist_get k l2 end.
Proof. induction l1 as [|[k' v] l1 IH]; simpl; [done|]. by case_decide. Qed.

Lemma alist_get_In {K V} `{EqDecision K} (k : K) (v : V) l :
  alist_get k l = Some v -> In (k, v) l.
Proof.
  induction l as [|[k' v'] l IH]; simpl; [done|].
  case_decide; [intros [= <-]; subst; by left | intros; right; auto].
Qed.

(** ** Arithmetic helpers shared by the components *)

Lemma Z_sum_list_app (l1 l2 : list Z) :
  foldr Z.add 0%Z (l1 ++ l2) = (foldr Z.add 0 l1 + foldr Z.add 0 l2)%Z.
Proof. induction l1; simpl; lia. Qed.

#[export] Hint Rewrite Z_sum_list_app : pyrw.

(** ** Strings

    stdpp declares [String.append] (notation [+:+]) [simpl never]; these
    are its defining equations and associativity, for rewriting. *)

Lemma append_cons c w t : String c w +:+ t = String c (w +:+ t).
Proof. reflexivity. Qed.

Lemma append_nil t : EmptyString +:+ t = t.
Proof. reflexivity. Qed.

Lemma append_empty_r w : w +:+ EmptyString = w.
Proof. induction w as [|c w IH]; [done|]. rewrite append_cons. by f_equal. Qed.

Lemma append_assoc_str u v w : (u +:+ v) +:+ w = u +:+ (v +:+ w).
Proof. induction u as [|c u IH]; [done|]. rewrite !append_cons. by f_equal. Qed.

#[export] Hint Rewrite append_cons append_nil append_empty_r append_assoc_str : pyrw.

Ltac unfold_append := rewrite ?append_cons, ?append_nil.

