(* ===== verification/PyStr.v ===== *)
(** * Python [str] primitives used by the service

    Python strings are sequences of Unicode code points.  The model uses
    Stdlib [string], whose characters are the code points U+0000..U+00FF
    (ASCII and Latin-1).  This file holds the character classes, [str.lower]
    and [repr] of a string as CPython 3.11 computes them on these code
    points; [int] parsing and [str] of an integer are in [PyInt]. *)

From S2P Require Import Prelude.

Module PyStr.

Definition code (c : ascii) : nat := nat_of_ascii c.

(** Characters skipped around an [int()] literal: the ASCII whitespace
    [Py_ISSPACE] accepts (tab, LF, VT, FF, CR, space) and the non-ASCII
    whitespace U+0085 and U+00A0 that [_PyUnicode_TransformDecimalAndSpaceToASCII]
    turns into a space first.  The separators U+001C..U+001F are kept as
    they are by that transform and are not accepted. *)
Definition int_space (c : ascii) : bool :=
  let n := code c in
  ((9 <=? n) && (n <=? 13)) || (n =? 32) || (n =? 133) || (n =? 160).

Definition is_digit (c : ascii) : bool := (48 <=? code c) && (code c <=? 57).

Definition digit_val (c : ascii) : Z := Z.of_nat (code c - 48).

(** [str.lower] on Latin-1: A-Z and U+00C0..U+00DE except U+00D7. *)
Definition lower_char (c : ascii) : ascii :=
  let n := code c in
  if ((65 <=? n) && (n <=? 90)) || ((192 <=? n) && (n <=? 222) && negb (n =? 215))
  then ascii_of_nat (n + 32) else c.

Fixpoint py_lower (s : string) : string :=
  match s with
  | EmptyString => EmptyString
  | String c s' => String (lower_char c) (py_lower s')
  end.

(** [str.isprintable] on U+0000..U+00FF: the controls U+0000..U+001F,
    U+007F..U+009F, the no-break space U+00A0 and the soft hyphen U+00AD
    are not printable. *)
Definition printable (c : ascii) : bool :=
  let n := code c in
  negb ((n <? 32) || ((127 <=? n) && (n <=? 160)) || (n =? 173)).

Definition hexdigit (n : nat) : ascii :=
  if n <? 10 then ascii_of_nat (48 + n) else ascii_of_nat (87 + n).

Fixpoint has_char (q : ascii) (s : string) : bool :=
  match s with
  | EmptyString => false
  | String c s' => Ascii.eqb c q || has_char q s'
  end.

Definition squote : ascii := ascii_of_nat 39.
Definition dquote : ascii := ascii_of_nat 34.
Definition backslash : ascii := ascii_of_nat 92.

(** One character of [unicode_repr]'s output loop. *)
Definition repr_char (quote c : ascii) : string :=
  let n := code c in
  if Ascii.eqb c quote || Ascii.eqb c backslash then String backslash (String c EmptyString)
  else if n =? 9 then String backslash (String "t" EmptyString)
  else if n =? 10 then String backslash (String "n" EmptyString)
  else if n =? 13 then String backslash (String "r" EmptyString)
  else if printable c then String c EmptyString
  else String backslash (String "x" (String (hexdigit (n / 16))
                                     (String (hexdigit (n mod 16)) EmptyString))).

Fixpoint repr_body (quote : ascii) (s : string) : string :=
  match s with
  | EmptyString => EmptyString
  | String c s' => (repr_char quote c +:+ repr_body quote s')%string
  end.

(** [repr(s)]: single quotes, unless the string holds a single quote and
    no double quote. *)
Definition py_repr (s : string) : string :=
  let quote := if has_char squote s && negb (has_char dquote s) then dquote else squote in
  String quote (repr_body quote s +:+ String quote EmptyString)%string.

(** [%.200R] in [PyUnicode_FromFormat]: the repr cut to 200 characters. *)
Definition truncate (n : nat) (s : string) : string := String.substring 0 n s.

End PyStr.
