(* ===== verification/PyInt.v ===== *)
(** * Python [int(str)] and [str(int)] in base 10

    [app.py] converts the query parameters of [/calculate] and the [PORT]
    environment variable with [int(...)], and [jsonify] writes integers with
    [int.__repr__].  This file models both conversions as CPython 3.11
    performs them ([PyLong_FromUnicodeObject] / [PyLong_FromString] and
    [long_to_decimal_string_internal]), including the 4300-digit limit on
    integer/string conversion, and proves that they are inverse. *)

From S2P Require Import Prelude PyStr.
Import PyStr.

Module PyInt.

Local Open Scope Z_scope.

(** ** Decimal digits *)

Definition dstep (acc d : Z) : Z := 10 * acc + d.

(** The value of a list of decimal digits, most significant first. *)
Definition digits_value (ds : list Z) : Z := fold_left dstep ds 0.

(** The decimal digits of [n >= 0], most significant first, in front of
    [acc]; [fuel] bounds the number of divisions. *)
Fixpoint digits_aux (fuel : nat) (n : Z) (acc : list Z) : list Z :=
  match fuel with
  | O => acc
  | S f => if n <? 10 then n :: acc else digits_aux f (n / 10) (n mod 10 :: acc)
  end.

Definition digits_fuel (n : Z) : nat := Z.to_nat (Z.log2 n + 1).

Definition decimal_digits (n : Z) : list Z := digits_aux (digits_fuel n) n [].

(** Number of decimal digits of [|z|], the sign excluded. *)
Definition ndigits (z : Z) : nat := length (decimal_digits (Z.abs z)).

Definition char_of_digit (d : Z) : ascii := ascii_of_nat (48 + Z.to_nat d)%nat.

Fixpoint string_of_digits (ds : list Z) : string :=
  match ds with
  | [] => EmptyString
  | d :: ds' => String (char_of_digit d) (string_of_digits ds')
  end.


(** [sys.get_int_max_str_digits()] at its default. *)
Definition MAX_STR_DIGITS : nat := 4300%nat.

Definition str_of_nat (n : nat) : string := string_of_digits (decimal_digits (Z.of_nat n)).

Definition minus_sign : ascii := ascii_of_nat 45%nat.
Definition plus_sign : ascii := ascii_of_nat 43%nat.
Definition underscore : ascii := ascii_of_nat 95%nat.

(** The text of [str(z)] (no limit check). *)
Definition str_of_Z (z : Z) : string :=
  if z <? 0 then String minus_sign (string_of_digits (decimal_digits (Z.abs z)))
  else string_of_digits (decimal_digits z).

Definition to_str_limit_msg : string :=
  "Exceeds the limit (4300 digits) for integer string conversion; use sys.set_int_max_str_digits() to increase the limit".

(** [str(z)] / [repr(z)]: raises [ValueError] above 4300 digits. *)
Definition py_str_int (z : Z) : outcome string string :=
  if (MAX_STR_DIGITS <? ndigits z)%nat then Exn to_str_limit_msg else Ret (str_of_Z z).

(** ** Parsing: [int(s)] *)

Fixpoint skip_space (s : string) : string :=
  match s with
  | String c s' => if int_space c then skip_space s' else s
  | EmptyString => EmptyString
  end.

Definition take_sign (s : string) : Z * string :=
  match s with
  | String c s' =>
      if Ascii.eqb c plus_sign then (1, s')
      else if Ascii.eqb c minus_sign then (-1, s') else (1, s)
  | EmptyString => (1, s)
  end.

Definition starts_with_underscore (s : string) : bool :=
  match s with String c _ => Ascii.eqb c underscore | EmptyString => false end.

(** The scanning loop of [PyLong_FromString] for base 10: digits with
    single underscores between them.  [None] is the error for a doubled
    or trailing underscore; otherwise the digit values and the rest. *)
Fixpoint scan_digits (prev_us : bool) (s : string) : option (list Z * string) :=
  match s with
  | String c s' =>
      if is_digit c then
        match scan_digits false s' with
        | Some (ds, r) => Some (digit_val c :: ds, r)
        | None => None
        end
      else if Ascii.eqb c underscore then
        if prev_us then None else scan_digits true s'
      else if prev_us then None else Some ([], s)
  | EmptyString => if prev_us then None else Some ([], EmptyString)
  end.

Definition invalid_literal (s : string) : string :=
  "invalid literal for int() with base 10: " +:+ truncate 200%nat (py_repr s).

Definition to_int_limit_msg (n : nat) : string :=
  "Exceeds the limit (4300 digits) for integer string conversion: value has "
  +:+ str_of_nat n +:+ " digits; use sys.set_int_max_str_digits() to increase the limit".

(** [int(s)]: [Ret] the value, or [Exn] the [ValueError] message. *)
Definition int_of_str (s : string) : outcome string Z :=
  let '(sign, t) := take_sign (skip_space s) in
  if starts_with_underscore t then Exn (invalid_literal s) else
  match scan_digits false t with
  | None => Exn (invalid_literal s)
  | Some (ds, rest) =>
      if (MAX_STR_DIGITS <? length ds)%nat then Exn (to_int_limit_msg (length ds))
      else match ds with
           | [] => Exn (invalid_literal s)
           | _ => match skip_space rest with
                  | EmptyString => Ret (sign * digits_value ds)
                  | _ => Exn (invalid_literal s)
                  end
           end
  end.


(** ** Decimal digits: value, range, length *)

Lemma dstep_0 n : dstep 0 n = n.
Proof. unfold dstep. lia. Qed.

Lemma digits_aux_value f n acc :
  0 <= n < 10 ^ Z.of_nat f ->
  fold_left dstep (digits_aux f n acc) 0 = fold_left dstep acc n.
Proof.
  revert n acc. induction f as [|f IH]; intros n acc Hn; simpl.
  - replace n with 0 by lia. done.
  - destruct (Z.ltb_spec n 10); simpl; [by rewrite dstep_0|].
    rewrite IH; simpl.
    + f_equal. unfold dstep. pose proof (Z.div_mod n 10). lia.
    + rewrite Nat2Z.inj_succ, Z.pow_succ_r in Hn by lia.
      split; [apply Z.div_pos; lia | apply Z.div_lt_upper_bound; lia].
Qed.

Lemma digits_fuel_enough n : 0 <= n -> n < 10 ^ Z.of_nat (digits_fuel n).
Proof.
  intros Hn. unfold digits_fuel.
  rewrite Z2Nat.id by (pose proof (Z.log2_nonneg n); lia).
  destruct (Z.eq_dec n 0) as [->|Hn0]; [reflexivity|].
  pose proof (Z.log2_spec n ltac:(lia)) as [_ Hlt].
  eapply Z.lt_le_trans; [exact Hlt|].
  rewrite <- Z.add_1_r. apply Z.pow_le_mono_l. lia.
Qed.

Definition is_dec_digit (d : Z) : Prop := 0 <= d <= 9.

Lemma digits_aux_range f n acc :
  0 <= n -> Forall is_dec_digit acc -> Forall is_dec_digit (digits_aux f n acc).
Proof.
  revert n acc. induction f as [|f IH]; intros n acc Hn Hacc; simpl; [done|].
  destruct (Z.ltb_spec n 10).
  - constructor; [unfold is_dec_digit; lia | done].
  - apply IH; [apply Z.div_pos; lia|].
    constructor; [|done]. pose proof (Z.mod_pos_bound n 10). unfold is_dec_digit. lia.
Qed.

Lemma digits_aux_nonnil f n acc : acc <> [] -> digits_aux f n acc <> [].
Proof.
  revert n acc. induction f as [|f IH]; intros n acc Hacc; simpl; [done|].
  destruct (n <? 10); [done | by apply IH].
Qed.

Lemma decimal_digits_value n : 0 <= n -> digits_value (decimal_digits n) = n.
Proof.
  intros Hn. unfold digits_value, decimal_digits.
  rewrite digits_aux_value; [done|]. split; [done | by apply digits_fuel_enough].
Qed.

Lemma decimal_digits_range n : 0 <= n -> Forall is_dec_digit (decimal_digits n).
Proof. intros. by apply digits_aux_range. Qed.

Lemma decimal_digits_nonnil n : decimal_digits n <> [].
Proof.
  unfold decimal_digits, digits_fuel.
  destruct (Z.to_nat (Z.log2 n + 1)) eqn:E.
  - pose proof (Z.log2_nonneg n). lia.
  - simpl. destruct (n <? 10); [done | by apply digits_aux_nonnil].
Qed.

#[export] Hint Resolve decimal_digits_range decimal_digits_nonnil : pyrun.

(** ** Characters of a digit *)

Lemma char_of_digit_spec d :
  is_dec_digit d ->
  is_digit (char_of_digit d) = true /\ digit_val (char_of_digit d) = d /\
  int_space (char_of_digit d) = false /\ Ascii.eqb (char_of_digit d) underscore = false /\
  Ascii.eqb (char_of_digit d) plus_sign = false /\ Ascii.eqb (char_of_digit d) minus_sign = false.
Proof.
  unfold is_dec_digit. intros Hd.
  assert (d = 0 \/ d = 1 \/ d = 2 \/ d = 3 \/ d = 4 \/ d = 5 \/ d = 6 \/ d = 7 \/ d = 8 \/ d = 9)
    as Hcases by lia.
  repeat (destruct Hcases as [->|Hcases]; [vm_compute; repeat split; reflexivity|]).
  subst. vm_compute. repeat split; reflexivity.
Qed.

(** The scanning loop reads back exactly the digits of a digit string. *)
Lemma scan_string_of_digits ds :
  Forall is_dec_digit ds -> scan_digits false (string_of_digits ds) = Some (ds, EmptyString).
Proof.
  induction 1 as [|d ds Hd _ IH]; [done|]. cbn [string_of_digits scan_digits].
  destruct (char_of_digit_spec d Hd) as (-> & -> & _).
  by rewrite IH.
Qed.

Lemma skip_space_digits ds :
  Forall is_dec_digit ds -> ds <> [] ->
  skip_space (string_of_digits ds) = string_of_digits ds.
Proof.
  intros Hds Hne. destruct Hds as [|d ds' Hd _]; [by destruct Hne|]. cbn [string_of_digits skip_space].
  by destruct (char_of_digit_spec d Hd) as (_ & _ & -> & _).
Qed.

(** ** [int(s)] on the output of [str(z)] *)

Lemma int_of_digits sign ds s :
  Forall is_dec_digit ds -> ds <> [] ->
  take_sign (skip_space s) = (sign, string_of_digits ds) ->
  int_of_str s = if (MAX_STR_DIGITS <? length ds)%nat
                 then Exn (to_int_limit_msg (length ds))
                 else Ret (sign * digits_value ds).
Proof.
  intros Hds Hne Hts. unfold int_of_str. rewrite Hts.
  destruct Hds as [|d ds' Hd Hds']; [by destruct Hne|].
  cbn [string_of_digits starts_with_underscore].
  destruct (char_of_digit_spec d Hd) as (_ & _ & _ & -> & _).
  pose proof (scan_string_of_digits (d :: ds') ltac:(by constructor)) as Hscan.
  cbn [string_of_digits] in Hscan. rewrite Hscan.
  by destruct (MAX_STR_DIGITS <? length (d :: ds'))%nat.
Qed.

Lemma take_sign_str_of_Z z :
  take_sign (skip_space (str_of_Z z)) =
  (if z <? 0 then -1 else 1, string_of_digits (decimal_digits (Z.abs z))).
Proof.
  unfold str_of_Z. destruct (Z.ltb_spec z 0); [done|].
  rewrite Z.abs_eq by lia.
  pose proof (decimal_digits_range z ltac:(lia)) as Hr.
  pose proof (decimal_digits_nonnil z) as Hne.
  rewrite skip_space_digits by done.
  destruct Hr as [|d ds Hd _]; [by destruct Hne|]. cbn [string_of_digits take_sign].
  by destruct (char_of_digit_spec d Hd) as (_ & _ & _ & _ & -> & ->).
Qed.

Lemma int_of_str_str_of_Z_gen z :
  int_of_str (str_of_Z z) =
  if (MAX_STR_DIGITS <? ndigits z)%nat then Exn (to_int_limit_msg (ndigits z)) else Ret z.
Proof.
  unfold ndigits.
  rewrite (int_of_digits _ _ _ (decimal_digits_range _ (Z.abs_nonneg z))
             (decimal_digits_nonnil _) (take_sign_str_of_Z z)).
  destruct (MAX_STR_DIGITS <? _)%nat; [done|].
  rewrite decimal_digits_value by lia. f_equal.
  destruct (Z.ltb_spec z 0); lia.
Qed.


(** The number of digits [L] of [n] satisfies [10^(L-1) <= max n 1] and
    [n < 10^L]. *)
Lemma digits_aux_length f n acc :
  (0 < f)%nat -> 0 <= n < 10 ^ Z.of_nat f ->
  let L := Z.of_nat (length (digits_aux f n acc)) - Z.of_nat (length acc) in
  1 <= L /\ 10 ^ (L - 1) <= Z.max n 1 /\ n < 10 ^ L.
Proof.
  revert n acc. induction f as [|f IH]; intros n acc Hf Hn; cbn [digits_aux]; [lia|].
  destruct (Z.ltb_spec n 10) as [Hlt|Hge]; cbn [length].
    + replace (Z.of_nat (S (length acc)) - Z.of_nat (length acc)) with 1 by lia. lia.
    + rewrite Nat2Z.inj_succ, Z.pow_succ_r in Hn by lia.
      assert (Hq : 1 <= n / 10 < 10 ^ Z.of_nat f)
        by (split; [apply Z.div_le_lower_bound | apply Z.div_lt_upper_bound]; lia).
      assert (Hf' : (0 < f)%nat) by (destruct f; [rewrite Z.pow_0_r in Hq; lia | lia]).
      destruct (IH (n / 10) (n mod 10 :: acc) Hf' ltac:(lia)) as (H1 & H2 & H3).
      cbn [length] in *. rewrite Nat2Z.inj_succ in *.
      set (L := Z.of_nat (length (digits_aux f (n / 10) (n mod 10 :: acc))) - Z.succ (Z.of_nat (length acc))) in *.
      replace (Z.of_nat (length (digits_aux f (n / 10) (n mod 10 :: acc))) - Z.of_nat (length acc)) with (L + 1) by (unfold L; lia).
      pose proof (Z.div_mod n 10 ltac:(lia)). pose proof (Z.mod_pos_bound n 10 ltac:(lia)).
      rewrite Z.add_simpl_r, Z.pow_add_r, Z.pow_1_r by lia.
      replace (Z.max (n / 10) 1) with (n / 10) in H2 by lia.
      assert (10 ^ L = 10 * 10 ^ (L - 1)) as HL
        by (rewrite <- Z.pow_succ_r by lia; f_equal; lia).
      split; [lia | split; lia].
Qed.

Lemma ndigits_spec z :
  1 <= Z.of_nat (ndigits z) /\
  10 ^ (Z.of_nat (ndigits z) - 1) <= Z.max (Z.abs z) 1 /\ Z.abs z < 10 ^ Z.of_nat (ndigits z).
Proof.
  unfold ndigits, decimal_digits.
  pose proof (digits_aux_length (digits_fuel (Z.abs z)) (Z.abs z) []
                ltac:(unfold digits_fuel; pose proof (Z.log2_nonneg (Z.abs z)); lia) (conj (Z.abs_nonneg z) (digits_fuel_enough _ (Z.abs_nonneg z)))) as H.
  cbn [length] in H. rewrite Z.sub_0_r in H. exact H.
Qed.

Lemma fold_dstep_zeros n a : fold_left dstep (replicate n 0) a = a * 10 ^ Z.of_nat n.
Proof.
  revert a. induction n as [|n IH]; intros a; simpl; [lia|].
  rewrite IH. unfold dstep. rewrite Nat2Z.inj_succ, Z.pow_succ_r by lia. lia.
Qed.

(** [int("1" + "0" * n)] is [10 ** n] below the digit limit. *)
Lemma int_of_str_power_of_ten n :
  (S n <= MAX_STR_DIGITS)%nat ->
  int_of_str (String (char_of_digit 1) (string_of_digits (replicate n 0))) = Ret (10 ^ Z.of_nat n).
Proof.
  intros Hn.
  assert (Hds : Forall is_dec_digit (1 :: replicate n 0)).
  { constructor; [unfold is_dec_digit; lia|]. apply Forall_replicate. unfold is_dec_digit. lia. }
  rewrite (int_of_digits 1 (1 :: replicate n 0) _ Hds ltac:(done)).
  - cbn [length]. rewrite length_replicate.
    destruct (Nat.ltb_spec MAX_STR_DIGITS (S n)); [lia|].
    unfold digits_value. cbn [fold_left]. rewrite dstep_0, fold_dstep_zeros. f_equal. lia.
  - change (String (char_of_digit 1) (string_of_digits (replicate n 0)))
      with (string_of_digits (1 :: replicate n 0)).
    rewrite skip_space_digits by done. cbn [string_of_digits take_sign].
    destruct (char_of_digit_spec 1 ltac:(unfold is_dec_digit; lia)) as (_ & _ & _ & _ & -> & ->).
    reflexivity.
Qed.

(** ** Properties of the conversions *)

Lemma ndigits_le_iff_gen z k :
  (0 < k)%nat -> (ndigits z <= k)%nat <-> Z.abs z < 10 ^ Z.of_nat k.
Proof.
  intros Hk. destruct (ndigits_spec z) as (H1 & H2 & H3). split; intros H.
  - eapply Z.lt_le_trans; [exact H3|]. apply Z.pow_le_mono_r; lia.
  - destruct (Nat.le_gt_cases (ndigits z) k) as [|Hgt]; [done|].
    assert (10 ^ Z.of_nat k <= 10 ^ (Z.of_nat (ndigits z) - 1)) by (apply Z.pow_le_mono_r; lia).
    assert (1 < 10 ^ Z.of_nat k) by (apply Z.pow_gt_1; lia).
    lia.
Qed.

(** An integer is under the default digit limit exactly when its
    absolute value is below [10^4300]. *)
Lemma ndigits_le_limit_iff z : (ndigits z <= MAX_STR_DIGITS)%nat <-> Z.abs z < 10 ^ 4300.
Proof. apply ndigits_le_iff_gen. unfold MAX_STR_DIGITS. lia. Qed.

(** C35: [str(z)] returns the decimal text of [z] exactly when
    [abs(z) < 10^4300], and raises [ValueError] with the limit message
    otherwise: the digit count the interpreter checks is the magnitude
    bound. *)
Theorem py_str_int_limit z :
  py_str_int z = if Z.abs z <? 10 ^ 4300 then Ret (str_of_Z z) else Exn to_str_limit_msg.
Proof.
  unfold py_str_int. pose proof (ndigits_le_limit_iff z) as Hi.
  destruct (Nat.ltb_spec MAX_STR_DIGITS (ndigits z)) as [H1|H1];
    destruct (Z.ltb_spec (Z.abs z) (10 ^ 4300)) as [H2|H2]; try reflexivity; exfalso.
  - apply Hi in H2. exact (Nat.lt_irrefl _ (Nat.lt_le_trans _ _ _ H1 H2)).
  - apply Hi in H1. exact (Z.lt_irrefl _ (Z.le_lt_trans _ _ _ H2 H1)).
Qed.

(** C33: [int(str(z)) == z]: whenever [str(z)] succeeds (at most 4300
    digits), [int] reads back the same integer. *)
Theorem py_str_int_roundtrip z s : py_str_int z = Ret s -> int_of_str s = Ret z.
Proof.
  unfold py_str_int. intros Hs.
  destruct (MAX_STR_DIGITS <? ndigits z)%nat eqn:E; [done|]. injection Hs as <-.
  rewrite int_of_str_str_of_Z_gen, E. done.
Qed.

Lemma py_str_int_roundtrip_witness :
  py_str_int (-1230) = Ret "-1230" /\ int_of_str "-1230" = Ret (-1230).
Proof. split; [vm_compute; reflexivity | apply py_str_int_roundtrip; vm_compute; reflexivity]. Defined.

(** C34: a literal of more than 4300 digits (leading zeros count) is
    refused by [int] with the limit message naming its digit count,
    before its value is computed. *)
Theorem int_of_str_digit_limit ds :
  Forall is_dec_digit ds -> (MAX_STR_DIGITS < length ds)%nat ->
  int_of_str (string_of_digits ds) = Exn (to_int_limit_msg (length ds)).
Proof.
  intros Hds Hlen.
  assert (Hne : ds <> []) by (intros ->; simpl in Hlen; unfold MAX_STR_DIGITS in Hlen; lia).
  rewrite (int_of_digits 1 ds _ Hds Hne).
  - by destruct (Nat.ltb_spec MAX_STR_DIGITS (length ds)); [|lia].
  - rewrite skip_space_digits by done.
    destruct Hds as [|d ds' Hd _]; [done|]. cbn [string_of_digits take_sign].
    by destruct (char_of_digit_spec d Hd) as (_ & _ & _ & _ & -> & ->).
Qed.

Lemma int_of_str_digit_limit_witness :
  Forall is_dec_digit (replicate 4301%nat 1) /\ (MAX_STR_DIGITS < length (replicate 4301%nat 1))%nat /\
  int_of_str (string_of_digits (replicate 4301%nat 1)) = Exn (to_int_limit_msg 4301%nat).
Proof.
  assert (Hd : Forall is_dec_digit (replicate 4301%nat 1))
    by (apply Forall_replicate; unfold is_dec_digit; lia).
  split; [exact Hd|]. split; [vm_compute; reflexivity|].
  apply (int_of_str_digit_limit (replicate 4301%nat 1) Hd). vm_compute. reflexivity.
Defined.

End PyInt.
