(* ===== verification/IntLiteral.v ===== *)
(** * The literals [int()] accepts

    A declarative grammar of the base-10 literals of Python's [int(str)]:
    optional whitespace, an optional sign, digits with single underscores
    between them, optional whitespace; at most 4300 digits.  The scanner
    [PyInt.int_of_str] returns a value exactly on the strings of this
    grammar, and the value is the literal's. *)

From S2P Require Import Prelude PyStr PyInt.
Import PyStr PyInt.

Module IntLiteral.
Local Open Scope Z_scope.

(** A run of the whitespace [int()] skips. *)
Fixpoint all_space (w : string) : bool :=
  match w with
  | EmptyString => true
  | String c w' => int_space c && all_space w'
  end.

Inductive sign_text : string -> Z -> Prop :=
| sign_none : sign_text EmptyString 1
| sign_plus : sign_text (String plus_sign EmptyString) 1
| sign_minus : sign_text (String minus_sign EmptyString) (-1).

(** [digit (["_"] digit)*] with the values of the digits. *)
Inductive digitpart : string -> list Z -> Prop :=
| dp_last c : is_digit c = true -> digitpart (String c EmptyString) [digit_val c]
| dp_next c s ds : is_digit c = true -> digitpart s ds -> digitpart (String c s) (digit_val c :: ds)
| dp_under c s ds :
    is_digit c = true -> digitpart s ds -> digitpart (String c (String underscore s)) (digit_val c :: ds).

(** [int(s)] reads [z]: [s] is whitespace, a sign, a digit part and
    whitespace, of at most 4300 digits, and [z] is its signed value. *)
Definition int_literal (s : string) (z : Z) : Prop :=
  exists w1 sg body w2 sgn ds,
    s = w1 +:+ (sg +:+ (body +:+ w2)) /\ all_space w1 = true /\ all_space w2 = true /\
    sign_text sg sgn /\ digitpart body ds /\ (length ds <= MAX_STR_DIGITS)%nat /\
    z = sgn * digits_value ds.

(** Where the scanning loop stops: the end, or a character that is
    neither a digit nor an underscore. *)
Definition stops (r : string) : Prop :=
  match r with
  | String c _ => is_digit c = false /\ Ascii.eqb c underscore = false
  | EmptyString => True
  end.

(** ** Characters *)

Lemma space_not_digit c : int_space c = true -> is_digit c = false /\ Ascii.eqb c underscore = false.
Proof.
  unfold int_space, is_digit, code. intros H.
  destruct (Ascii.eqb_spec c underscore) as [->|_]; [discriminate|]. split; [|done].
  set (n := nat_of_ascii c) in *.
  destruct (Nat.leb_spec 9 n), (Nat.leb_spec n 13), (Nat.eqb_spec n 32), (Nat.eqb_spec n 133),
    (Nat.eqb_spec n 160); simpl in H; try discriminate;
    destruct (Nat.leb_spec 48 n), (Nat.leb_spec n 57); simpl; (reflexivity || lia).
Qed.

Lemma digit_not_space c : is_digit c = true -> int_space c = false.
Proof. intros Hd. destruct (int_space c) eqn:E; [|done]. by rewrite (proj1 (space_not_digit c E)) in Hd. Qed.

Lemma digit_not_special c :
  is_digit c = true ->
  Ascii.eqb c underscore = false /\ Ascii.eqb c plus_sign = false /\ Ascii.eqb c minus_sign = false.
Proof.
  intros Hd. repeat split; apply Ascii.eqb_neq; intros ->; discriminate.
Qed.

Lemma digitpart_head body ds :
  digitpart body ds -> exists c t, body = String c t /\ is_digit c = true /\ ds <> [].
Proof. by destruct 1; eexists _, _. Qed.

(** ** Whitespace *)

Lemma skip_space_all w t : all_space w = true -> skip_space (w +:+ t) = skip_space t.
Proof.
  induction w as [|c w IH]; [done|]. unfold_append. cbn [skip_space all_space].
  intros H. apply andb_true_iff in H as [-> H]. by apply IH.
Qed.

Lemma skip_space_split s :
  exists w, all_space w = true /\ s = w +:+ skip_space s /\
    match skip_space s with String c _ => int_space c = false | EmptyString => True end.
Proof.
  induction s as [|c s (w & Hw & Hs & Hc)]; [by exists EmptyString|].
  cbn [skip_space]. destruct (int_space c) eqn:E.
  - exists (String c w). unfold_append. cbn [all_space]. rewrite E, Hw. split; [done|]. split; [by f_equal|done].
  - by exists EmptyString.
Qed.

Lemma skip_space_nil_all r : skip_space r = EmptyString -> all_space r = true.
Proof.
  intros H. destruct (skip_space_split r) as (w & Hw & Hr & _). rewrite H in Hr.
  rewrite Hr, append_empty_r. exact Hw.
Qed.

Lemma skip_space_id u :
  match u with String c _ => int_space c = false | EmptyString => True end -> skip_space u = u.
Proof. destruct u as [|c u]; [done|]. intros H. cbn [skip_space]. by rewrite H. Qed.

Lemma all_space_skip w : all_space w = true -> skip_space w = EmptyString.
Proof.
  intros H. pose proof (skip_space_all w EmptyString H) as E.
  by rewrite append_empty_r in E.
Qed.

Lemma all_space_stops w : all_space w = true -> stops w.
Proof.
  destruct w as [|c w]; [done|]. cbn [all_space stops]. intros H. apply andb_true_iff in H as [H _].
  exact (space_not_digit c H).
Qed.

(** ** The scanning loop against the grammar *)

Lemma scan_digitpart body ds r prev :
  digitpart body ds -> stops r -> scan_digits prev (body +:+ r) = Some (ds, r).
Proof.
  intros Hb. revert prev. induction Hb as [c Hc|c s ds Hc _ IH|c s ds Hc _ IH]; intros prev Hr; unfold_append; cbn [scan_digits].
  - rewrite Hc. destruct r as [|c' r']; [done|]. destruct Hr as [H1 H2]. cbn. by rewrite H1, H2.
  - by rewrite Hc, IH.
  - rewrite Hc. simpl. by rewrite IH.
Qed.

Lemma scan_digits_sound s : forall prev ds r,
  scan_digits prev s = Some (ds, r) ->
  (ds = [] /\ r = s /\ stops s /\ prev = false) \/
  (exists body, digitpart body ds /\ stops r /\
     (s = body +:+ r \/ (prev = false /\ s = String underscore (body +:+ r)))).
Proof.
  induction s as [|c s IH]; intros prev ds r H; cbn in H.
  - destruct prev; [done|]. injection H as <- <-. by left.
  - destruct (is_digit c) eqn:Hd.
    + destruct (scan_digits false s) as [[ds' r']|] eqn:E; [|done]. injection H as <- <-.
      right. destruct (IH false ds' r' E) as [(-> & -> & Hs & _) | (body & Hb & Hr & [-> | [_ ->]])].
      * exists (String c EmptyString). split; [by constructor|]. split; [done | by left].
      * exists (String c body). split; [by constructor|]. split; [done | by left].
      * exists (String c (String underscore body)). split; [by constructor|]. split; [done | by left].
    + destruct (Ascii.eqb c underscore) eqn:Hu.
      * destruct prev; [done|]. right.
        destruct (IH true ds r H) as [(_ & _ & _ & ?) | (body & Hb & Hr & [-> | [? _]])]; [done| |done].
        apply Ascii.eqb_eq in Hu. subst c. exists body. auto.
      * destruct prev; [done|]. injection H as <- <-. left. done.
Qed.

(** ** Signs *)

Lemma take_sign_sound t sgn t' : take_sign t = (sgn, t') -> exists sg, sign_text sg sgn /\ t = sg +:+ t'.
Proof.
  destruct t as [|c t]; cbn.
  - injection 1 as <- <-. exists EmptyString. split; [constructor | done].
  - destruct (Ascii.eqb_spec c plus_sign) as [->|_].
    { injection 1 as <- <-. eexists. split; [constructor | done]. }
    destruct (Ascii.eqb_spec c minus_sign) as [->|_].
    { injection 1 as <- <-. eexists. split; [constructor | done]. }
    injection 1 as <- <-. exists EmptyString. split; [constructor | done].
Qed.

Lemma take_sign_complete sg sgn c t :
  sign_text sg sgn -> is_digit c = true -> take_sign (sg +:+ String c t) = (sgn, String c t).
Proof.
  intros Hs Hc. destruct (digit_not_special c Hc) as (_ & Hp & Hm).
  destruct Hs; unfold_append; cbn [take_sign]; [by rewrite Hp, Hm | done | done].
Qed.

Lemma sign_first sg sgn c t :
  sign_text sg sgn -> is_digit c = true ->
  match sg +:+ String c t with String c' _ => int_space c' = false | EmptyString => True end.
Proof. intros Hs Hc. destruct Hs; unfold_append; [exact (digit_not_space c Hc) | done | done]. Qed.

(** ** [int()] implements the grammar *)

(** C32: [int(s)] returns [z] exactly when [s] is a base-10 literal of at
    most 4300 digits with value [z]: whitespace, an optional sign, digits
    with single underscores between them, whitespace. *)
Theorem int_of_str_literal s z : int_of_str s = Ret z <-> int_literal s z.
Proof.
  split.
  - intros H. unfold int_of_str in H.
    destruct (take_sign (skip_space s)) as [sgn t] eqn:Ets.
    destruct (starts_with_underscore t) eqn:Hus; [done|].
    destruct (scan_digits false t) as [[ds rest]|] eqn:Esc; [|done].
    destruct (Nat.ltb_spec MAX_STR_DIGITS (length ds)) as [|Hlen]; [done|].
    destruct ds as [|d ds']; [done|].
    destruct (skip_space rest) eqn:Erest; [|done]. injection H as <-.
    destruct (skip_space_split s) as (w1 & Hw1 & Hs & _).
    destruct (take_sign_sound _ _ _ Ets) as (sg & Hsg & Ht).
    destruct (scan_digits_sound _ _ _ _ Esc) as [(? & _) | (body & Hb & _ & [-> | [_ ->]])];
      [done | | by simpl in Hus].
    exists w1, sg, body, rest, sgn, (d :: ds').
    split; [rewrite Hs at 1; by rewrite Ht|].
    repeat split; try done. by apply skip_space_nil_all.
  - intros (w1 & sg & body & w2 & sgn & ds & -> & Hw1 & Hw2 & Hsg & Hb & Hlen & ->).
    destruct (digitpart_head _ _ Hb) as (c & t & -> & Hc & Hne).
    unfold int_of_str. rewrite skip_space_all by done.
    rewrite append_cons, skip_space_id by exact (sign_first _ _ _ _ Hsg Hc).
    rewrite (take_sign_complete _ _ _ _ Hsg Hc). cbn [starts_with_underscore].
    rewrite (proj1 (digit_not_special c Hc)), <- append_cons.
    rewrite (scan_digitpart _ _ _ _ Hb (all_space_stops _ Hw2)).
    destruct (Nat.ltb_spec MAX_STR_DIGITS (length ds)); [lia|].
    destruct ds as [|d ds]; [done|]. by rewrite all_space_skip.
Qed.

End IntLiteral.
