(* ===== verification/Metrics.v ===== *)
(** * The Prometheus metrics registry of [app.py]

    [app.py] lines 13-21 declare two counters and two histograms with
    [prometheus_client]; one histogram has the label [endpoint].  This file
    models their state: a counter is its value, a histogram is the
    per-bucket counts over the default upper bounds together with the sum
    of the observations ([Histogram.observe] of prometheus_client), a
    labelled histogram is a map from label value to a child histogram
    created on first use ([labels(...)]).

    Time values are integers in ticks of [2^-52] ms, so that the bucket
    bounds and the delays [random.uniform(1, 3)] draws are exact. *)

From S2P Require Import Prelude.

Module Metrics.
Local Open Scope Z_scope.

Definition TICKS_PER_MS : Z := 2 ^ 52.
Definition SECOND : Z := 1000 * TICKS_PER_MS.

(** [Histogram.DEFAULT_BUCKETS] without its final [+Inf], in ticks:
    .005, .01, .025, .05, .075, .1, .25, .5, .75, 1, 2.5, 5, 7.5, 10 s. *)
Definition DEFAULT_BUCKETS : list Z :=
  map (fun ms => ms * TICKS_PER_MS) [5; 10; 25; 50; 75; 100; 250; 500; 750; 1000; 2500; 5000; 7500; 10000].

(** ** The interface a histogram offers to the code that observes into it *)

Class HistogramOps (H : Type) := {
  hist_wf : H -> Prop;
  hist_new : H;
  hist_observe : Z -> H -> H;
  hist_count : H -> Z;
  hist_sum : H -> Z
}.

Class HistogramLaws (H : Type) `{HistogramOps H} := {
  hist_wf_new : hist_wf hist_new;
  hist_wf_observe v h : hist_wf h -> hist_wf (hist_observe v h);
  hist_count_new : hist_count hist_new = 0;
  hist_sum_new : hist_sum hist_new = 0;
  hist_count_observe v h : hist_wf h -> hist_count (hist_observe v h) = hist_count h + 1;
  hist_sum_observe v h : hist_sum (hist_observe v h) = hist_sum h + v
}.

(** ** prometheus_client's [Histogram] *)

Record Histogram := mkHistogram {
  h_buckets : list Z;   (** one count per bound, then the [+Inf] bucket *)
  h_sum : Z
}.

Definition histogram_new : Histogram :=
  mkHistogram (replicate (S (length DEFAULT_BUCKETS)) 0) 0.

(** The loop of [Histogram.observe]: the first bound [>= amount];
    past the finite bounds, the [+Inf] bucket. *)
Fixpoint bucket_index (bounds : list Z) (amount : Z) : nat :=
  match bounds with
  | [] => O
  | b :: bs => if amount <=? b then O else S (bucket_index bs amount)
  end.

Definition histogram_observe (amount : Z) (h : Histogram) : Histogram :=
  mkHistogram (alter (Z.add 1) (bucket_index DEFAULT_BUCKETS amount) (h_buckets h))
              (h_sum h + amount).

Definition histogram_count (h : Histogram) : Z := foldr Z.add 0 (h_buckets h).

Definition NBUCKETS : nat := S (length DEFAULT_BUCKETS).

(** A histogram has one count per bucket. *)
Definition histogram_wf (h : Histogram) : Prop := length (h_buckets h) = NBUCKETS.

#[export] Instance Histogram_ops : HistogramOps Histogram := {
  hist_wf := histogram_wf;
  hist_new := histogram_new;
  hist_observe := histogram_observe;
  hist_count := histogram_count;
  hist_sum := h_sum
}.

(** ** The abstract histogram: the list of its observations

    What a histogram promises its readers: the count of each bucket is the
    number of observations that fall in it, the sum is their sum. *)

Definition bucket_tally (obs : list Z) : list Z :=
  (fun i => Z.of_nat (length (filter (fun v => bucket_index DEFAULT_BUCKETS v = i) obs)))
    <$> seq 0 NBUCKETS.

(** Bounds in strictly increasing order, as prometheus_client requires. *)
Fixpoint ascending (l : list Z) : bool :=
  match l with
  | b :: ((c :: _) as t) => (b <? c) && ascending t
  | _ => true
  end.

(** The exposition's [le] series: the count of the first [k] buckets. *)
Definition cumulative (h : Histogram) (k : nat) : Z := foldr Z.add 0 (take k (h_buckets h)).

Definition hist_abs (h : Histogram) (obs : list Z) : Prop :=
  h_buckets h = bucket_tally obs /\ h_sum h = foldr Z.add 0 obs.

(** ** Labelled histograms: [metric.labels(endpoint=...)] *)

Section Labelled.
Context {K : Type} {EqK : EqDecision K} {CntK : Countable K} {H : Type} `{HistogramOps H}.

(** [labels(v)] returns the child for [v], creating it when absent;
    [.observe(x)] then updates that child in the parent's map. *)
Definition labels_observe (label : K) (amount : Z) (m : gmap K H) : gmap K H :=
  <[label := hist_observe amount (default hist_new (m !! label))]> m.

Definition label_count (label : K) (m : gmap K H) : Z :=
  hist_count (default hist_new (m !! label)).

Definition label_sum (label : K) (m : gmap K H) : Z :=
  hist_sum (default hist_new (m !! label)).
End Labelled.

(** ** The registry of [app.py] *)

Record Registry := mkRegistry {
  app_visits_total : Z;                       (** [visit_counter] *)
  app_errors_total : Z;                       (** [error_counter] *)
  calculate_duration_seconds : Histogram;     (** [calc_time] *)
  request_latency_seconds : gmap string Histogram  (** [request_latency], label [endpoint] *)
}.

Definition registry_init : Registry := mkRegistry 0 0 histogram_new ∅.

Definition visit_counter_inc (r : Registry) : Registry :=
  mkRegistry (app_visits_total r + 1) (app_errors_total r)
             (calculate_duration_seconds r) (request_latency_seconds r).

Definition error_counter_inc (r : Registry) : Registry :=
  mkRegistry (app_visits_total r) (app_errors_total r + 1)
             (calculate_duration_seconds r) (request_latency_seconds r).

Definition calc_time_observe (amount : Z) (r : Registry) : Registry :=
  mkRegistry (app_visits_total r) (app_errors_total r)
             (histogram_observe amount (calculate_duration_seconds r)) (request_latency_seconds r).

Definition request_latency_observe (endpoint : string) (amount : Z) (r : Registry) : Registry :=
  mkRegistry (app_visits_total r) (app_errors_total r) (calculate_duration_seconds r)
             (labels_observe endpoint amount (request_latency_seconds r)).


(** ** Properties of a histogram *)

Lemma SECOND_pos : 0 < SECOND.
Proof. unfold SECOND, TICKS_PER_MS. lia. Qed.

Lemma bucket_index_lt bounds v : (bucket_index bounds v < S (length bounds))%nat.
Proof. induction bounds as [|b bs IH]; simpl; [lia|]. destruct (v <=? b); lia. Qed.

Lemma foldr_add_alter (l : list Z) i :
  (i < length l)%nat -> foldr Z.add 0 (alter (Z.add 1) i l) = foldr Z.add 0 l + 1.
Proof.
  revert i. induction l as [|x l IH]; intros [|i] Hi; cbn [length] in Hi; try lia.
  - simpl. lia.
  - change (alter (Z.add 1) (S i) (x :: l)) with (x :: alter (Z.add 1) i l).
    cbn [foldr]. rewrite IH by lia. lia.
Qed.

Lemma length_bucket_tally obs : length (bucket_tally obs) = NBUCKETS.
Proof. unfold bucket_tally. by rewrite length_fmap, length_seq. Qed.

Lemma bucket_tally_cons v obs :
  bucket_tally (v :: obs) = alter (Z.add 1) (bucket_index DEFAULT_BUCKETS v) (bucket_tally obs).
Proof.
  pose proof (bucket_index_lt DEFAULT_BUCKETS v) as Hv.
  apply list_eq. intros j. unfold bucket_tally.
  rewrite list_lookup_alter, !list_lookup_fmap.
  destruct (decide (j < NBUCKETS)%nat) as [Hj|Hj].
  - rewrite !lookup_seq_lt by (unfold NBUCKETS in *; lia). simpl.
    rewrite filter_cons.
    destruct (decide (bucket_index DEFAULT_BUCKETS v = j)) as [<-|Hne].
    + rewrite !decide_True by done. simpl. f_equal. lia.
    + rewrite !decide_False by done. done.
  - rewrite (lookup_seq_ge 0 NBUCKETS j) by lia.
    rewrite decide_False; [done|]. unfold NBUCKETS in *. lia.
Qed.

Lemma hist_abs_new : hist_abs histogram_new [].
Proof. split; reflexivity. Qed.

(** C31: [Histogram.observe] implements the abstract histogram: observing
    [v] in a histogram that represents the observations [obs] gives one
    that represents [v :: obs]. *)
Theorem histogram_observe_refines h obs v :
  hist_abs h obs -> hist_abs (histogram_observe v h) (v :: obs).
Proof.
  intros [Hb Hs]. split; simpl.
  - by rewrite Hb, bucket_tally_cons.
  - rewrite Hs. lia.
Qed.

Lemma histogram_observe_refines_witness :
  hist_abs histogram_new [] /\
  hist_abs (histogram_observe (3 * SECOND) histogram_new) [3 * SECOND].
Proof. split; [apply hist_abs_new | apply histogram_observe_refines, hist_abs_new]. Defined.

Lemma bucket_tally_sum obs : foldr Z.add 0 (bucket_tally obs) = Z.of_nat (length obs).
Proof.
  induction obs as [|v obs IH]; [reflexivity|].
  rewrite bucket_tally_cons, foldr_add_alter, IH.
  - simpl. lia.
  - rewrite length_bucket_tally. apply bucket_index_lt.
Qed.

Lemma histogram_count_abs h obs : hist_abs h obs -> histogram_count h = Z.of_nat (length obs).
Proof. intros [Hb _]. unfold histogram_count. by rewrite Hb, bucket_tally_sum. Qed.

Lemma histogram_wf_observe v h : histogram_wf h -> histogram_wf (histogram_observe v h).
Proof. unfold histogram_wf, histogram_observe. cbn [h_buckets]. by rewrite length_alter. Qed.

Lemma histogram_count_observe v h :
  histogram_wf h -> histogram_count (histogram_observe v h) = histogram_count h + 1.
Proof.
  intros Hh. unfold histogram_count, histogram_observe. cbn [h_buckets].
  apply foldr_add_alter. rewrite Hh. apply bucket_index_lt.
Qed.

#[export] Instance Histogram_laws : HistogramLaws Histogram.
Proof.
  split.
  - reflexivity.
  - exact histogram_wf_observe.
  - reflexivity.
  - reflexivity.
  - exact histogram_count_observe.
  - reflexivity.
Qed.

Lemma ascending_head b bs j : ascending (b :: bs) = true -> (j < length bs)%nat -> b < nth j bs 0.
Proof.
  revert b j. induction bs as [|c bs IH]; intros b j Ha Hj; simpl in *; [lia|].
  apply andb_prop in Ha as [Hbc Ha]. apply Z.ltb_lt in Hbc.
  destruct j as [|j]; [done|]. specialize (IH c j Ha ltac:(lia)). lia.
Qed.

(** [Histogram.observe]'s loop picks a bucket at or below [i] exactly when
    the amount is at most the [i]-th bound. *)
Lemma bucket_index_le bounds v i :
  ascending bounds = true -> (i < length bounds)%nat ->
  (bucket_index bounds v <= i)%nat <-> v <= nth i bounds 0.
Proof.
  revert i. induction bounds as [|b bs IH]; intros i Ha Hi; simpl in *; [lia|].
  destruct i as [|i].
  - destruct (Z.leb_spec v b); split; intros; lia.
  - assert (Ha' : ascending bs = true) by (destruct bs; [done|]; by apply andb_prop in Ha as [_ ?]).
    specialize (IH i Ha' ltac:(lia)).
    pose proof (ascending_head b bs i Ha ltac:(lia)).
    destruct (Z.leb_spec v b); split; intros; try lia.
Qed.

Lemma default_buckets_ascending : ascending DEFAULT_BUCKETS = true.
Proof. reflexivity. Qed.

Lemma bucket_tally_nil : bucket_tally [] = replicate NBUCKETS 0.
Proof. reflexivity. Qed.

Lemma foldr_add_take_zeros k n : foldr Z.add 0 (take k (replicate n 0)) = 0.
Proof. rewrite take_replicate. induction (Nat.min k n); simpl; lia. Qed.

(** C30: the cumulative [le] counts the exposition derives from the
    buckets are right: the first [i + 1] buckets together count the
    observations at most the [i]-th default bound. *)
Theorem cumulative_counts_le h obs i :
  hist_abs h obs -> (i < length DEFAULT_BUCKETS)%nat ->
  cumulative h (S i) = Z.of_nat (length (filter (fun v => v <= nth i DEFAULT_BUCKETS 0) obs)).
Proof.
  intros [Hb _] Hi. unfold cumulative. rewrite Hb. clear Hb h.
  induction obs as [|v obs IH].
  - rewrite bucket_tally_nil. apply foldr_add_take_zeros.
  - rewrite bucket_tally_cons, take_alter, filter_cons.
    pose proof (bucket_index_le DEFAULT_BUCKETS v i default_buckets_ascending Hi) as Hle.
    pose proof (bucket_index_lt DEFAULT_BUCKETS v) as Hlt.
    destruct (decide (bucket_index DEFAULT_BUCKETS v < S i)%nat) as [Hin|Hout];
      destruct (decide (v <= nth i DEFAULT_BUCKETS 0)) as [Hv|Hv]; try (exfalso; lia).
    + rewrite foldr_add_alter, IH; [simpl; lia|].
      rewrite length_take, length_bucket_tally. unfold NBUCKETS. lia.
    + exact IH.
Qed.

Lemma cumulative_counts_le_witness :
  hist_abs (histogram_observe (3 * SECOND) histogram_new) [3 * SECOND] /\
  cumulative (histogram_observe (3 * SECOND) histogram_new) 12 = 1.
Proof.
  assert (H : hist_abs (histogram_observe (3 * SECOND) histogram_new) [3 * SECOND])
    by (split; vm_compute; reflexivity).
  split; [exact H|].
  rewrite (cumulative_counts_le _ _ 11 H); [vm_compute; reflexivity | simpl; lia].
Defined.

(** ** Properties of a labelled histogram, from the interface's laws *)

Section LabelledLaws.
Context {K : Type} {EqK : EqDecision K} {CntK : Countable K} {H : Type} `{HistogramLaws H}.

Definition family_wf (m : gmap K H) : Prop := map_Forall (fun _ h => hist_wf h) m.

Lemma family_wf_empty : family_wf ∅.
Proof. apply map_Forall_empty. Qed.

Lemma default_new_wf (m : gmap K H) (l : K) : family_wf m -> hist_wf (default hist_new (m !! l)).
Proof.
  intros Hm. destruct (m !! l) eqn:E; simpl; [by apply (Hm l) | apply hist_wf_new].
Qed.

Lemma family_wf_observe (l : K) v (m : gmap K H) : family_wf m -> family_wf (labels_observe l v m).
Proof.
  intros Hm. apply map_Forall_insert_2; [|done].
  by apply hist_wf_observe, default_new_wf.
Qed.

Lemma label_count_observe_eq (l : K) v (m : gmap K H) :
  family_wf m -> label_count l (labels_observe l v m) = label_count l m + 1.
Proof.
  intros Hm. unfold label_count, labels_observe. rewrite lookup_insert_eq. simpl.
  by apply hist_count_observe, default_new_wf.
Qed.

Lemma label_count_observe_ne (l l' : K) v (m : gmap K H) :
  l <> l' -> label_count l' (labels_observe l v m) = label_count l' m.
Proof. intros Hne. unfold label_count, labels_observe. by rewrite lookup_insert_ne. Qed.

Lemma label_sum_observe_eq (l : K) v (m : gmap K H) :
  label_sum l (labels_observe l v m) = label_sum l m + v.
Proof. unfold label_sum, labels_observe. rewrite lookup_insert_eq. apply hist_sum_observe. Qed.

Lemma label_count_empty (l : K) : label_count l (∅ : gmap K H) = 0.
Proof. unfold label_count. rewrite lookup_empty. apply hist_count_new. Qed.
End LabelledLaws.

#[export] Hint Resolve family_wf_empty family_wf_observe : pyrun.

End Metrics.
