(* ===== verification/Runtime.v ===== *)
(** * The Python process the service runs in

    The state a request can change: the module global [counter], the
    Prometheus registry, the wall clock read by [time.time()], the stream
    of values [random.random()] returns, the environment [os.environ], and
    the attribute [start_time] of the current Flask [request] object.
    Python exceptions are values of [PyExc]; a computation of the service
    is a [PyM], the state-and-exception monad of [Prelude]. *)

From S2P Require Import Prelude PyStr PyInt Metrics.
Import PyStr PyInt Metrics.

Module Runtime.
Local Open Scope Z_scope.

(** ** Exceptions raised while serving a request *)

Inductive PyExc : Type :=
| ValueError (msg : string)          (** [int()] of a bad literal, [str()] of a huge int *)
| NotFound                           (** werkzeug routing: no rule for the path *)
| MethodNotAllowed                   (** werkzeug routing: rule found, method not allowed *)
| AttributeError (msg : string)      (** [request.start_time] read before it is set *)
| RequestRedirect (new_url : string). (** werkzeug routing: the path with its slashes merged has a rule *)

(** [str(e)]; for werkzeug's HTTP exceptions, ["<code> <name>: <description>"]. *)
Definition exc_str (e : PyExc) : string :=
  match e with
  | ValueError m => m
  | NotFound => "404 Not Found: The requested URL was not found on the server. If you entered the URL manually please check your spelling and try again."
  | MethodNotAllowed => "405 Method Not Allowed: The method is not allowed for the requested URL."
  | AttributeError m => m
  | RequestRedirect u => "308 Permanent Redirect: " +:+ u
  end.

(** ** The process state *)

Record St := mkSt {
  counter : Z;                      (** the global [counter] of [app.py] *)
  registry : Registry;              (** [visit_counter], [error_counter], [calc_time], [request_latency] *)
  clock : Z;                        (** the last value [time.time()] returned, in ticks *)
  rand : nat -> Z;                  (** next outputs [k] of [random.random() = k / 2^53] *)
  elapse : nat -> Z;                (** time that passes before each next [time.time()] *)
  environ : gmap string string;     (** [os.environ] *)
  req_start_time : option Z         (** [request.start_time] of the current request *)
}.

Definition set_counter (c : Z) (s : St) : St :=
  mkSt c (registry s) (clock s) (rand s) (elapse s) (environ s) (req_start_time s).
Definition set_registry (r : Registry) (s : St) : St :=
  mkSt (counter s) r (clock s) (rand s) (elapse s) (environ s) (req_start_time s).
Definition set_req_start_time (t : option Z) (s : St) : St :=
  mkSt (counter s) (registry s) (clock s) (rand s) (elapse s) (environ s) t.

Definition PyM (A : Type) : Type := stexc St PyExc A.

(** The streams are consumed from their head. *)
Definition stream_tail (f : nat -> Z) : nat -> Z := fun n => f (S n).

(** ** Library calls *)

(** [time.time()]: some time passes, then the clock is read. *)
Definition time_time : PyM Z := fun s =>
  let t := clock s + elapse s O in
  (Ret t, mkSt (counter s) (registry s) t (rand s) (stream_tail (elapse s))
               (environ s) (req_start_time s)).

(** [time.sleep(d)]. *)
Definition time_sleep (d : Z) : PyM unit := fun s =>
  (Ret tt, mkSt (counter s) (registry s) (clock s + d) (rand s) (elapse s)
                (environ s) (req_start_time s)).

(** IEEE double rounding of a non-negative integer [v] held in units of a
    power of two: to 53 significant bits, ties to even.  [e] is the
    number of low bits the mantissa cannot hold, [q] the truncation and
    [r] the remainder. *)
Definition round53 (v : Z) : Z :=
  let e := Z.log2 v - 52 in
  if e <=? 0 then v else
  let p := 2 ^ e in
  let q := v / p in
  let r := v mod p in
  (if (p <? 2 * r) || ((2 * r =? p) && Z.odd q) then q + 1 else q) * p.

(** [random.uniform(a, b) = a + (b - a) * random.random()] for integers
    [0 <= a <= b] and [random.random() = k / 2^53], in floating point: in
    units of [2^-53] s the product is [round53 ((b - a) * k)] and the sum
    [round53 (a * 2^53 + ...)]; one unit is 500 ticks. *)
Definition uniform_value (a b k : Z) : Z := 500 * round53 (a * 2 ^ 53 + round53 ((b - a) * k)).

Definition random_uniform (a b : Z) : PyM Z := fun s =>
  let k := rand s O in
  (Ret (uniform_value a b k),
   mkSt (counter s) (registry s) (clock s) (stream_tail (rand s)) (elapse s)
        (environ s) (req_start_time s)).

(** [time.sleep(random.uniform(a, b))]. *)
Definition sleep_uniform (a b : Z) : PyM unit :=
  sbind (random_uniform a b) time_sleep.

(** [os.environ.get(key, default)]. *)
Definition os_environ_get (key default : string) : PyM string := fun s =>
  (Ret (match environ s !! key with Some v => v | None => default end), s).

Definition registry_update (f : Registry -> Registry) : PyM unit :=
  smodify (fun s => set_registry (f (registry s)) s).

(** ** Values crossing the HTTP boundary *)

(** A value of [request.args.get(key, default)]: the query string gives a
    [str], the default of [/calculate] is an [int]. *)
Inductive ArgVal : Type :=
| AStr (s : string)
| AInt (z : Z).

(** [int(v)]. *)
Definition py_int (v : ArgVal) : PyM Z :=
  match v with
  | AInt z => sret z
  | AStr s => match int_of_str s with
              | Ret z => sret z
              | Exn msg => sraise (ValueError msg)
              end
  end.

Local Set Warnings "-register-all".

(** The JSON values the handlers build. *)
Inductive Json : Type :=
| JStr (s : string)
| JInt (z : Z)
| JObj (fields : list (string * Json)).

(** [json.dumps] writes every integer with [int.__repr__], which fails
    above the digit limit; this is the first such failure, if any. *)
Fixpoint json_int_error (j : Json) : option string :=
  match j with
  | JStr _ => None
  | JInt z => match py_str_int z with Exn m => Some m | Ret _ => None end
  | JObj fs =>
      (fix go (fs : list (string * Json)) : option string :=
         match fs with
         | [] => None
         | (_, v) :: fs' => match json_int_error v with Some m => Some m | None => go fs' end
         end) fs
  end.

Inductive Body : Type :=
| BJson (j : Json)           (** [jsonify(...)] *)
| BEmpty                     (** Flask's automatic [OPTIONS] response *)
| BRedirect (location : string)
    (** werkzeug's [RequestRedirect] response, to the path given *)
| BMetrics (r : Registry) (names : option (list string))
    (** the exposition of the registry at [/metrics], restricted to the
        sample names [names] when the query has [name[]] *)
| BMultiproc (names : option (list string)).
    (** the exposition of [PROMETHEUS_MULTIPROC_DIR], which the model
        does not read *)

Record Response := mkResponse { status : Z; body : Body }.

(** [jsonify(obj)]: serialise now, status 200. *)
Definition jsonify (j : Json) : PyM Response :=
  match json_int_error j with
  | Some m => sraise (ValueError m)
  | None => sret (mkResponse 200 (BJson j))
  end.

(** ** The request *)

Record Request := mkRequest {
  method : string;
  path : string;
  args : list (string * string)    (** [request.args], in query-string order *)
}.

(** [request.args.get(key, default)]: the first value of the key. *)
Definition args_get (req : Request) (key : string) (default : ArgVal) : ArgVal :=
  match alist_get key (args req) with Some v => AStr v | None => default end.


(** ** Well-formed states and the frame of handler code *)

(** The draws of [random.random()] are 53-bit, time does not run
    backwards, and every histogram has one count per bucket. *)
Definition world_wf (s : St) : Prop :=
  (forall n, 0 <= rand s n < 2 ^ 53) /\ (forall n, 0 <= elapse s n) /\
  family_wf (request_latency_seconds (registry s)) /\
  histogram_wf (calculate_duration_seconds (registry s)).

(** What a view or the error handler may do to the process: keep it
    well formed, let time pass, count errors, increment [counter]; it does
    not touch [request.start_time], the latency histogram, the visit
    counter or the environment. *)
Definition handler_frame (s s' : St) : Prop :=
  world_wf s ->
  world_wf s' /\ clock s <= clock s' /\ req_start_time s' = req_start_time s /\
  request_latency_seconds (registry s') = request_latency_seconds (registry s) /\
  app_visits_total (registry s') = app_visits_total (registry s) /\
  app_errors_total (registry s) <= app_errors_total (registry s') /\
  counter s <= counter s' /\ environ s' = environ s.

#[export] Instance handler_frame_preorder : PreOrder handler_frame.
Proof.
  split.
  - intros s Hs. split; [done|]. repeat split; lia.
  - intros s1 s2 s3 H12 H23 Hs1.
    destruct (H12 Hs1) as (Hs2 & ?&?&?&?&?&?&?).
    destruct (H23 Hs2) as (Hs3 & ?&?&?&?&?&?&?).
    split; [done|]. repeat split; congruence || lia.
Qed.

Lemma world_wf_tail_rand s :
  world_wf s -> forall n, 0 <= stream_tail (rand s) n < 2 ^ 53.
Proof. intros (Hr & _) n. apply Hr. Qed.

Lemma time_time_frame : stays handler_frame time_time.
Proof.
  intros s (Hr & He & Hf & Hc). simpl. pose proof (He O).
  split; [split; [done|split; [intros m; apply He|done]]|].
  repeat split; simpl; lia.
Qed.

Lemma round53_between v d M1 M2 :
  0 <= d -> Z.log2 v - 52 <= d -> (2 ^ d | M1) -> (2 ^ d | M2) ->
  M1 <= v <= M2 -> M1 <= round53 v <= M2.
Proof.
  intros Hd He H1 H2 Hv. unfold round53.
  destruct (Z.leb_spec (Z.log2 v - 52) 0) as [_|Hpos]; [lia|].
  set (e := Z.log2 v - 52) in *.
  assert (Hp : 0 < 2 ^ e) by (apply Z.pow_pos_nonneg; lia).
  assert (Hdiv : forall M, (2 ^ d | M) -> (2 ^ e | M)).
  { intros M HM. eapply Z.divide_trans; [|exact HM].
    exists (2 ^ (d - e)). rewrite <- Z.pow_add_r by lia. f_equal. lia. }
  destruct (Hdiv _ H1) as [a1 ->], (Hdiv _ H2) as [a2 ->].
  pose proof (Z.div_mod v (2 ^ e) ltac:(lia)) as Hdm.
  pose proof (Z.mod_pos_bound v (2 ^ e) Hp) as Hr.
  set (q := v / 2 ^ e) in *. set (r := v mod 2 ^ e) in *.
  assert (Ha1 : a1 <= q).
  { apply Z.lt_succ_r. apply (Z.mul_lt_mono_pos_r (2 ^ e)); lia. }
  destruct (Z.eq_dec r 0) as [Hr0|Hr0].
  - rewrite Hr0. replace (2 ^ e <? 2 * 0) with false by (symmetry; apply Z.ltb_ge; lia).
    replace (2 * 0 =? 2 ^ e) with false by (symmetry; apply Z.eqb_neq; lia).
    simpl. nia.
  - assert (Ha2 : q < a2) by (apply (Z.mul_lt_mono_pos_r (2 ^ e)); lia).
    destruct (_ || _); nia.
Qed.

Lemma log2_below v n : 0 < n -> v < 2 ^ n -> Z.log2 v < n.
Proof.
  intros Hn Hv. destruct (Z.leb_spec v 0) as [Hle|Hpos].
  - rewrite Z.log2_nonpos by done. lia.
  - by apply Z.log2_lt_pow2.
Qed.

(** [uniform(1, 3)]: the product [2 k] is exact, the sum is rounded to
    even multiples of [2^-52] s above 2 s, so the delay lies in [[1, 3]]
    seconds, 3 included. *)
Lemma uniform_value_1_3 k : 0 <= k < 2 ^ 53 -> SECOND <= uniform_value 1 3 k <= 3 * SECOND.
Proof.
  intros Hk. unfold uniform_value, SECOND, TICKS_PER_MS.
  assert (Hin : round53 ((3 - 1) * k) = (3 - 1) * k).
  { assert (Hl : Z.log2 ((3 - 1) * k) < 54) by (apply log2_below; lia).
    enough (H : (3 - 1) * k <= round53 ((3 - 1) * k) <= (3 - 1) * k) by lia.
    apply round53_between with (d := 1); [lia | lia | exists k; lia | exists k; lia | lia]. }
  rewrite Hin.
  assert (Hl : Z.log2 (1 * 2 ^ 53 + (3 - 1) * k) < 55) by (apply log2_below; lia).
  assert (H : 2 ^ 53 <= round53 (1 * 2 ^ 53 + (3 - 1) * k) <= 3 * 2 ^ 53).
  { apply round53_between with (d := 2);
      [lia | lia | exists (2 ^ 51); reflexivity | exists (3 * 2 ^ 51); reflexivity | lia]. }
  assert (H2 : 2 ^ 53 = 2 * 2 ^ 52) by reflexivity. lia.
Qed.

(** [time.sleep(random.uniform(1, 3))] sleeps [uniform_value 1 3 k]. *)
Lemma sleep_uniform_run s :
  sleep_uniform 1 3 s =
  (Ret tt, mkSt (counter s) (registry s) (clock s + uniform_value 1 3 (rand s O))
                (stream_tail (rand s)) (elapse s) (environ s) (req_start_time s)).
Proof. reflexivity. Qed.

Lemma sleep_uniform_frame : stays handler_frame (sleep_uniform 1 3).
Proof.
  intros s (Hr & He & Hf & Hc). rewrite sleep_uniform_run. simpl.
  pose proof (uniform_value_1_3 _ (Hr O)). pose proof SECOND_pos.
  split; [split; [intros m; apply Hr|done]|]. repeat split; simpl; lia.
Qed.

(** C18: [time.sleep(random.uniform(1, 3))] advances the clock by at
    least one and at most three seconds, whatever the 53-bit draw; the
    float addition rounds the largest draw up to exactly three seconds. *)
Theorem sleep_uniform_bounds s :
  world_wf s ->
  SECOND <= clock (snd (sleep_uniform 1 3 s)) - clock s <= 3 * SECOND /\
  (rand s O = 2 ^ 53 - 1 -> clock (snd (sleep_uniform 1 3 s)) - clock s = 3 * SECOND).
Proof.
  intros (Hr & _). rewrite sleep_uniform_run. cbn [snd clock].
  split; [pose proof (uniform_value_1_3 _ (Hr O)); lia|].
  intros ->. assert (uniform_value 1 3 (2 ^ 53 - 1) = 3 * SECOND) by (vm_compute; reflexivity). lia.
Qed.

Lemma os_environ_get_frame k d : stays handler_frame (os_environ_get k d).
Proof. intros s. simpl. reflexivity. Qed.

Lemma error_counter_inc_frame : stays handler_frame (registry_update error_counter_inc).
Proof. intros s Hs. split; [done|]. repeat split; simpl; lia. Qed.

Lemma calc_time_observe_frame v : stays handler_frame (registry_update (calc_time_observe v)).
Proof.
  intros s (Hr & He & Hf & Hc). simpl.
  split; [split; [done|split; [done|split; [done|by apply histogram_wf_observe]]]|].
  repeat split; lia.
Qed.

Lemma jsonify_frame j : stays handler_frame (jsonify j).
Proof. unfold jsonify. stays_tac. Qed.

Lemma py_int_frame v : stays handler_frame (py_int v).
Proof. unfold py_int. stays_tac. Qed.

#[export] Hint Resolve time_time_frame sleep_uniform_frame os_environ_get_frame
  error_counter_inc_frame calc_time_observe_frame jsonify_frame py_int_frame : pyrun.

(** ** Code that does not count errors *)

(** Only the error handler touches [app_errors_total]. *)
Definition errors_eq (s s' : St) : Prop :=
  app_errors_total (registry s') = app_errors_total (registry s).

#[export] Instance errors_eq_preorder : PreOrder errors_eq.
Proof. split; [intros s; reflexivity | intros s1 s2 s3 H12 H23; unfold errors_eq in *; congruence]. Qed.

Lemma time_time_errors : stays errors_eq time_time.
Proof. intros s. reflexivity. Qed.
Lemma sleep_uniform_errors a b : stays errors_eq (sleep_uniform a b).
Proof. intros s. reflexivity. Qed.
Lemma os_environ_get_errors k d : stays errors_eq (os_environ_get k d).
Proof. intros s. reflexivity. Qed.
Lemma calc_time_observe_errors v : stays errors_eq (registry_update (calc_time_observe v)).
Proof. intros s. reflexivity. Qed.
Lemma jsonify_errors j : stays errors_eq (jsonify j).
Proof. unfold jsonify. stays_tac. Qed.
Lemma py_int_errors v : stays errors_eq (py_int v).
Proof. unfold py_int. stays_tac. Qed.

(** [jsonify] answers status 200 when it returns. *)
Lemma jsonify_200 j : returns (fun r => status r = 200) (jsonify j).
Proof. unfold jsonify. returns_tac. reflexivity. Qed.

#[export] Hint Resolve time_time_errors sleep_uniform_errors os_environ_get_errors
  calc_time_observe_errors jsonify_errors py_int_errors jsonify_200 : pyrun.

Lemma sleep_uniform_bounds_witness :
  let s := mkSt 0 registry_init 0 (fun _ => 2 ^ 53 - 1) (fun _ => 0) ∅ None in
  world_wf s /\ rand s O = 2 ^ 53 - 1 /\ clock (snd (sleep_uniform 1 3 s)) = 3 * SECOND.
Proof.
  intros s.
  assert (Hs : world_wf s).
  { split; [intros n; split; [discriminate | reflexivity]|].
    split; [intros n; discriminate|]. split; [apply family_wf_empty | reflexivity]. }
  split; [exact Hs|]. split; [reflexivity|].
  pose proof (proj2 (sleep_uniform_bounds s Hs) eq_refl) as H. cbn [clock s] in H. lia.
Defined.

End Runtime.
