(* ===== verification/JsonText.v ===== *)
(** * The text of the JSON responses

    Flask's [jsonify] (its [DefaultJSONProvider.response], Flask 2.2 and
    later; the repository pins no version) writes the body
    with [json.dumps(obj, sort_keys=True, ensure_ascii=True)] and a final
    newline: compact separators [(",", ":")] when the app is not in debug
    mode, [indent=2] (separators [(",", ": ")]) when it is.  This file
    models that encoder on the values the handlers build ([Runtime.Json]):
    strings escaped as [py_encode_basestring_ascii] does, integers by
    [int.__repr__] with its digit limit, objects with their items sorted by
    key.

    A reference decoder for the same values ([json_loads], the subset of
    [json.loads] that reads strings, integers and objects) states what the
    text means: decoding the text of a value gives the value back, with the
    keys of every object in sorted order.

    Python sorts the items before encoding them, the model encodes them
    before sorting: the outcome is the same, because the only failure,
    [int.__repr__] above the limit, has one message whatever the integer.
    The keys of a dict are distinct, so the order of the sort is the order
    of the keys. *)

From Stdlib Require Import Sorting.Sorted.
From S2P Require Import Prelude PyStr PyInt Metrics Runtime.
Import PyStr PyInt Runtime.

Module JsonText.
Local Open Scope Z_scope.

Definition chr (n : nat) : ascii := ascii_of_nat n.
Definition str1 (c : ascii) : string := String c EmptyString.

(** ** Strings: [py_encode_basestring_ascii] *)

(** The escape after the backslash for a character that is not written
    as itself: [\\], the quote, the five short escapes, otherwise
    [\u00XX] in lower-case hex ([Py_hexdigits]). *)
Definition escape_tail (n : nat) : string :=
  if (n =? 92)%nat then str1 backslash
  else if (n =? 34)%nat then str1 dquote
  else if (n =? 8)%nat then "b"
  else if (n =? 12)%nat then "f"
  else if (n =? 10)%nat then "n"
  else if (n =? 13)%nat then "r"
  else if (n =? 9)%nat then "t"
  else "u00" +:+ String (hexdigit (n / 16)) (str1 (hexdigit (n mod 16))).

(** [S_CHAR(c)]: printable ASCII other than the backslash and the quote
    is written as itself. *)
Definition plain_char (n : nat) : bool :=
  (32 <=? n)%nat && (n <=? 126)%nat && negb (n =? 92)%nat && negb (n =? 34)%nat.

Definition escape_char (c : ascii) : string :=
  if plain_char (code c) then str1 c else String backslash (escape_tail (code c)).

Fixpoint escape (s : string) : string :=
  match s with
  | EmptyString => EmptyString
  | String c s' => escape_char c +:+ escape s'
  end.

Definition enc_string (s : string) : string := String dquote (escape s +:+ str1 dquote).

(** ** Sorting the items: [sorted(dct.items())] *)

(** Python's [str] order: code points, lexicographically, a prefix first. *)
Fixpoint str_ltb (a b : string) : bool :=
  match a, b with
  | _, EmptyString => false
  | EmptyString, String _ _ => true
  | String c a', String d b' =>
      (code c <? code d)%nat || ((code c =? code d)%nat && str_ltb a' b')
  end.

Definition str_leb (a b : string) : bool := negb (str_ltb b a).

Section Sort.
Context {A : Type} (key : A -> string).

Fixpoint insert_by (x : A) (l : list A) : list A :=
  match l with
  | [] => [x]
  | h :: l' => if str_leb (key x) (key h) then x :: l else h :: insert_by x l'
  end.

Fixpoint sort_by (l : list A) : list A :=
  match l with
  | [] => []
  | h :: l' => insert_by h (sort_by l')
  end.
End Sort.

(** ** The encoder *)

(** The separators and indentation of one [dumps] call. *)
Record Style := mkStyle { item_sep : string; key_sep : string; indent : option nat }.

Definition compact : Style := mkStyle "," ":" None.
Definition pretty : Style := mkStyle "," ": " (Some 2%nat).

Fixpoint spaces (n : nat) : string :=
  match n with O => EmptyString | S k => String (chr 32) (spaces k) end.

(** [newline_indent] at a nesting level: nothing without indentation. *)
Definition nl (st : Style) (lvl : nat) : string :=
  match indent st with
  | None => EmptyString
  | Some k => String (chr 10) (spaces (k * lvl))
  end.

Fixpoint join (sep : string) (l : list string) : string :=
  match l with
  | [] => EmptyString
  | [x] => x
  | x :: l' => x +:+ (sep +:+ join sep l')
  end.

Definition item_text (st : Style) (kt : string * string) : string :=
  enc_string (fst kt) +:+ (key_sep st +:+ snd kt).

(** A non-empty dict at level [lvl] whose values are already encoded. *)
Definition obj_text (st : Style) (lvl : nat) (items : list (string * string)) : string :=
  "{" +:+ (nl st (S lvl) +:+ (join (item_sep st +:+ nl st (S lvl)) (item_text st <$> items)
        +:+ (nl st lvl +:+ "}"))).

(** The values of a dict's items, encoded in the dict's order; the first
    failure stops the encoding. *)
Fixpoint encode_items (enc : Json -> outcome string string) (fs : list (string * Json))
  : outcome string (list (string * string)) :=
  match fs with
  | [] => Ret []
  | (k, v) :: fs' =>
      match enc v with
      | Exn m => Exn m
      | Ret t => match encode_items enc fs' with Exn m => Exn m | Ret l => Ret ((k, t) :: l) end
      end
  end.

(** [JSONEncoder.iterencode] at nesting level [lvl]: a string, an int by
    [int.__repr__], a dict as ["{}"] or its sorted items. *)
Fixpoint dumps_at (st : Style) (lvl : nat) (j : Json) : outcome string string :=
  match j with
  | JStr s => Ret (enc_string s)
  | JInt z => py_str_int z
  | JObj fs =>
      match encode_items (dumps_at st (S lvl)) fs with
      | Exn m => Exn m
      | Ret [] => Ret "{}"
      | Ret items => Ret (obj_text st lvl (sort_by fst items))
      end
  end.

Definition dumps (st : Style) (j : Json) : outcome string string := dumps_at st O j.

(** The body [jsonify] sends: the dump and a newline, pretty-printed when
    the app runs in debug mode. *)
Definition response_text (debug : bool) (j : Json) : outcome string string :=
  match dumps (if debug then pretty else compact) j with
  | Ret t => Ret (t +:+ str1 (chr 10))
  | Exn m => Exn m
  end.

(** The value a decoder of the text sees: every object's items sorted. *)
Fixpoint sort_json (j : Json) : Json :=
  match j with
  | JObj fs => JObj (sort_by fst ((fun kv => (fst kv, sort_json (snd kv))) <$> fs))
  | _ => j
  end.

(** ** The reference decoder: [json.loads] on strings, integers, objects *)

Definition is_ws (c : ascii) : bool :=
  let n := code c in (n =? 32)%nat || (n =? 9)%nat || (n =? 10)%nat || (n =? 13)%nat.

Fixpoint skip_ws (s : string) : string :=
  match s with
  | String c s' => if is_ws c then skip_ws s' else s
  | EmptyString => EmptyString
  end.

(** The character a one-letter escape stands for. *)
Definition unescape (e : ascii) : option ascii :=
  let n := code e in
  if (n =? 34)%nat then Some dquote
  else if (n =? 92)%nat then Some backslash
  else if (n =? 47)%nat then Some (chr 47)
  else if (n =? 98)%nat then Some (chr 8)
  else if (n =? 102)%nat then Some (chr 12)
  else if (n =? 110)%nat then Some (chr 10)
  else if (n =? 114)%nat then Some (chr 13)
  else if (n =? 116)%nat then Some (chr 9)
  else None.

Definition hexval (c : ascii) : option nat :=
  let n := code c in
  if (48 <=? n)%nat && (n <=? 57)%nat then Some (n - 48)%nat
  else if (97 <=? n)%nat && (n <=? 102)%nat then Some (n - 87)%nat
  else if (65 <=? n)%nat && (n <=? 70)%nat then Some (n - 55)%nat
  else None.

Definition hex4 (a b c d : ascii) : option nat :=
  match hexval a, hexval b, hexval c, hexval d with
  | Some x, Some y, Some z, Some w => Some (((x * 16 + y) * 16 + z) * 16 + w)%nat
  | _, _, _, _ => None
  end.

(** The body of a string after its opening quote: the characters up to
    the closing quote, and the rest.  Raw control characters are refused
    ([strict=True]); a [\u] escape above U+00FF is outside the model. *)
Fixpoint parse_str (s : string) : option (string * string) :=
  match s with
  | EmptyString => None
  | String c s' =>
      if Ascii.eqb c dquote then Some (EmptyString, s')
      else if Ascii.eqb c backslash then
        match s' with
        | EmptyString => None
        | String e s'' =>
            match unescape e with
            | Some c' => match parse_str s'' with Some (x, r) => Some (String c' x, r) | None => None end
            | None =>
                if (code e =? 117)%nat then
                  match s'' with
                  | String h1 (String h2 (String h3 (String h4 r0))) =>
                      match hex4 h1 h2 h3 h4 with
                      | Some n =>
                          if (n <? 256)%nat then
                            match parse_str r0 with Some (x, r) => Some (String (chr n) x, r) | None => None end
                          else None
                      | None => None
                      end
                  | _ => None
                  end
                else None
            end
        end
      else if (code c <? 32)%nat then None
      else match parse_str s' with Some (x, r) => Some (String c x, r) | None => None end
  end.

Fixpoint take_digits (s : string) : list Z * string :=
  match s with
  | String c s' =>
      if is_digit c then let '(ds, r) := take_digits s' in (digit_val c :: ds, r) else ([], s)
  | EmptyString => ([], EmptyString)
  end.

(** An optional minus, then [0] alone or a non-zero digit and more
    digits (the integer part of [NUMBER_RE] in [json.scanner]), read
    with [int()] and its digit limit. *)
Definition parse_number (s : string) : option (Z * string) :=
  let '(sign, t) :=
    match s with
    | String c t => if Ascii.eqb c minus_sign then (-1, t) else (1, s)
    | EmptyString => (1, s)
    end in
  match t with
  | String c t' =>
      if (code c =? 48)%nat then Some (0, t')
      else if is_digit c then
        let '(ds, r) := take_digits t in
        if (MAX_STR_DIGITS <? length ds)%nat then None else Some (sign * digits_value ds, r)
      else None
  | EmptyString => None
  end.

Fixpoint parse_value (fuel : nat) (s : string) : option (Json * string) :=
  match fuel with
  | O => None
  | S f =>
      match skip_ws s with
      | String c s' =>
          if Ascii.eqb c dquote then
            match parse_str s' with Some (x, r) => Some (JStr x, r) | None => None end
          else if (code c =? 123)%nat then
            match skip_ws s' with
            | String c2 s2 =>
                if (code c2 =? 125)%nat then Some (JObj [], s2)
                else match parse_members f (String c2 s2) with
                     | Some (fs, r) => Some (JObj fs, r)
                     | None => None
                     end
            | EmptyString => None
            end
          else match parse_number (String c s') with Some (z, r) => Some (JInt z, r) | None => None end
      | EmptyString => None
      end
  end
with parse_members (fuel : nat) (s : string) : option (list (string * Json) * string) :=
  match fuel with
  | O => None
  | S f =>
      match skip_ws s with
      | String c s' =>
          if Ascii.eqb c dquote then
            match parse_str s' with
            | Some (k, r1) =>
                match skip_ws r1 with
                | String c1 r2 =>
                    if (code c1 =? 58)%nat then
                      match parse_value f r2 with
                      | Some (v, r3) =>
                          match skip_ws r3 with
                          | String c3 r4 =>
                              if (code c3 =? 44)%nat then
                                match parse_members f r4 with
                                | Some (fs, r) => Some ((k, v) :: fs, r)
                                | None => None
                                end
                              else if (code c3 =? 125)%nat then Some ([(k, v)], r4)
                              else None
                          | EmptyString => None
                          end
                      | None => None
                      end
                    else None
                | EmptyString => None
                end
            | None => None
            end
          else None
      | EmptyString => None
      end
  end.

(** A whole document: one value and only whitespace after it. *)
Definition json_loads (s : string) : option Json :=
  match parse_value (String.length s) s with
  | Some (j, r) => match skip_ws r with EmptyString => Some j | _ => None end
  | None => None
  end.

(** ** What the text means

    The predicates the theorems below state of the text.  [num_stop r]:
    a number written before [r] ends where [r] starts. *)
Definition num_stop (r : string) : Prop :=
  match r with String c _ => is_digit c = false | EmptyString => True end.

(** Whitespace only, as [skip_ws] skips it. *)
Fixpoint ws_only (s : string) : bool :=
  match s with EmptyString => true | String c s' => is_ws c && ws_only s' end.

(** The separators of [compact] and [pretty]: a comma between items, a
    colon and whitespace between a key and its value. *)
Definition style_ok (st : Style) : Prop :=
  item_sep st = "," /\ exists w, key_sep st = ":" +:+ w /\ ws_only w = true.

(** [t] is the text of [v] followed by anything a number cannot continue
    into: the decoder reads [v] back, given as much fuel as [t] has
    characters. *)
Definition decodes (t : string) (v : Json) : Prop :=
  forall fuel rest, (String.length t <= fuel)%nat -> num_stop rest ->
  parse_value fuel (t +:+ rest) = Some (v, rest).

(** A character [ensure_ascii] output may hold: printable ASCII, and the
    newline where the indentation puts one. *)
Definition out_char (nl_ok : bool) (c : ascii) : bool :=
  (32 <=? code c)%nat && (code c <=? 126)%nat || nl_ok && (code c =? 10)%nat.

Fixpoint all_out (nl_ok : bool) (s : string) : bool :=
  match s with EmptyString => true | String c s' => out_char nl_ok c && all_out nl_ok s' end.

(** The style indents: its text has newlines. *)
Definition indents (st : Style) : bool := match indent st with Some _ => true | None => false end.

(** ** Strings and numbers read back *)

Lemma parse_escape_char c t :
  parse_str (escape_char c +:+ t) =
  match parse_str t with Some (x, r) => Some (String c x, r) | None => None end.
Proof.
  destruct c as [[] [] [] [] [] [] [] []]; cbv -[parse_str String.append]; rewrite ?append_cons, ?append_nil; reflexivity.
Qed.

Lemma parse_enc_string s rest : parse_str (escape s +:+ String dquote rest) = Some (s, rest).
Proof.
  induction s as [|c s IH]; [reflexivity|].
  cbn [escape]. rewrite append_assoc_str, parse_escape_char, IH. reflexivity.
Qed.

Lemma take_digits_of ds rest :
  Forall is_dec_digit ds -> num_stop rest -> take_digits (string_of_digits ds +:+ rest) = (ds, rest).
Proof.
  intros Hds Hr. induction Hds as [|d ds Hd _ IH].
  - destruct rest as [|c r]; [done|]. cbn [string_of_digits take_digits]. rewrite append_nil. cbn [take_digits]. by rewrite Hr.
  - cbn [string_of_digits]. rewrite append_cons. cbn [take_digits].
    destruct (char_of_digit_spec d Hd) as (-> & -> & _). by rewrite IH.
Qed.

Lemma digits_aux_head f n acc :
  1 <= n < 10 ^ Z.of_nat f -> exists d ds, digits_aux f n acc = d :: ds /\ 1 <= d.
Proof.
  revert n acc. induction f as [|f IH]; intros n acc Hn; [simpl in Hn; lia|].
  cbn [digits_aux]. destruct (Z.ltb_spec n 10); [eexists _, _; split; [reflexivity | lia]|].
  apply IH. rewrite Nat2Z.inj_succ, Z.pow_succ_r in Hn by lia.
  split; [apply Z.div_le_lower_bound | apply Z.div_lt_upper_bound]; lia.
Qed.

Lemma decimal_digits_head n : 1 <= n -> exists d ds, decimal_digits n = d :: ds /\ 1 <= d.
Proof. intros Hn. apply digits_aux_head. split; [done | apply digits_fuel_enough; lia]. Qed.

Lemma char_of_digit_code d : is_dec_digit d -> code (char_of_digit d) = (48 + Z.to_nat d)%nat.
Proof.
  intros Hd. unfold code, char_of_digit. rewrite nat_ascii_embedding; [done|].
  unfold is_dec_digit in Hd. lia.
Qed.

Lemma parse_number_str_of_Z z rest :
  (ndigits z <= MAX_STR_DIGITS)%nat -> num_stop rest ->
  parse_number (str_of_Z z +:+ rest) = Some (z, rest).
Proof.
  intros Hlen Hr. unfold parse_number, str_of_Z.
  destruct (Z.eq_dec z 0) as [->|Hz].
  - reflexivity.
  - destruct (decimal_digits_head (Z.abs z) ltac:(lia)) as (d & ds & Hdd & Hd1).
    pose proof (decimal_digits_range (Z.abs z) (Z.abs_nonneg z)) as Hrange.
    rewrite Hdd in Hrange. inversion Hrange as [|? ? Hd Hds]; subst.
    destruct (char_of_digit_spec d Hd) as (Hdig & _ & _ & _ & _ & Hm).
    assert (H48 : (code (char_of_digit d) =? 48)%nat = false)
      by (apply Nat.eqb_neq; rewrite char_of_digit_code by done; lia).
    unfold ndigits in Hlen. rewrite Hdd in Hlen.
    pose proof (decimal_digits_value (Z.abs z) (Z.abs_nonneg z)) as Hv. rewrite Hdd in Hv.
    destruct (Z.ltb_spec z 0); [|rewrite Z.abs_eq in Hdd, Hv by lia]; rewrite Hdd; cbn [string_of_digits]; rewrite ?append_cons;
      rewrite ?Ascii.eqb_refl, ?Hm; cbv beta iota; rewrite H48, Hdig, <- append_cons;
      change (String (char_of_digit d) (string_of_digits ds)) with (string_of_digits (d :: ds));
      rewrite take_digits_of by (first [exact Hr | by constructor]);
      (destruct (Nat.ltb_spec MAX_STR_DIGITS (length (d :: ds))); [lia|]); rewrite Hv; do 2 f_equal; lia.
Qed.

(** Induction on [Json] with a hypothesis for every value of an object. *)
Lemma Json_ind' (P : Json -> Prop) :
  (forall s, P (JStr s)) -> (forall z, P (JInt z)) ->
  (forall fs, Forall (fun kv => P (snd kv)) fs -> P (JObj fs)) -> forall j, P j.
Proof.
  intros Hs Hz Ho. fix IH 1. intros [s|z|fs]; [apply Hs | apply Hz | apply Ho].
  revert fs. fix IHl 1. intros [|[k v] fs]; constructor; [apply IH | apply IHl].
Qed.

Lemma length_append_str u v : String.length (u +:+ v) = (String.length u + String.length v)%nat.
Proof. induction u as [|c u IH]; [done|]. rewrite append_cons. cbn. by rewrite IH. Qed.

Lemma str1_append c x : str1 c +:+ x = String c x.
Proof. reflexivity. Qed.

Lemma join_cons2 sep x y l : join sep (x :: y :: l) = x +:+ (sep +:+ join sep (y :: l)).
Proof. reflexivity. Qed.

(** ** Sorting *)

Section SortForall2.
Context {A B : Type} (ka : A -> string) (kb : B -> string) (R : A -> B -> Prop).
Hypothesis HR : forall a b, R a b -> ka a = kb b.

Lemma insert_by_Forall2 x y l1 l2 :
  R x y -> Forall2 R l1 l2 -> Forall2 R (insert_by ka x l1) (insert_by kb y l2).
Proof.
  intros Hxy H. induction H as [|a b l1 l2 Hab Hl IH]; cbn [insert_by]; [by repeat constructor|].
  rewrite (HR _ _ Hxy), (HR _ _ Hab). destruct (str_leb _ _); repeat constructor; auto.
Qed.

Lemma sort_by_Forall2 l1 l2 : Forall2 R l1 l2 -> Forall2 R (sort_by ka l1) (sort_by kb l2).
Proof. induction 1; cbn [sort_by]; [constructor | by apply insert_by_Forall2]. Qed.
End SortForall2.

Lemma insert_by_perm {A} (k : A -> string) x l : insert_by k x l ≡ₚ x :: l.
Proof.
  induction l as [|h l IH]; cbn; [done|]. destruct (str_leb _ _); [done|].
  rewrite IH. apply Permutation_swap.
Qed.

Lemma sort_by_perm {A} (k : A -> string) l : sort_by k l ≡ₚ l.
Proof. induction l as [|h l IH]; cbn; [done|]. by rewrite insert_by_perm, IH. Qed.

Lemma insert_by_nonnil {A} (k : A -> string) x l : insert_by k x l <> [].
Proof. destruct l; cbn; [done|]. by destruct (str_leb _ _). Qed.

Lemma str_ltb_asym a b : str_ltb a b = true -> str_ltb b a = false.
Proof.
  revert b. induction a as [|c a IH]; intros [|d b]; cbn [str_ltb]; try done.
  intros [H|[H1 H2]%andb_true_iff]%orb_true_iff.
  - apply Nat.ltb_lt in H. apply orb_false_iff. split; [apply Nat.ltb_ge; lia|].
    apply andb_false_iff. left. apply Nat.eqb_neq. lia.
  - apply Nat.eqb_eq in H1. rewrite H1, Nat.ltb_irrefl, Nat.eqb_refl. cbn. by apply IH.
Qed.

Lemma str_leb_total a b : str_leb a b = false -> str_leb b a = true.
Proof. unfold str_leb. intros H%negb_false_iff. by rewrite str_ltb_asym. Qed.

Section SortSpec.
Context {A : Type} (key : A -> string).
Let le (x y : A) : Prop := str_leb (key x) (key y) = true.

Lemma insert_by_sorted x l : Sorted le l -> Sorted le (insert_by key x l).
Proof.
  induction 1 as [|h l Hl IH Hhd]; cbn; [by repeat constructor|].
  destruct (str_leb (key x) (key h)) eqn:E; [by repeat constructor|].
  constructor; [exact IH|].
  destruct l as [|h' l]; cbn; [constructor; by apply str_leb_total|].
  inversion Hhd; subst. destruct (str_leb (key x) (key h')); constructor; [by apply str_leb_total | done].
Qed.

Lemma sort_by_sorted l : Sorted le (sort_by key l).
Proof. induction l; cbn; [constructor | by apply insert_by_sorted]. Qed.
End SortSpec.

(** ** The encoder, item by item *)

Lemma encode_items_spec enc fs items :
  encode_items enc fs = Ret items ->
  Forall2 (fun kv kt => fst kt = fst kv /\ enc (snd kv) = Ret (snd kt)) fs items.
Proof.
  revert items. induction fs as [|[k v] fs IH]; intros items H; cbn in H.
  - injection H as <-. constructor.
  - destruct (enc v) as [t|m] eqn:Ev; [|done].
    destruct (encode_items enc fs) as [l|m] eqn:El; [|done]. injection H as <-.
    constructor; [done | by apply IH].
Qed.

Lemma json_int_error_cons k v fs :
  json_int_error (JObj ((k, v) :: fs)) =
  match json_int_error v with Some m => Some m | None => json_int_error (JObj fs) end.
Proof. reflexivity. Qed.

Lemma encode_items_error enc fs :
  Forall (fun kv => match enc (snd kv) with Ret _ => json_int_error (snd kv) = None
                    | Exn m => json_int_error (snd kv) = Some m end) fs ->
  match encode_items enc fs with
  | Ret _ => json_int_error (JObj fs) = None
  | Exn m => json_int_error (JObj fs) = Some m
  end.
Proof.
  induction 1 as [|[k v] fs Hv _ IH]; [reflexivity|]. cbn [encode_items snd] in *.
  rewrite json_int_error_cons.
  destruct (enc v); [rewrite Hv | by rewrite Hv].
  by destruct (encode_items enc fs).
Qed.

(** ** Separators and whitespace *)

Lemma compact_ok : style_ok compact.
Proof. split; [done|]. by exists EmptyString. Qed.

Lemma pretty_ok : style_ok pretty.
Proof. split; [done|]. by exists " ". Qed.

Lemma skip_ws_app w s : ws_only w = true -> skip_ws (w +:+ s) = skip_ws s.
Proof.
  induction w as [|c w IH]; [done|]. rewrite append_cons. cbn [ws_only skip_ws].
  intros H. apply andb_true_iff in H as [-> H]. by apply IH.
Qed.

Lemma spaces_ws n : ws_only (spaces n) = true.
Proof. by induction n. Qed.

Lemma nl_ws st lvl : ws_only (nl st lvl) = true.
Proof. unfold nl. destruct (indent st); [apply spaces_ws | done]. Qed.

Lemma parse_value_ws f w s : ws_only w = true -> parse_value f (w +:+ s) = parse_value f s.
Proof. intros Hw. destruct f; [done|]. cbn [parse_value]. by rewrite skip_ws_app. Qed.

Lemma parse_members_ws f w s : ws_only w = true -> parse_members f (w +:+ s) = parse_members f s.
Proof. intros Hw. destruct f; [done|]. cbn [parse_members]. by rewrite skip_ws_app. Qed.

Lemma nl_close_num_stop st lvl r : num_stop (nl st lvl +:+ ("}" +:+ r)).
Proof. unfold nl. by destruct (indent st). Qed.

Lemma dquote_not_ws : is_ws dquote = false.
Proof. reflexivity. Qed.

(** The text of an integer starts with the minus sign or a digit. *)
Lemma str_of_Z_head z :
  exists c t, str_of_Z z = String c t /\ is_ws c = false /\ Ascii.eqb c dquote = false /\
              (code c =? 123)%nat = false.
Proof.
  unfold str_of_Z. destruct (Z.ltb_spec z 0) as [_|Hz]; [by eexists _, _|].
  destruct (decimal_digits z) as [|d ds] eqn:E; [by destruct (decimal_digits_nonnil z)|].
  assert (Hd : is_dec_digit d).
  { pose proof (decimal_digits_range z Hz) as Hr. rewrite E in Hr. by inversion Hr. }
  cbn [string_of_digits]. eexists _, _. split; [reflexivity|].
  unfold is_dec_digit in Hd.
  assert (d = 0 \/ d = 1 \/ d = 2 \/ d = 3 \/ d = 4 \/ d = 5 \/ d = 6 \/ d = 7 \/ d = 8 \/ d = 9)
    as Hcases by lia.
  repeat (destruct Hcases as [->|Hcases]; [repeat split; reflexivity|]). subst. repeat split; reflexivity.
Qed.

(** ** Objects read back *)

Lemma parse_members_step f k w X :
  ws_only w = true ->
  parse_members (S f) (String dquote (escape k +:+ String dquote (String (chr 58) (w +:+ X)))) =
  match parse_value f X with
  | Some (v, r3) =>
      match skip_ws r3 with
      | String c3 r4 =>
          if (code c3 =? 44)%nat then
            match parse_members f r4 with Some (fs, r) => Some ((k, v) :: fs, r) | None => None end
          else if (code c3 =? 125)%nat then Some ([(k, v)], r4) else None
      | EmptyString => None
      end
  | None => None
  end.
Proof.
  intros Hw. cbn [parse_members skip_ws]. change (is_ws dquote) with false. cbv iota.
  change (Ascii.eqb dquote dquote) with true. cbv iota.
  rewrite parse_enc_string. cbn [skip_ws]. change (is_ws (chr 58)) with false. cbv iota.
  change (code (chr 58) =? 58)%nat with true. cbv iota.
  by rewrite parse_value_ws.
Qed.

Lemma item_text_eq st k t w Y :
  key_sep st = ":" +:+ w ->
  item_text st (k, t) +:+ Y = String dquote (escape k +:+ String dquote (String (chr 58) (w +:+ (t +:+ Y)))).
Proof. intros H. unfold item_text, enc_string. cbn [fst snd]. rewrite H, !append_assoc_str, append_cons, !append_assoc_str. reflexivity. Qed.

Lemma length_item_text st k t : (String.length t < String.length (item_text st (k, t)))%nat.
Proof. unfold item_text, enc_string. cbn [fst snd]. rewrite !length_append_str. cbn. lia. Qed.

Lemma parse_members_items st lvl L L' rest :
  style_ok st ->
  Forall2 (fun kt kv => fst kt = fst kv /\ decodes (snd kt) (snd kv)) L L' -> L <> [] ->
  forall fuel, (String.length (join (item_sep st +:+ nl st (S lvl)) (item_text st <$> L)) < fuel)%nat ->
  parse_members fuel
    (join (item_sep st +:+ nl st (S lvl)) (item_text st <$> L) +:+ (nl st lvl +:+ ("}" +:+ rest)))
  = Some (L', rest).
Proof.
  intros Hst HL. pose proof Hst as (Hsep & w & Hkey & Hw).
  induction HL as [|[k t] [k' v] L L' [Hk Hdec] HL IH]; intros Hne fuel Hlen; [done|].
  cbn [fst snd] in Hk, Hdec. subst k'. destruct fuel as [|f]; [lia|].
  pose proof (length_item_text st k t) as Ht.
  destruct L as [|kt2 L2].
  - inversion HL; subst. cbn [fmap list_fmap join] in *.
    rewrite (item_text_eq _ _ _ _ _ Hkey), parse_members_step by done.
    rewrite Hdec by (lia || apply nl_close_num_stop). cbv beta iota.
    rewrite skip_ws_app by apply nl_ws. reflexivity.
  - change (item_text st <$> (k, t) :: kt2 :: L2) with (item_text st (k, t) :: item_text st kt2 :: (item_text st <$> L2)) in *.
    rewrite join_cons2 in *. rewrite length_append_str in Hlen.
    rewrite !append_assoc_str, (item_text_eq _ _ _ _ _ Hkey), parse_members_step by done.
    rewrite Hdec by (try lia; by rewrite Hsep). cbv beta iota.
    rewrite Hsep, (append_cons _ EmptyString), append_nil. cbn [skip_ws].
    replace (is_ws _) with false by reflexivity. cbv iota.
    replace (code _ =? 44)%nat with true by reflexivity. cbv iota.
    rewrite parse_members_ws by apply nl_ws.
    rewrite Hsep in IH. rewrite IH; [reflexivity | done |].
    change (item_text st <$> kt2 :: L2) with (item_text st kt2 :: (item_text st <$> L2)).
    rewrite Hsep, !length_append_str in Hlen. lia.
Qed.

Lemma join_items_head st sep L X :
  L <> [] -> exists Y, join sep (item_text st <$> L) +:+ X = String dquote Y.
Proof.
  destruct L as [|[k t] [|kt2 L]]; [done| |]; intros _; cbn [fmap list_fmap join].
  - unfold item_text, enc_string. eexists. rewrite append_cons. reflexivity.
  - unfold item_text, enc_string. eexists. rewrite !append_cons. reflexivity.
Qed.

Section Decode.
Context (st : Style) (Hst : style_ok st).

Lemma decodes_str s : decodes (enc_string s) (JStr s).
Proof.
  intros fuel rest Hf _. destruct fuel as [|f]; [cbn in Hf; lia|].
  unfold enc_string. rewrite append_cons. cbn [parse_value skip_ws].
  rewrite dquote_not_ws, Ascii.eqb_refl. cbv iota.
  rewrite append_assoc_str, str1_append, parse_enc_string. reflexivity.
Qed.

Lemma decodes_int z t : py_str_int z = Ret t -> decodes t (JInt z).
Proof.
  unfold py_str_int. intros H fuel rest Hf Hr.
  destruct (Nat.ltb_spec MAX_STR_DIGITS (ndigits z)); [done|]. injection H as <-.
  destruct fuel as [|f]; [destruct (str_of_Z_head z) as (? & ? & E & _); rewrite E in Hf; cbn in Hf; lia|].
  destruct (str_of_Z_head z) as (c & t & E & Hws & Hq & Hb).
  cbn [parse_value]. rewrite E, append_cons. cbn [skip_ws]. rewrite Hws, Hq, Hb. cbv iota.
  rewrite <- append_cons, <- E, parse_number_str_of_Z by done. reflexivity.
Qed.

Lemma decodes_empty_obj : decodes "{}" (JObj []).
Proof. intros [|f] rest Hf _; [cbn in Hf; lia | reflexivity]. Qed.

Lemma decodes_obj lvl items L' :
  Forall2 (fun kt kv => fst kt = fst kv /\ decodes (snd kt) (snd kv)) items L' -> items <> [] ->
  decodes (obj_text st lvl items) (JObj L').
Proof.
  intros HL Hne fuel rest Hf _. unfold obj_text in *. rewrite !length_append_str in Hf.
  cbn [String.length] in Hf. destruct fuel as [|f]; [lia|].
  rewrite !append_assoc_str, (append_cons _ EmptyString), append_nil. cbn [parse_value skip_ws].
  replace (is_ws _) with false by reflexivity. cbv iota.
  replace (Ascii.eqb _ dquote) with false by reflexivity. replace (code _ =? 123)%nat with true by reflexivity.
  cbv iota. rewrite skip_ws_app by apply nl_ws.
  destruct (join_items_head st (item_sep st +:+ nl st (S lvl)) items (nl st lvl +:+ ("}" +:+ rest)) Hne) as [Y HY].
  rewrite HY. cbn [skip_ws]. rewrite dquote_not_ws. cbv iota.
  replace (code dquote =? 125)%nat with false by reflexivity. cbv iota.
  rewrite <- HY, (parse_members_items st lvl items L' rest Hst HL Hne) by lia. reflexivity.
Qed.

Lemma encoded_items_decode lvl fs items :
  Forall (fun kv => forall lvl t, dumps_at st lvl (snd kv) = Ret t -> decodes t (sort_json (snd kv))) fs ->
  encode_items (dumps_at st (S lvl)) fs = Ret items ->
  Forall2 (fun kt kv => fst kt = fst kv /\ decodes (snd kt) (snd kv))
    items ((fun kv => (fst kv, sort_json (snd kv))) <$> fs).
Proof.
  intros HIH Henc. apply encode_items_spec in Henc. revert HIH.
  induction Henc as [|[k v] [k' t] fs items [Hk Ht] _ IH]; intros HIH; [constructor|].
  inversion HIH as [|? ? Hv Hfs]; subst. cbn [fst snd] in *. subst k'.
  constructor; [split; [done | by apply (Hv (S lvl))] | by apply IH].
Qed.

Lemma dumps_at_decodes j : forall lvl t, dumps_at st lvl j = Ret t -> decodes t (sort_json j).
Proof.
  induction j as [s|z|fs IH] using Json_ind'; intros lvl t H; cbn [dumps_at sort_json] in *.
  - injection H as <-. apply decodes_str.
  - by apply decodes_int.
  - destruct (encode_items (dumps_at st (S lvl)) fs) as [items|m] eqn:E; [|done].
    pose proof (encoded_items_decode lvl fs items IH E) as HF.
    destruct items as [|kt items']; injection H as <-.
    + inversion HF as [Hnil|]. destruct fs; [apply decodes_empty_obj | done].
    + change (insert_by fst kt (sort_by fst items')) with (sort_by fst (kt :: items')).
      apply decodes_obj; [|apply insert_by_nonnil].
      apply sort_by_Forall2; [by intros ? ? [? _] | exact HF].
Qed.
End Decode.

(** ** Only printable ASCII *)

Lemma all_out_app b u v : all_out b (u +:+ v) = all_out b u && all_out b v.
Proof. induction u as [|c u IH]; [done|]. rewrite append_cons. cbn. by rewrite IH, andb_assoc. Qed.

Lemma all_out_mono u : all_out false u = true -> forall b, all_out b u = true.
Proof.
  induction u as [|c u IH]; [done|]. cbn. intros [Hc Hu]%andb_true_iff b.
  rewrite IH by done. unfold out_char in *. apply andb_true_iff in Hc as [-> _]. by destruct b.
Qed.

Lemma escape_char_out c : all_out false (escape_char c) = true.
Proof. destruct c as [[] [] [] [] [] [] [] []]; reflexivity. Qed.

Lemma enc_string_out s : all_out false (enc_string s) = true.
Proof.
  unfold enc_string. cbn [all_out]. rewrite all_out_app. change (all_out false (str1 dquote)) with true.
  induction s as [|c s IH]; [done|]. cbn [escape]. rewrite all_out_app, escape_char_out. exact IH.
Qed.

Lemma digits_out ds : Forall is_dec_digit ds -> all_out false (string_of_digits ds) = true.
Proof.
  induction 1 as [|d ds Hd _ IH]; [done|]. cbn [string_of_digits all_out]. rewrite IH.
  unfold out_char. rewrite char_of_digit_code by done. unfold is_dec_digit in Hd.
  apply andb_true_iff. split; [|done]. apply orb_true_iff. left.
  apply andb_true_iff. split; apply Nat.leb_le; lia.
Qed.

Lemma str_of_Z_out z : all_out false (str_of_Z z) = true.
Proof.
  unfold str_of_Z. destruct (Z.ltb_spec z 0); [|by apply digits_out, decimal_digits_range].
  cbn [all_out]. apply digits_out, decimal_digits_range. lia.
Qed.

Lemma spaces_out n : all_out false (spaces n) = true.
Proof. by induction n. Qed.

Lemma nl_out st lvl : all_out (indents st) (nl st lvl) = true.
Proof. unfold nl, indents. destruct (indent st); [|done]. cbn. apply all_out_mono, spaces_out. Qed.

Lemma join_out b sep l : all_out b sep = true -> Forall (fun x => all_out b x = true) l -> all_out b (join sep l) = true.
Proof.
  intros Hs. induction 1 as [|x [|y l] Hx _ IH]; [done|done|].
  rewrite join_cons2, !all_out_app, Hx, Hs. exact IH.
Qed.

Lemma dumps_at_out st lvl j t :
  item_sep st = "," -> all_out false (key_sep st) = true ->
  dumps_at st lvl j = Ret t -> all_out (indents st) t = true.
Proof.
  intros Hsep Hkey. revert lvl t. induction j as [s|z|fs IH] using Json_ind'; intros lvl t H; cbn [dumps_at] in H.
  - injection H as <-. apply all_out_mono, enc_string_out.
  - unfold py_str_int in H. destruct (_ <? _)%nat; [done|]. injection H as <-. apply all_out_mono, str_of_Z_out.
  - destruct (encode_items _ fs) as [items|m] eqn:E; [|done].
    apply encode_items_spec in E.
    assert (Hi : Forall (fun kt => all_out (indents st) (snd kt) = true) items).
    { clear H. induction E as [|kv kt fs items [_ Hv] _ IHE]; [done|].
      inversion IH as [|? ? Hkv Hfs]; subst. constructor; [exact (Hkv _ _ Hv) | exact (IHE Hfs)]. }
    destruct items as [|kt items']; injection H as <-; [done|].
    unfold obj_text. rewrite !all_out_app, !nl_out, join_out; [reflexivity| |].
    + by rewrite all_out_app, Hsep, nl_out.
    + apply Forall_fmap. change (insert_by fst kt (sort_by fst items')) with (sort_by fst (kt :: items')).
      rewrite sort_by_perm. eapply Forall_impl; [exact Hi|].
      intros [k t'] Ht. cbn in Ht |- *. unfold item_text. cbn [fst snd].
      rewrite !all_out_app, Ht, (all_out_mono _ (enc_string_out k)), (all_out_mono _ Hkey). done.
Qed.

(** ** The text against the runtime's [jsonify] *)

Lemma dumps_at_error st lvl j :
  match dumps_at st lvl j with
  | Ret _ => json_int_error j = None
  | Exn m => json_int_error j = Some m
  end.
Proof.
  revert lvl. induction j as [s|z|fs IH] using Json_ind'; intros lvl; cbn [dumps_at].
  - reflexivity.
  - cbn [json_int_error]. by destruct (py_str_int z).
  - pose proof (encode_items_error (dumps_at st (S lvl)) fs) as H.
    assert (HF : Forall (fun kv => match dumps_at st (S lvl) (snd kv) with
      Ret _ => json_int_error (snd kv) = None | Exn m => json_int_error (snd kv) = Some m end) fs)
      by (eapply Forall_impl; [exact IH | intros kv Hkv; apply Hkv]).
    specialize (H HF). by destruct (encode_items _ fs) as [[|? ?]|m].
Qed.

Lemma debug_style_ok (debug : bool) : style_ok (if debug then pretty else compact).
Proof. destruct debug; [apply pretty_ok | apply compact_ok]. Qed.

(** The body text is written exactly when [json_int_error] finds no
    integer over the limit, and it decodes to the value, keys sorted. *)
Lemma response_text_outcome debug j :
  match response_text debug j with
  | Ret t => json_int_error j = None /\ json_loads t = Some (sort_json j)
  | Exn m => json_int_error j = Some m
  end.
Proof.
  unfold response_text, dumps. pose proof (dumps_at_error (if debug then pretty else compact) O j) as Herr.
  destruct (dumps_at _ O j) as [d|m] eqn:E; [|exact Herr]. split; [exact Herr|].
  unfold json_loads. rewrite (dumps_at_decodes _ (debug_style_ok debug) j O d E); [reflexivity | | done].
  rewrite length_append_str. lia.
Qed.

(** C36: [jsonify(obj)] and the text Flask sends agree.  When [jsonify]
    returns a response, the state is unchanged, the body is the value,
    and the text written for it (compact, or indented in debug mode)
    exists and decodes with [json.loads] to the value with every dict's
    keys sorted; when it raises, it raises the [ValueError] of
    [int.__repr__] that writing the text raises, again without a change
    of state. *)
Theorem jsonify_text debug j s :
  match jsonify j s with
  | (Ret r, s') => s' = s /\ body r = BJson j /\
      exists t, response_text debug j = Ret t /\ json_loads t = Some (sort_json j)
  | (Exn e, s') => s' = s /\ exists m, e = ValueError m /\ response_text debug j = Exn m
  end.
Proof.
  unfold jsonify. pose proof (response_text_outcome debug j) as H.
  destruct (response_text debug j) as [t|m]; [destruct H as [-> Hl] | rewrite H].
  - cbn. repeat split. by exists t.
  - cbn. split; [done|]. by exists m.
Qed.

(** C37: [ensure_ascii=True]: the body [jsonify] writes is printable
    ASCII and a final newline; the only other newlines are those of the
    indentation in debug mode. *)
Theorem response_text_ascii debug j t :
  response_text debug j = Ret t -> exists b, t = b +:+ str1 (chr 10) /\ all_out debug b = true.
Proof.
  unfold response_text, dumps. destruct (dumps_at _ O j) as [d|m] eqn:E; [|done]. injection 1 as <-.
  exists d. split; [done|].
  destruct debug; [apply (dumps_at_out pretty O j) | apply (dumps_at_out compact O j)]; done.
Qed.

Lemma response_text_ascii_witness :
  let j := JObj [("status", JStr (String (chr 233) "t")); ("tab", JStr (str1 (chr 9)));
                 ("n", JObj [("b", JInt (-7))])] in
  exists t, response_text true j = Ret t /\ exists b, t = b +:+ str1 (chr 10) /\ all_out true b = true.
Proof.
  intros j. eexists. split; [vm_compute; reflexivity|]. apply (response_text_ascii true j).
  vm_compute. reflexivity.
Defined.

(** the items are put in [sorted()] order: [sort_by] returns a
    permutation of its list, ordered by [str] comparison of the keys. *)
Theorem sort_by_spec {A} (key : A -> string) l :
  sort_by key l ≡ₚ l /\ Sorted (fun x y => str_leb (key x) (key y) = true) (sort_by key l).
Proof. split; [apply sort_by_perm | apply sort_by_sorted]. Qed.

End JsonText.
