(* ===== verification/Handlers.v ===== *)
(** * The route handlers and the error handler of [app.py]

    One definition per Python function: [hello_world] ([/]),
    [health_check] ([/health]), [get_info] ([/info]), [badFunction] and
    [calculate] ([/calculate]), and [handle_exception], the handler Flask
    calls for any exception.  Each is written in [PyM] in the order of the
    Python statements. *)

From S2P Require Import Prelude PyStr PyInt Metrics Runtime.
Import PyStr PyInt Metrics Runtime.

Module Handlers.
Local Open Scope Z_scope.
Local Open Scope py_scope.

(** [global counter; counter += 1]. *)
Definition counter_incr (s : St) : St := set_counter (counter s + 1) s.

(** [hello_world]: the increment, then the dict, whose entries are
    evaluated in order: [os.environ.get(...)], then the global [counter]. *)
Definition hello_world : PyM Response :=
  smodify counter_incr ;;;
  env <- os_environ_get "ENVIRONMENT" "development" ;;
  s <- sget ;;
  jsonify (JObj [("message", JStr "Hello from DevOps Lab!");
                 ("version", JStr "1.0.0");
                 ("environment", JStr env);
                 ("visits", JInt (counter s))]).

Definition health_check : PyM Response :=
  jsonify (JObj [("status", JStr "healthy"); ("service", JStr "flask-app")]).

Definition get_info : PyM Response :=
  jsonify (JObj [("app_name", JStr "DevOps Lab App");
                 ("python_version", JStr "3.11");
                 ("framework", JStr "Flask")]).

(** [handle_exception(e)]: [error_counter.inc()], then
    [jsonify({'error': str(e)}), 500]. *)
Definition handle_exception (e : PyExc) : PyM Response :=
  registry_update error_counter_inc ;;;
  r <- jsonify (JObj [("error", JStr (exc_str e))]) ;;
  sret (mkResponse 500 (body r)).

(** [badFunction(x, y)]; [z] is computed and unused, as in the source. *)
Definition badFunction (x y : Z) : Z :=
  let z := x + y in
  if x >? 10 then
    if y >? 10 then x * y else x + y
  else 0.

(** [calculate()] reading [request.args]. *)
Definition calculate (req : Request) : PyM Response :=
  start <- time_time ;;
  x <- py_int (args_get req "x" (AInt 5)) ;;
  y <- py_int (args_get req "y" (AInt 3)) ;;
  let result := badFunction x y in
  sleep_uniform 1 3 ;;;
  t <- time_time ;;
  registry_update (calc_time_observe (t - start)) ;;;
  jsonify (JObj [("result", JInt result)]).


(** [int(request.args.get(key, default))] as a pure result. *)
Definition arg_int (req : Request) (key : string) (default : Z) : outcome string Z :=
  match args_get req key (AInt default) with
  | AInt z => Ret z
  | AStr v => int_of_str v
  end.

(** ** The handlers' behaviour *)

(** Both arguments above 10: the product. *)
Lemma badFunction_mul x y : 10 < x -> 10 < y -> badFunction x y = x * y.
Proof. intros Hx Hy. unfold badFunction. by rewrite (proj2 (Z.gtb_lt x 10) Hx), (proj2 (Z.gtb_lt y 10) Hy). Qed.

(** C2: [badFunction] multiplies when both arguments exceed 10, adds
    when only [x] does, and is 0 otherwise. *)
Theorem badFunction_spec x y :
  (10 < x -> 10 < y -> badFunction x y = x * y) /\
  (10 < x -> y <= 10 -> badFunction x y = x + y) /\
  (x <= 10 -> badFunction x y = 0).
Proof.
  unfold badFunction.
  destruct (Z.gtb_spec x 10), (Z.gtb_spec y 10); repeat split; intros; lia.
Qed.

Lemma badFunction_spec_witness :
  badFunction 11 11 = 121 /\ badFunction 11 5 = 16 /\ badFunction 5 20 = 0.
Proof.
  destruct (badFunction_spec 11 11) as (H1 & _ & _).
  destruct (badFunction_spec 11 5) as (_ & H2 & _).
  destruct (badFunction_spec 5 20) as (_ & _ & H3).
  split; [apply H1; lia|]. split; [apply H2; lia | apply H3; lia].
Defined.

Lemma py_int_arg req key d s :
  py_int (args_get req key (AInt d)) s =
  match arg_int req key d with Ret z => (Ret z, s) | Exn m => (Exn (ValueError m), s) end.
Proof.
  unfold arg_int, py_int. destruct (args_get req key (AInt d)); [|done].
  by destruct (int_of_str s0).
Qed.

Lemma jsonify_strings fs s :
  Forall (fun f => exists v, snd f = JStr v) fs ->
  jsonify (JObj fs) s = (Ret (mkResponse 200 (BJson (JObj fs))), s).
Proof.
  intros Hfs. unfold jsonify. enough (json_int_error (JObj fs) = None) as -> by done.
  induction Hfs as [|[k v] fs [w Hw] _ IH]; [done|]. simpl in *. subst v. exact IH.
Qed.

Lemma handle_exception_run e s :
  handle_exception e s =
  (Ret (mkResponse 500 (BJson (JObj [("error", JStr (exc_str e))]))),
   set_registry (error_counter_inc (registry s)) s).
Proof.
  unfold handle_exception.
  run_step reflexivity.
  run_step (apply jsonify_strings; repeat constructor; eexists; reflexivity).
  reflexivity.
Qed.

Lemma jsonify_result r s :
  jsonify (JObj [("result", JInt r)]) s =
  (if (MAX_STR_DIGITS <? ndigits r)%nat then Exn (ValueError to_str_limit_msg)
   else Ret (mkResponse 200 (BJson (JObj [("result", JInt r)]))), s).
Proof.
  unfold jsonify. cbn [json_int_error]. unfold py_str_int.
  by destruct (MAX_STR_DIGITS <? ndigits r)%nat.
Qed.

(** [calculate] up to its final [jsonify]: both arguments parse, the
    process has slept and observed in [calc_time] the time from [start]:
    the sleep [uniform_value 1 3 k] and the time before the second clock
    read; no counter has moved. *)
Lemma calculate_parsed req s x y :
  arg_int req "x" 5 = Ret x -> arg_int req "y" 3 = Ret y ->
  exists s', calculate req s = jsonify (JObj [("result", JInt (badFunction x y))]) s' /\
             counter s' = counter s /\
             app_errors_total (registry s') = app_errors_total (registry s) /\
             calculate_duration_seconds (registry s') =
               histogram_observe (uniform_value 1 3 (rand s O) + elapse s 1%nat)
                                 (calculate_duration_seconds (registry s)).
Proof.
  intros Hx Hy. unfold calculate.
  run_step reflexivity.
  run_step (rewrite py_int_arg, Hx; reflexivity).
  run_step (rewrite py_int_arg, Hy; reflexivity).
  run_step apply sleep_uniform_run.
  run_step reflexivity.
  run_step reflexivity.
  eexists. split; [reflexivity|]. split; [reflexivity|]. split; [reflexivity|].
  cbn. f_equal. unfold stream_tail. lia.
Qed.

(** A bad argument raises [ValueError] right after [start = time.time()]. *)
Lemma calculate_arg_error req s m :
  (arg_int req "x" 5 = Exn m \/
   exists x, arg_int req "x" 5 = Ret x /\ arg_int req "y" 3 = Exn m) ->
  calculate req s = (Exn (ValueError m), snd (time_time s)).
Proof.
  intros Hm. unfold calculate.
  run_step reflexivity.
  destruct Hm as [Hx | (x & Hx & Hy)].
  - erewrite sbind_Exn by (rewrite py_int_arg, Hx; reflexivity). reflexivity.
  - run_step (rewrite py_int_arg, Hx; reflexivity).
    erewrite sbind_Exn by (rewrite py_int_arg, Hy; reflexivity). reflexivity.
Qed.

Lemma hello_world_run s :
  Z.abs (counter s + 1) < 10 ^ 4300 ->
  hello_world s =
  (Ret (mkResponse 200 (BJson (JObj [("message", JStr "Hello from DevOps Lab!");
                                     ("version", JStr "1.0.0");
                                     ("environment", JStr (match environ s !! "ENVIRONMENT" with
                                                           | Some v => v | None => "development" end));
                                     ("visits", JInt (counter s + 1))]))),
   counter_incr s).
Proof.
  intros Hlim. apply ndigits_le_limit_iff in Hlim. unfold hello_world.
  run_step reflexivity. run_step reflexivity. run_step reflexivity.
  unfold jsonify. cbn [json_int_error]. unfold py_str_int. cbn [counter counter_incr set_counter].
  destruct (Nat.ltb_spec MAX_STR_DIGITS (ndigits (counter s + 1))); [lia | reflexivity].
Qed.

Lemma hello_world_frame : stays handler_frame hello_world.
Proof.
  unfold hello_world. stays_tac.
  intros Hs. split; [exact Hs|]. simpl. repeat split; lia.
Qed.

Lemma calculate_frame req : stays handler_frame (calculate req).
Proof. unfold calculate. stays_tac. Qed.

Lemma handle_exception_frame e : stays handler_frame (handle_exception e).
Proof. unfold handle_exception. stays_tac. Qed.

Lemma health_check_frame : stays handler_frame health_check.
Proof. unfold health_check. stays_tac. Qed.

Lemma get_info_frame : stays handler_frame get_info.
Proof. unfold get_info. stays_tac. Qed.

#[export] Hint Resolve hello_world_frame calculate_frame handle_exception_frame
  health_check_frame get_info_frame : pyrun.

(** ** Views answer 200 and count no error *)

Lemma hello_world_errors : stays errors_eq hello_world.
Proof. unfold hello_world. stays_tac. reflexivity. Qed.
Lemma health_check_errors : stays errors_eq health_check.
Proof. unfold health_check. stays_tac. Qed.
Lemma get_info_errors : stays errors_eq get_info.
Proof. unfold get_info. stays_tac. Qed.
Lemma calculate_errors req : stays errors_eq (calculate req).
Proof. unfold calculate. stays_tac. Qed.

Lemma hello_world_200 : returns (fun r => status r = 200) hello_world.
Proof. unfold hello_world. returns_tac. Qed.
Lemma health_check_200 : returns (fun r => status r = 200) health_check.
Proof. unfold health_check. returns_tac. Qed.
Lemma get_info_200 : returns (fun r => status r = 200) get_info.
Proof. unfold get_info. returns_tac. Qed.
Lemma calculate_200 req : returns (fun r => status r = 200) (calculate req).
Proof. unfold calculate. returns_tac. Qed.

#[export] Hint Resolve hello_world_errors health_check_errors get_info_errors calculate_errors
  hello_world_200 health_check_200 get_info_200 calculate_200 : pyrun.

End Handlers.
