(* ===== verification/Middleware.v ===== *)
(** * The request hooks of [app.py]

    [start_timer] ([@app.before_request]) stores [time.time()] in
    [request.start_time] and increments [visit_counter];
    [record_latency] ([@app.after_request]) sleeps [random.uniform(1, 3)],
    computes the latency from [request.start_time] and observes it in
    [request_latency] under the request's endpoint, or its path when no
    rule matched. *)

From S2P Require Import Prelude PyStr PyInt Metrics Runtime.
Import Metrics Runtime.

Module Middleware.
Local Open Scope Z_scope.
Local Open Scope py_scope.

Definition start_timer : PyM unit :=
  t <- time_time ;;
  smodify (set_req_start_time (Some t)) ;;;
  registry_update visit_counter_inc.

(** [request.start_time]: an [AttributeError] when the attribute is unset. *)
Definition get_request_start_time : PyM Z :=
  s <- sget ;;
  match req_start_time s with
  | Some t => sret t
  | None => sraise (AttributeError "'Request' object has no attribute 'start_time'")
  end.

(** [request.endpoint if request.endpoint else request.path]. *)
Definition endpoint_name (req : Request) (endpoint : option string) : string :=
  match endpoint with
  | Some e => if String.eqb e "" then path req else e
  | None => path req
  end.

Definition record_latency (req : Request) (endpoint : option string) (response : Response)
  : PyM Response :=
  sleep_uniform 1 3 ;;;
  t <- time_time ;;
  start <- get_request_start_time ;;
  let latency := t - start in
  registry_update (request_latency_observe (endpoint_name req endpoint) latency) ;;;
  sret response.


(** ** Running the hooks *)

Lemma start_timer_run s :
  start_timer s =
  (Ret tt, mkSt (counter s) (visit_counter_inc (registry s)) (clock s + elapse s O) (rand s)
                (stream_tail (elapse s)) (environ s) (Some (clock s + elapse s O))).
Proof. reflexivity. Qed.

(** The after-request hook observes, under the endpoint name, the time
    from [request.start_time] to the clock read after the sleep. *)
Lemma record_latency_run req ep rv s t0 :
  req_start_time s = Some t0 ->
  let t := clock s + uniform_value 1 3 (rand s O) + elapse s O in
  record_latency req ep rv s =
  (Ret rv, mkSt (counter s)
                (request_latency_observe (endpoint_name req ep) (t - t0) (registry s))
                t (stream_tail (rand s)) (stream_tail (elapse s)) (environ s) (Some t0)).
Proof.
  intros Ht0 t. unfold record_latency.
  erewrite sbind_Ret by apply sleep_uniform_run.
  unfold sbind, time_time, get_request_start_time, sget. simpl. rewrite Ht0. reflexivity.
Qed.

Lemma record_latency_unset req ep rv s :
  req_start_time s = None ->
  fst (record_latency req ep rv s) =
  Exn (AttributeError "'Request' object has no attribute 'start_time'").
Proof.
  intros Hn. unfold record_latency.
  erewrite sbind_Ret by apply sleep_uniform_run.
  unfold sbind, time_time, get_request_start_time, sget. simpl. by rewrite Hn.
Qed.

End Middleware.
