(* ===== verification/App.v ===== *)
(** * The Flask application: routing and the request pipeline

    Flask's [full_dispatch_request] as it runs for [app.py]: a fresh
    request object, the [before_request] hook [start_timer], the view of
    the matched rule (or the routing exception), Flask's exception
    handling (a merged-slash redirect answered 308 as it is, every other
    exception by the error handler of [app.py]), then the [after_request]
    hook [record_latency].  The rules are the four [@app.route]s of
    [app.py] and the [/metrics] rule that [PrometheusMetrics(app)]
    registers, except in the reloader's child without [DEBUG_METRICS]. *)

From S2P Require Import Prelude PyStr PyInt Metrics Runtime JsonText Handlers Middleware.
Import PyInt Metrics Runtime JsonText Handlers Middleware.

Module App.
Local Open Scope Z_scope.
Local Open Scope py_scope.

Inductive Endpoint : Type :=
| EHello | EHealth | EInfo | ECalculate | EMetrics.

(** The endpoint of a rule is the name of its view function. *)
Definition endpoint_str (e : Endpoint) : string :=
  match e with
  | EHello => "hello_world"
  | EHealth => "health_check"
  | EInfo => "get_info"
  | ECalculate => "calculate"
  | EMetrics => "prometheus_metrics"
  end.

(** The rules of [@app.route] (lines 26, 38, 43, 84). *)
Definition app_rules : list (string * Endpoint) :=
  [("/", EHello); ("/health", EHealth); ("/info", EInfo); ("/calculate", ECalculate)].

(** [PrometheusMetrics(app)] (line 13) registers [/metrics] in
    [register_endpoint], which returns without registering it when
    werkzeug's [is_running_from_reloader()] holds ([WERKZEUG_RUN_MAIN] is
    ["true"], as in the child process [app.run(debug=True)] serves from)
    and [os.environ.get('DEBUG_METRICS')] is unset or empty. *)
Definition metrics_registered (env : gmap string string) : bool :=
  negb (bool_decide (env !! "WERKZEUG_RUN_MAIN" = Some "true")) ||
  match env !! "DEBUG_METRICS" with Some v => negb (String.eqb v EmptyString) | None => false end.

(** [app.url_map], built at import from [os.environ], which no code of
    the app changes afterwards. *)
Definition url_map (env : gmap string string) : list (string * Endpoint) :=
  (if metrics_registered env then [("/metrics", EMetrics)] else []) ++ app_rules.

(** A rule with the default [methods] accepts [GET], the [HEAD] werkzeug
    adds for [GET], and the [OPTIONS] Flask adds. *)
Definition rule_methods : list string := ["GET"; "HEAD"; "OPTIONS"].

Definition slash : ascii := ascii_of_nat 47.

(** [re.sub("/{2,}?", "/", path)] of werkzeug's matcher: each pair of
    slashes, left to right, becomes one slash. *)
Fixpoint merge_slashes (p : string) : string :=
  match p with
  | String c t =>
      match t with
      | String d r => if Ascii.eqb c slash && Ascii.eqb d slash then String c (merge_slashes r)
                      else String c (merge_slashes t)
      | EmptyString => p
      end
  | EmptyString => EmptyString
  end.

(** werkzeug's [MapAdapter.match] with [merge_slashes] (the default): the
    rule of the path; when none matches, the rule of the path with its
    slashes merged, reached by a [RequestRedirect] to that path;
    [MethodNotAllowed] when the rule found does not accept the method;
    [NotFound] when no rule has either path. *)
Definition url_match (routes : list (string * Endpoint)) (req : Request) : outcome PyExc Endpoint :=
  let allowed := existsb (String.eqb (method req)) rule_methods in
  match alist_get (path req) routes with
  | Some ep => if allowed then Ret ep else Exn MethodNotAllowed
  | None =>
      match alist_get (merge_slashes (path req)) routes with
      | Some _ => if allowed then Exn (RequestRedirect (merge_slashes (path req))) else Exn MethodNotAllowed
      | None => Exn NotFound
      end
  end.

(** [request.endpoint]: the endpoint of the matched rule, [None] when
    routing failed. *)
Definition request_endpoint (routes : list (string * Endpoint)) (req : Request) : option string :=
  match url_match routes req with Ret ep => Some (endpoint_str ep) | Exn _ => None end.

(** [request.args.getlist(key)]: every value of the key, in order. *)
Fixpoint args_getlist (key : string) (l : list (string * string)) : list string :=
  match l with
  | [] => []
  | (k, v) :: l' => if String.eqb k key then v :: args_getlist key l' else args_getlist key l'
  end.

(** The names of [registry.restricted_registry(...)] when the query has
    [name[]]. *)
Definition metrics_names (req : Request) : option (list string) :=
  match alist_get "name[]" (args req) with
  | Some _ => Some (args_getlist "name[]" (args req))
  | None => None
  end.

(** [PROMETHEUS_MULTIPROC_DIR] or [prometheus_multiproc_dir] is set. *)
Definition multiproc_dir (env : gmap string string) : bool :=
  bool_decide (is_Some (env !! "PROMETHEUS_MULTIPROC_DIR")) ||
  bool_decide (is_Some (env !! "prometheus_multiproc_dir")).

(** The view [prometheus_flask_exporter] registers at [/metrics]: the
    exposition of the registry (of the multiprocess directory when one
    is set), restricted to the names of [name[]] when the query has it. *)
Definition prometheus_metrics (req : Request) : PyM Response :=
  s <- sget ;;
  sret (mkResponse 200 (if multiproc_dir (environ s) then BMultiproc (metrics_names req)
                        else BMetrics (registry s) (metrics_names req))).

Definition view (ep : Endpoint) (req : Request) : PyM Response :=
  match ep with
  | EHello => hello_world
  | EHealth => health_check
  | EInfo => get_info
  | ECalculate => calculate req
  | EMetrics => prometheus_metrics req
  end.

(** [Flask.dispatch_request]: re-raise the routing exception, answer
    [OPTIONS] automatically, otherwise call the view. *)
Definition dispatch_request (routes : list (string * Endpoint)) (req : Request) : PyM Response :=
  match url_match routes req with
  | Exn e => sraise e
  | Ret ep => if String.eqb (method req) "OPTIONS" then sret (mkResponse 200 BEmpty)
              else view ep req
  end.

(** [Flask.handle_user_exception]: [handle_http_exception] returns a
    routing redirect as the response itself; every other exception,
    werkzeug's [NotFound] and [MethodNotAllowed] included, reaches the
    [Exception] handler of [app.py]. *)
Definition handle_user_exception (e : PyExc) : PyM Response :=
  match e with
  | RequestRedirect u => sret (mkResponse 308 (BRedirect u))
  | _ => handle_exception e
  end.

(** The rules of the app, read from the process environment. *)
Definition app_routes : PyM (list (string * Endpoint)) :=
  s <- sget ;;
  sret (url_map (environ s)).

(** [Flask.full_dispatch_request]: a request object with the matched
    rule, [preprocess_request] and [dispatch_request] under [try],
    [handle_user_exception], and [finalize_request], which runs the
    [after_request] hook. *)
Definition full_dispatch_request (req : Request) : PyM Response :=
  smodify (set_req_start_time None) ;;;
  routes <- app_routes ;;
  rv <- stry (start_timer ;;; dispatch_request routes req) handle_user_exception ;;
  record_latency req (request_endpoint routes req) rv.

(** Requests served one after the other by one process. *)
Fixpoint serve (reqs : list Request) : PyM (list Response) :=
  match reqs with
  | [] => sret []
  | r :: rs => resp <- full_dispatch_request r ;; resps <- serve rs ;; sret (resp :: resps)
  end.

(** The process at start-up: module globals and registry initialised. *)
Definition init_state (env : gmap string string) (t0 : Z) (rnd el : nat -> Z) : St :=
  mkSt 0 registry_init t0 rnd el env None.


(** A process just started, with no environment, whose clock reads 0,
    whose [random.random()] returns 0 and in which time passes only
    while sleeping: the concrete state of the examples. *)
Definition demo_state : St := init_state ∅ 0 (fun _ => 0) (fun _ => 0).

Definition GET (p : string) (a : list (string * string)) : Request := mkRequest "GET" p a.

(** ** The stages of the pipeline *)

(** The rules of [app.py] do not depend on whether [/metrics] is
    registered: only [/metrics] itself does. *)
Lemma url_map_app_rule env p :
  p <> "/metrics" -> alist_get p (url_map env) = alist_get p app_rules.
Proof. intros Hp. unfold url_map. destruct (metrics_registered env); simpl; [|done]. by rewrite decide_False. Qed.

(** A request to a path of [app.py] with its own method reaches its view. *)
Lemma dispatch_request_app env req ep :
  path req <> "/metrics" -> alist_get (path req) app_rules = Some ep -> method req = "GET" ->
  dispatch_request (url_map env) req = view ep req.
Proof. intros Hp He Hm. unfold dispatch_request, url_match. by rewrite url_map_app_rule, He, Hm. Qed.

Lemma request_endpoint_app env req ep :
  path req <> "/metrics" -> alist_get (path req) app_rules = Some ep -> method req = "GET" ->
  request_endpoint (url_map env) req = Some (endpoint_str ep).
Proof. intros Hp He Hm. unfold request_endpoint, url_match. by rewrite url_map_app_rule, He, Hm. Qed.

(** Where the exporter registered it, [GET /metrics] reaches its view. *)
Lemma dispatch_request_metrics env a :
  metrics_registered env = true ->
  dispatch_request (url_map env) (GET "/metrics" a) = prometheus_metrics (GET "/metrics" a).
Proof. intros Hreg. unfold dispatch_request, url_match, url_map. rewrite Hreg. reflexivity. Qed.

Lemma dispatch_request_calculate env a :
  dispatch_request (url_map env) (GET "/calculate" a) = calculate (GET "/calculate" a).
Proof. by apply (dispatch_request_app _ _ ECalculate). Qed.

Lemma dispatch_request_hello env a :
  dispatch_request (url_map env) (GET "/" a) = hello_world.
Proof. by apply (dispatch_request_app _ _ EHello). Qed.

Lemma prometheus_metrics_frame req : stays handler_frame (prometheus_metrics req).
Proof. unfold prometheus_metrics. stays_tac. Qed.

Lemma view_frame ep req : stays handler_frame (view ep req).
Proof. destruct ep; simpl; eauto using prometheus_metrics_frame with pyrun. Qed.

Lemma dispatch_request_frame routes req : stays handler_frame (dispatch_request routes req).
Proof. unfold dispatch_request. stays_tac. apply view_frame. Qed.

Lemma handle_user_exception_frame e : stays handler_frame (handle_user_exception e).
Proof. destruct e; cbn [handle_user_exception]; first [apply handle_exception_frame | stays_tac]. Qed.

#[export] Hint Resolve view_frame dispatch_request_frame handle_user_exception_frame : pyrun.

Lemma prometheus_metrics_errors req : stays errors_eq (prometheus_metrics req).
Proof. unfold prometheus_metrics. stays_tac. Qed.

Lemma view_errors ep req : stays errors_eq (view ep req).
Proof. destruct ep; simpl; eauto using prometheus_metrics_errors with pyrun. Qed.

Lemma dispatch_request_errors routes req : stays errors_eq (dispatch_request routes req).
Proof. unfold dispatch_request. stays_tac. apply view_errors. Qed.

Lemma view_200 ep req : returns (fun r => status r = 200) (view ep req).
Proof. destruct ep; simpl; eauto with pyrun. Qed.

Lemma dispatch_request_200 routes req : returns (fun r => status r = 200) (dispatch_request routes req).
Proof. unfold dispatch_request. returns_tac; [reflexivity | apply view_200]. Qed.

(** A redirect is answered as it is; any other exception by the
    [Exception] handler of [app.py]. *)
Lemma handle_user_exception_run e s :
  handle_user_exception e s =
  match e with
  | RequestRedirect u => (Ret (mkResponse 308 (BRedirect u)), s)
  | _ => (Ret (mkResponse 500 (BJson (JObj [("error", JStr (exc_str e))]))),
          set_registry (error_counter_inc (registry s)) s)
  end.
Proof. destruct e; first [apply handle_exception_run | reflexivity]. Qed.

(** Under Flask's exception handling, code that answers 200 and counts
    no error answers 200 or a redirect 308 with [app_errors_total]
    unchanged, or the handler's 500 with one more error. *)
Lemma handled_status (m : PyM Response) s :
  stays errors_eq m -> returns (fun r => status r = 200) m ->
  exists rv s', stry m handle_user_exception s = (Ret rv, s') /\
    (((status rv = 200 \/ status rv = 308) /\ app_errors_total (registry s') = app_errors_total (registry s)) \/
     (status rv = 500 /\ app_errors_total (registry s') = app_errors_total (registry s) + 1)).
Proof.
  intros He H2. specialize (He s). specialize (H2 s). unfold stry.
  destruct (m s) as [[a|e] s']; simpl in *.
  - exists a, s'. auto.
  - rewrite handle_user_exception_run. destruct e; do 2 eexists; (split; [reflexivity|]);
      first [left; split; [by right | exact He] | right; split; [reflexivity|]; simpl; rewrite He; reflexivity].
Qed.

(** The state in which the view runs: a fresh request object, then
    [start_timer]. *)
Definition after_start (s : St) : St := snd (start_timer (set_req_start_time None s)).

(** The error handler turns every exception into a response. *)
Lemma handled_ret (m : PyM Response) s :
  exists rv s', stry m handle_user_exception s = (Ret rv, s').
Proof.
  unfold stry. destruct (m s) as [[a|e] s']; [by eauto|].
  rewrite handle_user_exception_run. destruct e; by eauto.
Qed.

Lemma full_dispatch_request_split req s rv s3 :
  stry (dispatch_request (url_map (environ s)) req) handle_user_exception (after_start s) = (Ret rv, s3) ->
  full_dispatch_request req s = record_latency req (request_endpoint (url_map (environ s)) req) rv s3.
Proof.
  intros H. unfold full_dispatch_request.
  erewrite sbind_Ret by reflexivity. erewrite sbind_Ret by reflexivity.
  change (environ (set_req_start_time None s)) with (environ s).
  erewrite sbind_Ret; [reflexivity|].
  rewrite <- H. unfold after_start, stry, sbind at 1. by rewrite start_timer_run.
Qed.

Lemma after_start_wf s : world_wf s -> world_wf (after_start s).
Proof.
  intros (Hr & He & Hf & Hc). unfold after_start. rewrite start_timer_run.
  split; [done|]. split; [intros n; apply He|]. done.
Qed.

(** The pipeline of a well-formed process up to its after-request hook:
    the view or the error handler answers, [request.start_time] is the
    clock read of [start_timer], time has not run backwards, the latency
    histogram is untouched and [app_visits_total] counts the request. *)
Lemma full_dispatch_request_run req s :
  world_wf s ->
  exists rv s3, stry (dispatch_request (url_map (environ s)) req) handle_user_exception (after_start s) = (Ret rv, s3) /\
    world_wf s3 /\ clock s + elapse s O <= clock s3 /\ req_start_time s3 = Some (clock s + elapse s O) /\
    request_latency_seconds (registry s3) = request_latency_seconds (registry s) /\
    app_visits_total (registry s3) = app_visits_total (registry s) + 1 /\
    full_dispatch_request req s = record_latency req (request_endpoint (url_map (environ s)) req) rv s3.
Proof.
  intros Hs. destruct (handled_ret (dispatch_request (url_map (environ s)) req) (after_start s)) as (rv & s3 & H3).
  pose proof (stays_try handler_frame _ _ (dispatch_request_frame (url_map (environ s)) req) handle_user_exception_frame
                (after_start s)) as Hfr.
  rewrite H3 in Hfr. destruct (Hfr (after_start_wf s Hs)) as (Hs3 & Hclk & Hst & Hlat & Hvis & _).
  exists rv, s3. unfold after_start in Hclk, Hst, Hlat, Hvis. rewrite start_timer_run in Hclk, Hst, Hlat, Hvis.
  do 6 (split; [done|]). exact (full_dispatch_request_split req s rv s3 H3).
Qed.

(** What one request does to the process, whatever its route: it
    returns a response, adds exactly one observation of at least one
    second to [request_latency] under the endpoint name (or the path),
    increments [app_visits_total] once and keeps the state well formed. *)
Lemma full_dispatch_request_effect req s :
  world_wf s ->
  exists rv s' lat,
    full_dispatch_request req s = (Ret rv, s') /\ SECOND <= lat /\
    request_latency_seconds (registry s') =
      labels_observe (endpoint_name req (request_endpoint (url_map (environ s)) req)) lat
                     (request_latency_seconds (registry s)) /\
    app_visits_total (registry s') = app_visits_total (registry s) + 1 /\
    world_wf s'.
Proof.
  intros Hs.
  destruct (full_dispatch_request_run req s Hs) as (rv & s3 & _ & (Hr & He & Hf & Hc) & Hclk & Hst & Hlat & Hvis & ->).
  rewrite (record_latency_run _ _ _ s3 _ Hst).
  eexists rv, _, (clock s3 + uniform_value 1 3 (rand s3 O) + elapse s3 O - (clock s + elapse s O)).
  split; [reflexivity|].
  pose proof (uniform_value_1_3 _ (Hr O)). pose proof (He O).
  split; [lia|]. simpl. rewrite Hlat, Hvis. split; [done|]. split; [done|].
  split; [intros n; apply Hr|]. split; [intros n; apply He|].
  split; [by apply family_wf_observe | done].
Qed.

(** A request takes at least a second: the after-request hook sleeps
    between one and three seconds before its final clock read. *)
Lemma full_dispatch_request_clock req s :
  world_wf s -> clock s + SECOND <= clock (snd (full_dispatch_request req s)).
Proof.
  intros Hs. destruct (full_dispatch_request_run req s Hs) as (rv & s3 & _ & (Hr & He & _) & Hclk & Hst & _ & _ & ->).
  rewrite (record_latency_run _ _ _ s3 _ Hst). cbn [snd clock].
  pose proof (uniform_value_1_3 _ (Hr O)). pose proof (He O). pose proof (proj1 (proj2 Hs) O). lia.
Qed.

(** [world_wf] of a concrete state: the streams by [lia] pointwise, the
    histograms by computation. *)
Ltac solve_world_wf :=
  split; [intros ?; simpl; lia|split; [intros ?; simpl; lia|split; [apply map_Forall_empty|reflexivity]]].

Lemma after_start_counters s :
  counter (after_start s) = counter s /\
  app_errors_total (registry (after_start s)) = app_errors_total (registry s) /\
  environ (after_start s) = environ s.
Proof. unfold after_start. rewrite start_timer_run. simpl. auto. Qed.

(** The pipeline ends with the after-request hook on the state the view
    or the error handler left, in which [request.start_time] is set. *)
Lemma full_dispatch_request_after req s r s3 :
  world_wf s -> stry (dispatch_request (url_map (environ s)) req) handle_user_exception (after_start s) = (r, s3) ->
  exists rv t0, r = Ret rv /\ req_start_time s3 = Some t0 /\
    full_dispatch_request req s = record_latency req (request_endpoint (url_map (environ s)) req) rv s3.
Proof.
  intros Hs H3. destruct (full_dispatch_request_run req s Hs) as (rv & s3' & H3' & _ & _ & Hst & _ & _ & E).
  rewrite H3' in H3. injection H3 as <- <-. by exists rv, (clock s + elapse s O).
Qed.

(** The response of a request is the one the view or the error handler
    produced; the after-request hook moves neither [counter] nor
    [app_errors_total]. *)
Lemma full_dispatch_request_outcome req s r s3 :
  world_wf s -> stry (dispatch_request (url_map (environ s)) req) handle_user_exception (after_start s) = (r, s3) ->
  fst (full_dispatch_request req s) = r /\
  counter (snd (full_dispatch_request req s)) = counter s3 /\
  app_errors_total (registry (snd (full_dispatch_request req s))) = app_errors_total (registry s3).
Proof.
  intros Hs H3. destruct (full_dispatch_request_after req s r s3 Hs H3) as (rv & t0 & -> & Hst & ->).
  rewrite (record_latency_run _ _ _ s3 _ Hst). simpl. auto.
Qed.

Lemma jsonify_state j s : snd (jsonify j s) = s.
Proof. unfold jsonify. by destruct (json_int_error j). Qed.

(** Nor does it touch [calc_time]. *)
Lemma full_dispatch_request_calc req s r s3 :
  world_wf s -> stry (dispatch_request (url_map (environ s)) req) handle_user_exception (after_start s) = (r, s3) ->
  calculate_duration_seconds (registry (snd (full_dispatch_request req s))) =
  calculate_duration_seconds (registry s3).
Proof.
  intros Hs H3. destruct (full_dispatch_request_after req s r s3 Hs H3) as (rv & t0 & -> & Hst & ->).
  rewrite (record_latency_run _ _ _ s3 _ Hst). reflexivity.
Qed.

(** [calc_time] after a request is what the view (or the routing
    exception) left: the error handler does not touch it either. *)
Lemma full_dispatch_request_calc_view req s :
  world_wf s ->
  calculate_duration_seconds (registry (snd (full_dispatch_request req s))) =
  calculate_duration_seconds (registry (snd (dispatch_request (url_map (environ s)) req (after_start s)))).
Proof.
  intros Hs. destruct (stry (dispatch_request (url_map (environ s)) req) handle_user_exception (after_start s)) as [r s3] eqn:E.
  rewrite (full_dispatch_request_calc req s r s3 Hs E).
  unfold stry in E. destruct (dispatch_request (url_map (environ s)) req (after_start s)) as [[a|e] s'].
  - by injection E as _ <-.
  - rewrite handle_user_exception_run in E. by destruct e; injection E as _ <-.
Qed.

Lemma full_dispatch_request_mono req s :
  world_wf s ->
  counter s <= counter (snd (full_dispatch_request req s)) /\
  app_errors_total (registry s) <= app_errors_total (registry (snd (full_dispatch_request req s))).
Proof.
  intros Hs.
  destruct (handled_ret (dispatch_request (url_map (environ s)) req) (after_start s)) as (rv & s3 & H3).
  pose proof (stays_try handler_frame _ _ (dispatch_request_frame (url_map (environ s)) req) handle_user_exception_frame
                (after_start s)) as Hfr.
  rewrite H3 in Hfr. cbn [snd] in Hfr.
  destruct (Hfr (after_start_wf s Hs)) as (_ & _ & _ & _ & _ & He & Hc & _).
  destruct (full_dispatch_request_outcome req s _ _ Hs H3) as (_ & -> & ->).
  destruct (after_start_counters s) as (Hc0 & He0 & _). lia.
Qed.

(** Every request is answered 200 or 308 with [app_errors_total]
    unchanged, or 500 with one more error. *)
Lemma full_dispatch_request_status req s :
  world_wf s ->
  exists rv s', full_dispatch_request req s = (Ret rv, s') /\ world_wf s' /\
    (((status rv = 200 \/ status rv = 308) /\ app_errors_total (registry s') = app_errors_total (registry s)) \/
     (status rv = 500 /\ app_errors_total (registry s') = app_errors_total (registry s) + 1)).
Proof.
  intros Hs.
  destruct (handled_status (dispatch_request (url_map (environ s)) req) (after_start s)
              (dispatch_request_errors (url_map (environ s)) req) (dispatch_request_200 (url_map (environ s)) req)) as (rv & s3 & H3 & Hst).
  destruct (full_dispatch_request_outcome req s _ _ Hs H3) as (Hrv & _ & He).
  destruct (full_dispatch_request_effect req s Hs) as (rv' & s' & _ & E & _ & _ & _ & Hw).
  rewrite E in Hrv, He. simpl in Hrv, He. injection Hrv as ->.
  destruct (after_start_counters s) as (_ & He0 & _).
  exists rv, s'. split; [done|]. split; [done|]. rewrite He, <- He0. exact Hst.
Qed.

(** Bounds against the digit limit are proved for an arbitrary bound, so
    that no proof term unfolds [10 ^ 4300]. *)
Lemma abs_succ_below a b L : 0 <= a -> a <= b -> b + 1 < L -> Z.abs (a + 1) < L.
Proof. lia. Qed.

(** ** The service as a state machine *)

(** One request served: the process goes from [s] to [s'] answering [rv]. *)
Inductive step : St -> Request -> Response -> St -> Prop :=
| step_serve req s rv s' : full_dispatch_request req s = (Ret rv, s') -> step s req rv s'.

(** A sequence of requests served one after the other. *)
Inductive run : St -> list Request -> St -> Prop :=
| run_nil s : run s [] s
| run_cons s req rv s1 reqs s2 : step s req rv s1 -> run s1 reqs s2 -> run s (req :: reqs) s2.

(** The [visits] field of a JSON response. *)
Definition response_visits (r : Response) : option Z :=
  match body r with
  | BJson (JObj fs) => match alist_get "visits" fs with Some (JInt v) => Some v | _ => None end
  | _ => None
  end.

Lemma step_effect s req rv s' :
  world_wf s -> step s req rv s' ->
  world_wf s' /\ app_visits_total (registry s') = app_visits_total (registry s) + 1 /\
  counter s <= counter s' /\ app_errors_total (registry s) <= app_errors_total (registry s').
Proof.
  intros Hs Hst. inversion Hst as [req' s0 rv0 s0' H]; subst.
  pose proof (full_dispatch_request_mono req s Hs) as Hm.
  destruct (full_dispatch_request_effect req s Hs) as (rv1 & s1 & lat & H1 & _ & _ & Hv & Hw).
  rewrite H1 in H, Hm. injection H as <- <-. simpl in Hm. auto.
Qed.

Lemma step_exists s req : world_wf s -> exists rv s', step s req rv s'.
Proof.
  intros Hs. destruct (full_dispatch_request_effect req s Hs) as (rv & s' & _ & H & _).
  exists rv, s'. by constructor.
Qed.

(** Well-formedness and [counter] along a [run]. *)
Lemma run_wf_counter s reqs s' : run s reqs s' -> world_wf s -> world_wf s' /\ counter s <= counter s'.
Proof.
  induction 1 as [s|s req rv s1 reqs s2 Hstep _ IH]; intros Hs; [split; [done | lia]|].
  destruct (step_effect _ _ _ _ Hs Hstep) as (Hs1 & _ & Hc & _).
  destruct (IH Hs1) as [Hs2 Hc2]. split; [done | lia].
Qed.

(** [GET /] answers the new [counter] as [visits]. *)
Lemma hello_world_step s a :
  world_wf s -> Z.abs (counter s + 1) < 10 ^ 4300 ->
  exists rv s', full_dispatch_request (GET "/" a) s = (Ret rv, s') /\
    response_visits rv = Some (counter s + 1) /\ counter s' = counter s + 1.
Proof.
  intros Hs Hlim. destruct (after_start_counters s) as (Hc & _ & _). rewrite <- Hc in Hlim.
  pose proof (hello_world_run (after_start s) Hlim) as Hh.
  rewrite <- (dispatch_request_hello (environ s) a) in Hh.
  destruct (full_dispatch_request_outcome (GET "/" a) s _ _ Hs (stry_Ret _ handle_user_exception _ _ _ Hh))
    as (Hr & Hcn & _).
  destruct (full_dispatch_request (GET "/" a) s) as [o s'] eqn:E. cbn [fst snd] in Hr, Hcn. subst o.
  eexists _, s'. split; [reflexivity|]. rewrite Hcn, Hc. split; reflexivity.
Qed.

(** C11: along any sequence of requests the process stays well formed,
    [app_visits_total] grows by the number of requests, and the global
    [counter] and [app_errors_total] never decrease. *)
Theorem run_mono s reqs s' :
  run s reqs s' -> world_wf s ->
  world_wf s' /\
  app_visits_total (registry s') = app_visits_total (registry s) + Z.of_nat (length reqs) /\
  counter s <= counter s' /\ app_errors_total (registry s) <= app_errors_total (registry s').
Proof.
  induction 1 as [s|s req rv s1 reqs s2 Hstep _ IH]; intros Hs.
  - split; [done|]. simpl. lia.
  - destruct (step_effect _ _ _ _ Hs Hstep) as (Hs1 & Hv & Hc & He).
    destruct (IH Hs1) as (Hs2 & Hv2 & Hc2 & He2).
    split; [done|]. rewrite Hv2, Hv. simpl length. lia.
Qed.


(** ** Properties of the pipeline *)

(** C6: every request, to a route or not, gets a response: no exception
    escapes [full_dispatch_request], and in particular the after-request
    hook always finds [request.start_time]. *)
Theorem full_dispatch_request_total req s :
  world_wf s -> exists rv, fst (full_dispatch_request req s) = Ret rv.
Proof.
  intros Hs. destruct (full_dispatch_request_effect req s Hs) as (rv & s' & _ & -> & _). eauto.
Qed.


(** C1: [GET /calculate] whose [x] and [y] parse returns
    [{"result": badFunction(x, y)}] with status 200, as long as the result
    can be written in decimal (fewer than 4301 digits). *)
Theorem calculate_response s a x y :
  world_wf s ->
  arg_int (GET "/calculate" a) "x" 5 = Ret x -> arg_int (GET "/calculate" a) "y" 3 = Ret y ->
  Z.abs (badFunction x y) < 10 ^ 4300 ->
  fst (full_dispatch_request (GET "/calculate" a) s) =
  Ret (mkResponse 200 (BJson (JObj [("result", JInt (badFunction x y))]))).
Proof.
  intros Hs Hx Hy Hlim.
  destruct (calculate_parsed (GET "/calculate" a) (after_start s) x y Hx Hy) as (s' & Hc & _).
  rewrite jsonify_result in Hc.
  destruct (Nat.ltb_spec MAX_STR_DIGITS (ndigits (badFunction x y))) as [Hgt|_].
  { apply ndigits_le_limit_iff in Hlim. exfalso. exact (Nat.lt_irrefl _ (Nat.lt_le_trans _ _ _ Hgt Hlim)). }
  eapply full_dispatch_request_outcome; [done|]. apply stry_Ret.
  by rewrite (dispatch_request_app _ _ ECalculate).
Qed.

(** C5: a [/calculate] argument that is not an integer literal makes
    [int()] raise [ValueError]; the global handler answers 500 with the
    exception's text and counts one error. *)
Theorem calculate_bad_argument s a m :
  world_wf s ->
  (arg_int (GET "/calculate" a) "x" 5 = Exn m \/
   exists x, arg_int (GET "/calculate" a) "x" 5 = Ret x /\ arg_int (GET "/calculate" a) "y" 3 = Exn m) ->
  fst (full_dispatch_request (GET "/calculate" a) s) =
    Ret (mkResponse 500 (BJson (JObj [("error", JStr m)]))) /\
  app_errors_total (registry (snd (full_dispatch_request (GET "/calculate" a) s))) =
    app_errors_total (registry s) + 1.
Proof.
  intros Hs Hm.
  pose proof (calculate_arg_error (GET "/calculate" a) (after_start s) m Hm) as Hc.
  rewrite <- (dispatch_request_calculate (environ s)) in Hc.
  pose proof (stry_Exn _ handle_user_exception _ _ _ Hc) as Ht. rewrite handle_user_exception_run in Ht.
  destruct (full_dispatch_request_outcome (GET "/calculate" a) s _ _ Hs Ht) as (-> & _ & ->).
  split; [done|]. reflexivity.
Qed.

(** C16: a product too long for [int.__repr__] (at least 4301 digits)
    makes [jsonify] raise [ValueError] inside the view: the request that
    parsed fine answers 500 and counts an error. *)
Theorem calculate_result_too_long s a x y :
  world_wf s ->
  arg_int (GET "/calculate" a) "x" 5 = Ret x -> arg_int (GET "/calculate" a) "y" 3 = Ret y ->
  10 ^ 4300 <= Z.abs (badFunction x y) ->
  fst (full_dispatch_request (GET "/calculate" a) s) =
    Ret (mkResponse 500 (BJson (JObj [("error", JStr to_str_limit_msg)]))) /\
  app_errors_total (registry (snd (full_dispatch_request (GET "/calculate" a) s))) =
    app_errors_total (registry s) + 1.
Proof.
  intros Hs Hx Hy Hlim.
  destruct (calculate_parsed (GET "/calculate" a) (after_start s) x y Hx Hy) as (s' & Hc & _ & He & _).
  rewrite <- (dispatch_request_calculate (environ s)) in Hc.
  rewrite jsonify_result in Hc.
  destruct (Nat.ltb_spec MAX_STR_DIGITS (ndigits (badFunction x y))) as [_|Hle].
  2: { apply ndigits_le_limit_iff in Hle. exfalso. exact (Z.lt_irrefl _ (Z.le_lt_trans _ _ _ Hlim Hle)). }
  pose proof (stry_Exn _ handle_user_exception _ _ _ Hc) as Ht. rewrite handle_user_exception_run in Ht.
  destruct (full_dispatch_request_outcome (GET "/calculate" a) s _ _ Hs Ht) as (-> & _ & ->).
  split; [done|]. simpl. rewrite He. destruct (after_start_counters s) as (_ & -> & _). done.
Qed.

(** C17: [GET /calculate] whose arguments parse observes exactly one
    duration in [calc_time], of at least one second (the artificial
    sleep), whether or not its result can then be serialised; a request
    with a bad argument observes nothing. *)
Theorem calculate_observes_duration s a :
  world_wf s ->
  let h := calculate_duration_seconds (registry s) in
  let h' := calculate_duration_seconds (registry (snd (full_dispatch_request (GET "/calculate" a) s))) in
  (forall x y, arg_int (GET "/calculate" a) "x" 5 = Ret x -> arg_int (GET "/calculate" a) "y" 3 = Ret y ->
     exists d, SECOND <= d /\ h' = histogram_observe d h) /\
  (forall m, (arg_int (GET "/calculate" a) "x" 5 = Exn m \/
              exists x, arg_int (GET "/calculate" a) "x" 5 = Ret x /\ arg_int (GET "/calculate" a) "y" 3 = Exn m) ->
     h' = h).
Proof.
  intros Hs h h'. subst h h'. rewrite full_dispatch_request_calc_view by done.
  rewrite dispatch_request_calculate.
  unfold after_start. rewrite start_timer_run. split.
  - intros x y Hx Hy.
    edestruct (calculate_parsed (GET "/calculate" a)) as (s' & -> & _ & _ & Hd); [exact Hx | exact Hy|].
    rewrite jsonify_state, Hd. eexists. split; [|reflexivity].
    destruct Hs as (Hr & He & _). cbn. unfold stream_tail.
    pose proof (uniform_value_1_3 _ (Hr O)). pose proof (He 2%nat). lia.
  - intros m Hm. by rewrite (calculate_arg_error _ _ _ Hm).
Qed.


(** C12: [GET /] increments the global [counter] and answers the
    greeting with [visits] equal to the new value (while it can be
    written in decimal) and the [ENVIRONMENT] variable or "development". *)
Theorem hello_world_visits s a :
  world_wf s -> Z.abs (counter s + 1) < 10 ^ 4300 ->
  fst (full_dispatch_request (GET "/" a) s) =
    Ret (mkResponse 200 (BJson (JObj [("message", JStr "Hello from DevOps Lab!");
                                      ("version", JStr "1.0.0");
                                      ("environment", JStr (match environ s !! "ENVIRONMENT" with
                                                            | Some v => v | None => "development" end));
                                      ("visits", JInt (counter s + 1))]))) /\
  counter (snd (full_dispatch_request (GET "/" a) s)) = counter s + 1.
Proof.
  intros Hs Hlim.
  destruct (after_start_counters s) as (Hc & _ & Henv).
  rewrite <- Hc in Hlim.
  pose proof (hello_world_run (after_start s) Hlim) as Hh.
  rewrite <- (dispatch_request_hello (environ s) a) in Hh.
  destruct (full_dispatch_request_outcome (GET "/" a) s _ _ Hs (stry_Ret _ handle_user_exception _ _ _ Hh))
    as (-> & -> & _).
  rewrite Henv, Hc. done.
Qed.

(** C4: across sequential requests of one process, the [visits] that
    [GET /] returns strictly increase, whatever requests come between. *)
Theorem visits_strictly_increase s a1 rv1 s1 mid s2 a2 :
  world_wf s -> 0 <= counter s ->
  step s (GET "/" a1) rv1 s1 -> run s1 mid s2 -> counter s2 + 1 < 10 ^ 4300 ->
  exists rv2 s3 v1 v2,
    step s2 (GET "/" a2) rv2 s3 /\ response_visits rv1 = Some v1 /\ response_visits rv2 = Some v2 /\
    v1 < v2.
Proof.
  intros Hs Hc0 H1 Hrun Hlim.
  destruct (step_effect _ _ _ _ Hs H1) as (Hs1 & _ & Hc1 & _).
  destruct (run_wf_counter _ _ _ Hrun Hs1) as (Hs2 & Hc2).
  inversion H1 as [req s0 rv0 s0' Hf]; subst.
  assert (Hc12 : counter s <= counter s2) by (clear Hlim; lia).
  pose proof (abs_succ_below (counter s) (counter s2) _ Hc0 Hc12 Hlim) as Hl1.
  pose proof (abs_succ_below (counter s2) (counter s2) _ ltac:(clear Hlim; lia) (Z.le_refl _) Hlim) as Hl2.
  destruct (hello_world_step s a1 Hs Hl1) as (rv1' & s1' & E1 & Hv1 & Hcn1).
  rewrite Hf in E1. injection E1 as <- <-.
  destruct (hello_world_step s2 a2 Hs2 Hl2) as (rv2 & s3 & E2 & Hv2 & _).
  exists rv2, s3, (counter s + 1), (counter s2 + 1).
  split; [constructor; exact E2|]. split; [exact Hv1|]. split; [exact Hv2|]. clear Hlim Hl1 Hl2. lia.
Qed.

(** C19: Flask answers [OPTIONS] on a known path itself: status 200, the
    view is not called, so [counter] and [app_errors_total] stay. *)
Theorem options_skips_view s req ep :
  world_wf s -> method req = "OPTIONS" -> alist_get (path req) (url_map (environ s)) = Some ep ->
  fst (full_dispatch_request req s) = Ret (mkResponse 200 BEmpty) /\
  counter (snd (full_dispatch_request req s)) = counter s /\
  app_errors_total (registry (snd (full_dispatch_request req s))) = app_errors_total (registry s).
Proof.
  intros Hs Hm Hp.
  assert (Hd : dispatch_request (url_map (environ s)) req (after_start s) = (Ret (mkResponse 200 BEmpty), after_start s))
    by (unfold dispatch_request, url_match; rewrite Hp, Hm; reflexivity).
  destruct (full_dispatch_request_outcome req s _ _ Hs (stry_Ret _ handle_user_exception _ _ _ Hd))
    as (-> & -> & ->).
  destruct (after_start_counters s) as (-> & -> & _). done.
Qed.

(** C15: a method the rule does not accept (e.g. [POST /]) is answered
    500, not 405: werkzeug's [MethodNotAllowed] reaches the [Exception]
    handler, which counts an error; the view does not run. *)
Theorem wrong_method_answers_500 s req ep :
  world_wf s -> alist_get (path req) (url_map (environ s)) = Some ep ->
  existsb (String.eqb (method req)) rule_methods = false ->
  fst (full_dispatch_request req s) =
    Ret (mkResponse 500 (BJson (JObj [("error", JStr (exc_str MethodNotAllowed))]))) /\
  app_errors_total (registry (snd (full_dispatch_request req s))) = app_errors_total (registry s) + 1 /\
  counter (snd (full_dispatch_request req s)) = counter s.
Proof.
  intros Hs Hp Hm.
  assert (Hu : url_match (url_map (environ s)) req = Exn MethodNotAllowed) by (unfold url_match; by rewrite Hp, Hm).
  assert (Hd : dispatch_request (url_map (environ s)) req (after_start s) = (Exn MethodNotAllowed, after_start s))
    by (unfold dispatch_request; by rewrite Hu).
  pose proof (stry_Exn _ handle_user_exception _ _ _ Hd) as Ht. rewrite handle_user_exception_run in Ht.
  destruct (full_dispatch_request_outcome _ s _ _ Hs Ht) as (-> & -> & ->).
  split; [done|]. split; reflexivity.
Qed.


(** C24: in the child the reloader of [app.run(debug=True)] starts
    ([WERKZEUG_RUN_MAIN=true]), without [DEBUG_METRICS], the exporter does
    not register [/metrics]: [GET /metrics] is werkzeug's [NotFound],
    answered 500 by the [Exception] handler with one more error. *)
Theorem reloader_child_metrics_500 s a :
  world_wf s -> environ s !! "WERKZEUG_RUN_MAIN" = Some "true" ->
  (environ s !! "DEBUG_METRICS" = None \/ environ s !! "DEBUG_METRICS" = Some "") ->
  fst (full_dispatch_request (GET "/metrics" a) s) =
    Ret (mkResponse 500 (BJson (JObj [("error", JStr (exc_str NotFound))]))) /\
  app_errors_total (registry (snd (full_dispatch_request (GET "/metrics" a) s))) =
    app_errors_total (registry s) + 1.
Proof.
  intros Hs Hr Hdm.
  assert (Hu : url_map (environ s) = app_rules)
    by (unfold url_map, metrics_registered; rewrite Hr; by destruct Hdm as [-> | ->]).
  assert (Hd : dispatch_request (url_map (environ s)) (GET "/metrics" a) (after_start s) =
               (Exn NotFound, after_start s)) by (rewrite Hu; reflexivity).
  pose proof (stry_Exn _ handle_user_exception _ _ _ Hd) as Ht. rewrite handle_user_exception_run in Ht.
  destruct (full_dispatch_request_outcome _ s _ _ Hs Ht) as (-> & _ & ->).
  split; reflexivity.
Qed.

(** [serve] over a list of requests of a well-formed process: it returns
    one response per request, each 200, 308 or 500, and [app_errors_total]
    grows by the number of 500 responses. *)
Lemma serve_spec reqs s :
  world_wf s ->
  exists resps s', serve reqs s = (Ret resps, s') /\ world_wf s' /\ length resps = length reqs /\
    Forall (fun r => status r = 200 \/ status r = 308 \/ status r = 500) resps /\
    app_errors_total (registry s') =
      app_errors_total (registry s) + Z.of_nat (length (filter (fun r => status r = 500) resps)).
Proof.
  revert s. induction reqs as [|req reqs IH]; intros s Hs.
  - exists [], s. split; [done|]. split; [done|]. split; [done|]. split; [constructor|]. simpl. lia.
  - destruct (full_dispatch_request_status req s Hs) as (rv & s1 & E & Hs1 & Hst).
    destruct (IH s1 Hs1) as (resps & s2 & E2 & Hs2 & Hl & Hf & He).
    exists (rv :: resps), s2. cbn [serve]. run_step exact E. run_step exact E2.
    split; [done|]. split; [done|]. split; [simpl; lia|]. rewrite filter_cons.
    destruct Hst as [[Hr Hr1] | [Hr Hr1]]; (split; [constructor; [lia|done]|]).
    + rewrite decide_False by lia. lia.
    + rewrite decide_True by done. simpl length. lia.
Qed.

(** C9: a process serving requests one after the other answers every
    request, with status 200, 308 or 500 and nothing else: a path that
    only matches with its slashes merged is redirected (308), every other
    routing failure and every exception becomes 500; no 404 or 405. *)
Theorem serve_answers_200_308_500 reqs s :
  world_wf s ->
  exists resps s', serve reqs s = (Ret resps, s') /\ length resps = length reqs /\
    Forall (fun r => status r = 200 \/ status r = 308 \/ status r = 500) resps.
Proof.
  intros Hs. destruct (serve_spec reqs s Hs) as (resps & s' & E & _ & Hl & Hf & _). eauto.
Qed.

(** C8: [app_errors_total] counts exactly the requests answered 500. *)
Theorem errors_count_500_responses reqs s resps s' :
  world_wf s -> serve reqs s = (Ret resps, s') ->
  app_errors_total (registry s') =
    app_errors_total (registry s) + Z.of_nat (length (filter (fun r => status r = 500) resps)).
Proof.
  intros Hs E. destruct (serve_spec reqs s Hs) as (resps' & s'' & E' & _ & _ & _ & He).
  rewrite E in E'. injection E' as -> ->. exact He.
Qed.

(** the step relation [run] and the executable [serve] agree: a
    sequence of requests leads from [s] to [s'] exactly when [serve]
    answers all of them and ends in [s']. *)
Theorem serve_run_equiv s reqs s' :
  run s reqs s' <-> exists resps, serve reqs s = (Ret resps, s').
Proof.
  split.
  - induction 1 as [s|s req rv s1 reqs s2 Hstep _ [resps IH]]; [by exists []|].
    inversion Hstep as [? ? ? ? E]; subst. exists (rv :: resps).
    cbn [serve]. run_step exact E. run_step exact IH. reflexivity.
  - revert s. induction reqs as [|req reqs IH]; intros s [resps E].
    + injection E as _ <-. constructor.
    + cbn [serve] in E. unfold sbind in E.
      destruct (full_dispatch_request req s) as [[rv|e] s1] eqn:E1; [|discriminate].
      destruct (serve reqs s1) as [[l|e] s2] eqn:E2; [|discriminate].
      injection E as _ <-. eapply run_cons; [constructor; exact E1|]. apply IH. eauto.
Qed.

Lemma full_dispatch_request_total_witness :
  world_wf demo_state /\ exists rv, fst (full_dispatch_request (GET "/nope" []) demo_state) = Ret rv.
Proof. split; [solve_world_wf | apply full_dispatch_request_total; solve_world_wf]. Defined.


Lemma calculate_response_witness :
  world_wf demo_state /\
  arg_int (GET "/calculate" [("x", "11"); ("y", "11")]) "x" 5 = Ret 11 /\
  arg_int (GET "/calculate" [("x", "11"); ("y", "11")]) "y" 3 = Ret 11 /\
  Z.abs (badFunction 11 11) < 10 ^ 4300 /\
  fst (full_dispatch_request (GET "/calculate" [("x", "11"); ("y", "11")]) demo_state) =
  Ret (mkResponse 200 (BJson (JObj [("result", JInt 121)]))).
Proof.
  split; [solve_world_wf|]. split; [reflexivity|]. split; [reflexivity|].
  split; [vm_compute; reflexivity|].
  apply (calculate_response demo_state _ 11 11); [solve_world_wf | reflexivity | reflexivity | vm_compute; reflexivity].
Defined.

Lemma calculate_bad_argument_witness :
  world_wf demo_state /\
  arg_int (GET "/calculate" [("x", "abc")]) "x" 5 = Exn "invalid literal for int() with base 10: 'abc'" /\
  fst (full_dispatch_request (GET "/calculate" [("x", "abc")]) demo_state) =
    Ret (mkResponse 500 (BJson (JObj [("error", JStr "invalid literal for int() with base 10: 'abc'")]))).
Proof.
  split; [solve_world_wf|]. split; [vm_compute; reflexivity|].
  apply (calculate_bad_argument demo_state _ _); [solve_world_wf | left; vm_compute; reflexivity].
Defined.

(** [10^2200] written out: 1 and 2200 zeros. *)
Definition big_literal : string := String (char_of_digit 1) (string_of_digits (replicate 2200 0)).

Lemma big_literal_value : int_of_str big_literal = Ret (10 ^ 2200).
Proof. apply (int_of_str_power_of_ten 2200). unfold MAX_STR_DIGITS. lia. Qed.

Lemma calculate_result_too_long_witness :
  world_wf demo_state /\
  arg_int (GET "/calculate" [("x", big_literal); ("y", big_literal)]) "x" 5 = Ret (10 ^ 2200) /\
  arg_int (GET "/calculate" [("x", big_literal); ("y", big_literal)]) "y" 3 = Ret (10 ^ 2200) /\
  10 ^ 4300 <= Z.abs (badFunction (10 ^ 2200) (10 ^ 2200)) /\
  fst (full_dispatch_request (GET "/calculate" [("x", big_literal); ("y", big_literal)]) demo_state) =
    Ret (mkResponse 500 (BJson (JObj [("error", JStr to_str_limit_msg)]))).
Proof.
  assert (Hx : arg_int (GET "/calculate" [("x", big_literal); ("y", big_literal)]) "x" 5 = Ret (10 ^ 2200))
    by exact big_literal_value.
  assert (Hy : arg_int (GET "/calculate" [("x", big_literal); ("y", big_literal)]) "y" 3 = Ret (10 ^ 2200))
    by exact big_literal_value.
  assert (Hb : 10 ^ 4300 <= Z.abs (badFunction (10 ^ 2200) (10 ^ 2200))).
  { assert (H10 : 10 ^ 1 < 10 ^ 2200) by (apply Z.pow_lt_mono_r; lia).
    change (10 ^ 1) with 10 in H10.
    rewrite (badFunction_mul (10 ^ 2200) (10 ^ 2200) H10 H10).
    rewrite <- Z.pow_add_r by lia. rewrite Z.abs_eq by (apply Z.pow_nonneg; lia).
    apply Z.pow_le_mono_r; lia. }
  split; [solve_world_wf|]. split; [exact Hx|]. split; [exact Hy|]. split; [exact Hb|].
  apply (calculate_result_too_long demo_state _ (10 ^ 2200) (10 ^ 2200) ltac:(solve_world_wf) Hx Hy Hb).
Defined.


(** The response and state after one request, computed. *)
Definition resp_of (o : outcome PyExc Response) : Response :=
  match o with Ret r => r | Exn _ => mkResponse 0 BEmpty end.
Definition next_state (req : Request) (s : St) : St := snd (full_dispatch_request req s).
Definition next_resp (req : Request) (s : St) : Response := resp_of (fst (full_dispatch_request req s)).

Ltac step_by_compute := constructor; vm_compute; reflexivity.

Lemma hello_world_visits_witness :
  world_wf demo_state /\ Z.abs (counter demo_state + 1) < 10 ^ 4300 /\
  counter (snd (full_dispatch_request (GET "/" []) demo_state)) = 1.
Proof.
  split; [solve_world_wf|]. split; [vm_compute; reflexivity|].
  apply (hello_world_visits demo_state []); [solve_world_wf | vm_compute; reflexivity].
Defined.

Lemma visits_strictly_increase_witness :
  let s1 := next_state (GET "/" []) demo_state in
  let s2 := next_state (GET "/health" []) s1 in
  world_wf demo_state /\ 0 <= counter demo_state /\
  step demo_state (GET "/" []) (next_resp (GET "/" []) demo_state) s1 /\
  run s1 [GET "/health" []] s2 /\ counter s2 + 1 < 10 ^ 4300 /\
  exists rv2 s3 v1 v2,
    step s2 (GET "/" []) rv2 s3 /\ response_visits (next_resp (GET "/" []) demo_state) = Some v1 /\
    response_visits rv2 = Some v2 /\ v1 < v2.
Proof.
  intros s1 s2.
  assert (H1 : step demo_state (GET "/" []) (next_resp (GET "/" []) demo_state) s1) by step_by_compute.
  assert (H2 : run s1 [GET "/health" []] s2)
    by (eapply run_cons; [step_by_compute | apply run_nil]).
  split; [solve_world_wf|]. split; [vm_compute; discriminate|].
  split; [exact H1|]. split; [exact H2|]. split; [vm_compute; reflexivity|].
  apply (visits_strictly_increase demo_state [] _ s1 [GET "/health" []] s2 []);
    [solve_world_wf | vm_compute; discriminate | exact H1 | exact H2 | vm_compute; reflexivity].
Defined.

Lemma run_mono_witness :
  let s1 := next_state (GET "/nope" []) (next_state (GET "/" []) demo_state) in
  run demo_state [GET "/" []; GET "/nope" []] s1 /\ world_wf demo_state /\
  app_visits_total (registry s1) = 2.
Proof.
  intros s1.
  assert (H : run demo_state [GET "/" []; GET "/nope" []] s1)
    by (eapply run_cons; [step_by_compute | eapply run_cons; [step_by_compute | apply run_nil]]).
  split; [exact H|]. split; [solve_world_wf|].
  destruct (run_mono _ _ _ H) as (_ & Hv & _); [solve_world_wf|]. rewrite Hv. reflexivity.
Defined.

Lemma options_skips_view_witness :
  world_wf demo_state /\ method (mkRequest "OPTIONS" "/" []) = "OPTIONS" /\
  alist_get (path (mkRequest "OPTIONS" "/" [])) (url_map (environ demo_state)) = Some EHello /\
  counter (snd (full_dispatch_request (mkRequest "OPTIONS" "/" []) demo_state)) = 0.
Proof.
  split; [solve_world_wf|]. split; [reflexivity|]. split; [reflexivity|].
  destruct (options_skips_view demo_state (mkRequest "OPTIONS" "/" []) EHello)
    as (_ & -> & _); [solve_world_wf | reflexivity | reflexivity | reflexivity].
Defined.

Lemma wrong_method_answers_500_witness :
  world_wf demo_state /\ alist_get (path (mkRequest "POST" "/" [])) (url_map (environ demo_state)) = Some EHello /\
  existsb (String.eqb (method (mkRequest "POST" "/" []))) rule_methods = false /\
  fst (full_dispatch_request (mkRequest "POST" "/" []) demo_state) =
    Ret (mkResponse 500 (BJson (JObj [("error", JStr (exc_str MethodNotAllowed))]))).
Proof.
  split; [solve_world_wf|]. split; [reflexivity|]. split; [reflexivity|].
  apply (wrong_method_answers_500 demo_state _ EHello); [solve_world_wf | reflexivity | reflexivity].
Defined.

Lemma serve_answers_200_308_500_witness :
  world_wf demo_state /\
  exists resps s', serve [GET "/" []; GET "//health" []; GET "/nope" []; mkRequest "POST" "/" []] demo_state = (Ret resps, s') /\
    length resps = 4%nat /\ Forall (fun r => status r = 200 \/ status r = 308 \/ status r = 500) resps.
Proof. split; [solve_world_wf | apply serve_answers_200_308_500; solve_world_wf]. Defined.


(** A process started by the reloader, with no [DEBUG_METRICS]. *)
Definition reloader_state : St :=
  init_state (<["WERKZEUG_RUN_MAIN" := "true"]> ∅) 0 (fun _ => 0) (fun _ => 0).

Lemma reloader_child_metrics_500_witness :
  world_wf reloader_state /\ environ reloader_state !! "WERKZEUG_RUN_MAIN" = Some "true" /\
  environ reloader_state !! "DEBUG_METRICS" = None /\
  app_errors_total (registry (snd (full_dispatch_request (GET "/metrics" []) reloader_state))) = 1.
Proof.
  split; [solve_world_wf|]. split; [reflexivity|]. split; [reflexivity|].
  rewrite (proj2 (reloader_child_metrics_500 reloader_state [] ltac:(solve_world_wf) eq_refl (or_introl eq_refl))).
  reflexivity.
Defined.

Lemma errors_count_500_responses_witness :
  exists resps s', world_wf demo_state /\
    serve [GET "/" []; GET "/nope" []; mkRequest "POST" "/" []] demo_state = (Ret resps, s') /\
    app_errors_total (registry s') = 2.
Proof.
  destruct (serve [GET "/" []; GET "/nope" []; mkRequest "POST" "/" []] demo_state)
    as [[resps|e] s'] eqn:E; [|vm_compute in E; discriminate].
  exists resps, s'. split; [solve_world_wf|]. split; [reflexivity|].
  rewrite (errors_count_500_responses [GET "/" []; GET "/nope" []; mkRequest "POST" "/" []]
             demo_state resps s'); [| solve_world_wf | exact E].
  vm_compute in E. injection E as <- _. reflexivity.
Defined.

Lemma calculate_observes_duration_witness :
  world_wf demo_state /\
  arg_int (GET "/calculate" [("x", "11")]) "x" 5 = Ret 11 /\
  arg_int (GET "/calculate" [("x", "11")]) "y" 3 = Ret 3 /\
  exists d, SECOND <= d /\
    calculate_duration_seconds (registry (snd (full_dispatch_request (GET "/calculate" [("x", "11")]) demo_state))) =
    histogram_observe d (calculate_duration_seconds (registry demo_state)).
Proof.
  split; [solve_world_wf|]. split; [reflexivity|]. split; [reflexivity|].
  apply (proj1 (calculate_observes_duration demo_state _ ltac:(solve_world_wf)) 11 3); reflexivity.
Defined.

End App.
