(* ===== verification/Exporter.v ===== *)
(** * The request hooks of prometheus_flask_exporter

    [PrometheusMetrics(app)] (line 13 of [app.py]) registers, besides the
    [/metrics] view, a [before_request] hook that stores
    [request.prom_start_time = default_timer()] and an [after_request]
    hook that observes the request's duration in the histogram
    [flask_http_request_duration_seconds] (labels [method], [path],
    [status]) and increments the counter [flask_http_request_total]
    (labels [method], [status]).  The [/metrics] view is wrapped in
    [do_not_track]: it sets [request.prom_do_not_track], and the
    after-request hook then records nothing.

    Flask runs the [before_request] functions in the order they were
    registered and the [after_request] functions in the reverse order.
    The exporter registers its hooks at line 13, before [start_timer] and
    [record_latency] (lines 57 and 62), so its before hook runs first and
    its after hook last, after the artificial sleep of [record_latency].

    The exporter's metrics and its two request attributes are a state
    [ExpSt] beside the process state [St]; the app's code is lifted to
    the pair.  [default_timer] ([time.perf_counter]) is read from the
    same clock as [time.time()]: both measure the time that passes.  The
    exception counter of the [teardown_request] hook is not touched,
    because the [Exception] handler of [app.py] handles every exception. *)

From S2P Require Import Prelude PyStr PyInt Metrics Runtime Handlers Middleware App.
Import PyInt Metrics Runtime Handlers Middleware App.

Module Exporter.
Local Open Scope Z_scope.
Local Open Scope py_scope.

(** ** The exporter's state *)









(** ** The app's code in the larger state *)







(** ** The hooks *)










(** ** The exporter's hooks around the app's pipeline *)








(** ** Counting by status *)








End Exporter.
