(* ===== verification/Main.v ===== *)
(** * Start-up: the [__main__] block of [app.py]

    [port = int(os.environ.get('PORT', 5000))] and
    [debug_mode = os.environ.get('DEBUG', 'false').lower() == 'true'], the
    arguments of [app.run].  A [PORT] that [int()] refuses raises
    [ValueError] before the server starts. *)

From S2P Require Import Prelude PyStr PyInt Runtime.
Import PyStr PyInt Runtime.

Module Main.
Local Open Scope Z_scope.

(** The arguments [app.run] is called with. *)
Record RunConfig := mkRunConfig {
  run_host : string;
  run_port : Z;
  run_debug : bool
}.

(** [int(os.environ.get('PORT', 5000))]: the default is the [int] 5000. *)
Definition env_port (env : gmap string string) : outcome PyExc Z :=
  match env !! "PORT" with
  | None => Ret 5000
  | Some v => match int_of_str v with Ret p => Ret p | Exn m => Exn (ValueError m) end
  end.

(** [os.environ.get('DEBUG', 'false').lower() == 'true']. *)
Definition env_debug (env : gmap string string) : bool :=
  String.eqb (py_lower (match env !! "DEBUG" with Some v => v | None => "false" end)) "true".

Definition main_config (env : gmap string string) : outcome PyExc RunConfig :=
  match env_port env with
  | Exn e => Exn e
  | Ret port => Ret (mkRunConfig "0.0.0.0" port (env_debug env))
  end.

(** The reference reading of the flag: the four letters of "true", each in
    either case. *)
Definition ci_char (lo up c : ascii) : bool := Ascii.eqb c lo || Ascii.eqb c up.

Definition is_true_ci (s : string) : bool :=
  match s with
  | String t (String r (String u (String e EmptyString))) =>
      ci_char "t" "T" t && ci_char "r" "R" r && ci_char "u" "U" u && ci_char "e" "E" e
  | _ => false
  end.


(** ** The [DEBUG] flag *)

Lemma lower_char_letters c :
  Ascii.eqb (lower_char c) "t" = ci_char "t" "T" c /\ Ascii.eqb (lower_char c) "r" = ci_char "r" "R" c /\
  Ascii.eqb (lower_char c) "u" = ci_char "u" "U" c /\ Ascii.eqb (lower_char c) "e" = ci_char "e" "E" c.
Proof.
  destruct c as [[] [] [] [] [] [] [] []]; vm_compute; repeat split.
Qed.

Lemma string_eqb_cons a s b t :
  String.eqb (String a s) (String b t) = Ascii.eqb a b && String.eqb s t.
Proof. reflexivity. Qed.

(** C27: [s.lower() == 'true'] holds exactly for the sixteen spellings of
    "true" with each letter in either case; [str.lower] maps no other
    Latin-1 character onto these ASCII letters. *)
Theorem lower_eq_true_iff s : String.eqb (py_lower s) "true" = is_true_ci s.
Proof.
  destruct s as [|c1 [|c2 [|c3 [|c4 [|c5 s]]]]]; [reflexivity|..];
    cbn [py_lower is_true_ci]; rewrite ?string_eqb_cons;
    destruct (lower_char_letters c1) as (-> & _ & _ & _);
    try destruct (lower_char_letters c2) as (_ & -> & _ & _);
    try destruct (lower_char_letters c3) as (_ & _ & -> & _);
    try destruct (lower_char_letters c4) as (_ & _ & _ & ->);
    cbn [String.eqb]; rewrite ?andb_false_r, ?andb_true_r, ?andb_assoc; reflexivity.
Qed.

(** ** The [PORT] variable *)

(** C25: without [PORT] the server listens on 5000; with [PORT] set to the
    decimal text of a port number it listens on that number. *)
Theorem main_config_port env p :
  (env !! "PORT" = None -> p = 5000 -> exists c, main_config env = Ret c /\ run_port c = p) /\
  (env !! "PORT" = Some (str_of_Z p) -> Z.abs p < 10 ^ 4300 ->
     exists c, main_config env = Ret c /\ run_port c = p /\ run_host c = "0.0.0.0").
Proof.
  split.
  - intros Hn ->. unfold main_config, env_port. rewrite Hn. by eexists.
  - intros Hp Hlim. apply ndigits_le_limit_iff in Hlim.
    unfold main_config, env_port. rewrite Hp, int_of_str_str_of_Z_gen.
    destruct (Nat.ltb_spec MAX_STR_DIGITS (ndigits p)); [lia|]. by eexists.
Qed.

(** C26: a [PORT] that [int()] refuses stops the program with that
    [ValueError] before [app.run]. *)
Theorem main_config_bad_port env v m :
  env !! "PORT" = Some v -> int_of_str v = Exn m -> main_config env = Exn (ValueError m).
Proof. intros Hp Hv. unfold main_config, env_port. by rewrite Hp, Hv. Qed.

Lemma lower_eq_true_iff_witness :
  String.eqb (py_lower "TrUe") "true" = true /\ String.eqb (py_lower "yes") "true" = false.
Proof. split; rewrite lower_eq_true_iff; reflexivity. Defined.

Lemma main_config_port_witness :
  (exists c, main_config (<["PORT" := "8080"]> ∅) = Ret c /\ run_port c = 8080 /\ run_host c = "0.0.0.0") /\
  (exists c, main_config ∅ = Ret c /\ run_port c = 5000).
Proof.
  split.
  - apply (main_config_port (<["PORT" := "8080"]> ∅) 8080); [vm_compute; reflexivity | vm_compute; reflexivity].
  - apply (main_config_port ∅ 5000); reflexivity.
Defined.

Lemma main_config_bad_port_witness :
  main_config (<["PORT" := "80 80"]> ∅) = Exn (ValueError "invalid literal for int() with base 10: '80 80'").
Proof. apply (main_config_bad_port _ "80 80"); vm_compute; reflexivity. Defined.

End Main.
