(* ===== verification/Threads.v ===== *)
(** * [hello_world] under the threaded development server

    [app.run] (line 99) serves each request in its own thread.  In
    [hello_world] the statement [counter += 1] (line 30) runs without a
    thread switch in CPython 3.11 (no call, no backward jump between the
    load and the store), but the global is read again for ['visits']
    (line 35) after the call [os.environ.get], where the interpreter may
    switch threads.  A thread is at [TInc] (before line 30), [TRead]
    (between lines 30 and 35) or [TDone v] (it answered [visits = v]); a
    step runs one thread's next statement on the shared [counter]. *)

From S2P Require Import Prelude.

Module Threads.
Local Open Scope Z_scope.

Inductive tpc : Type :=
| TInc
| TRead
| TDone (visits : Z).

Record TSt := mkTSt {
  shared : Z;          (** the global [counter] *)
  pcs : list tpc       (** one program point per request thread *)
}.

(** The scheduler runs thread [i] for one statement. *)
Definition thread_step (i : nat) (s : TSt) : option TSt :=
  match pcs s !! i with
  | Some TInc => Some (mkTSt (shared s + 1) (<[i := TRead]> (pcs s)))
  | Some TRead => Some (mkTSt (shared s) (<[i := TDone (shared s)]> (pcs s)))
  | _ => None
  end.

Definition tstep (s s' : TSt) : Prop := exists i, thread_step i s = Some s'.

Inductive tstar : TSt -> TSt -> Prop :=
| tstar_refl s : tstar s s
| tstar_step s1 s2 s3 : tstep s1 s2 -> tstar s2 s3 -> tstar s1 s3.

(** A schedule: the list of threads the interpreter runs, in order. *)
Fixpoint run_schedule (sched : list nat) (s : TSt) : option TSt :=
  match sched with
  | [] => Some s
  | i :: sched' => match thread_step i s with
                   | Some s' => run_schedule sched' s'
                   | None => None
                   end
  end.

(** [n] requests arriving together while [counter = c]. *)
Definition start (c : Z) (n : nat) : TSt := mkTSt c (replicate n TInc).

(** Requests served one after the other: each thread runs both its
    statements before the next one starts. *)
Definition serial_schedule (n : nat) : list nat := concat ((fun i => [i; i]) <$> seq 0 n).

(** The answers [c + 1], ..., [c + k] of [k] requests served in turn. *)
Definition serial_answers (c : Z) (k : nat) : list tpc := (fun i => TDone (c + 1 + Z.of_nat i)) <$> seq 0 k.

Definition is_done (pc : tpc) : bool := match pc with TDone _ => true | _ => false end.
Definition all_done (s : TSt) : bool := forallb is_done (pcs s).


Definition past_inc (pc : tpc) : bool := match pc with TInc => false | _ => true end.

(** Threads that have executed [counter += 1]. *)
Fixpoint n_past (l : list tpc) : nat :=
  match l with
  | [] => O
  | pc :: l' => (if past_inc pc then 1 else 0) + n_past l'
  end%nat.

(** The state invariant from a start at [c]: the counter is [c] plus the
    threads that have incremented, and every answer lies in [(c, counter]]. *)
Definition tinv (c : Z) (s : TSt) : Prop :=
  shared s = c + Z.of_nat (n_past (pcs s)) /\
  Forall (fun pc => match pc with TDone v => c < v <= shared s | _ => True end) (pcs s).


(** ** Lists updated at one thread *)

Lemma n_past_insert (l : list tpc) i x y :
  l !! i = Some x ->
  (n_past (<[i := y]> l) + (if past_inc x then 1 else 0) = n_past l + (if past_inc y then 1 else 0))%nat.
Proof.
  revert i. induction l as [|z l IH]; intros [|i] Hi; simpl in *; try done.
  - injection Hi as ->. lia.
  - specialize (IH i Hi). lia.
Qed.

Lemma n_past_pos (l : list tpc) i x : l !! i = Some x -> past_inc x = true -> (1 <= n_past l)%nat.
Proof.
  revert i. induction l as [|z l IH]; intros [|i] Hi Hx; simpl in *; try done.
  - injection Hi as ->. rewrite Hx. lia.
  - specialize (IH i Hi Hx). lia.
Qed.

(** Inversion of one scheduled statement. *)
Lemma thread_step_cases i s s' :
  thread_step i s = Some s' ->
  (pcs s !! i = Some TInc /\ s' = mkTSt (shared s + 1) (<[i := TRead]> (pcs s))) \/
  (pcs s !! i = Some TRead /\ s' = mkTSt (shared s) (<[i := TDone (shared s)]> (pcs s))).
Proof.
  unfold thread_step. destruct (pcs s !! i) as [[| |v]|] eqn:E; intros H; try done;
    injection H as <-; auto.
Qed.

(** A property that every scheduled statement preserves holds along
    every interleaving. *)
Lemma tstar_preserves (P : TSt -> Prop) :
  (forall i s s', P s -> thread_step i s = Some s' -> P s') ->
  forall s s', tstar s s' -> P s -> P s'.
Proof.
  intros Hstep s s'. induction 1 as [s|s1 s2 s3 [i Hi] _ IH]; [done|].
  intros H. apply IH. exact (Hstep i s1 s2 H Hi).
Qed.

(** ** Properties of concurrent [hello_world] requests *)

Lemma thread_step_inv c i s s' : tinv c s -> thread_step i s = Some s' -> tinv c s'.
Proof.
  intros [Hsh Hf] Hst. unfold tinv.
  destruct (thread_step_cases i s s' Hst) as [[Hi ->] | [Hi ->]]; cbn [shared pcs].
  - pose proof (n_past_insert _ i _ TRead Hi) as Hn. simpl in Hn. split; [lia|].
    apply Forall_insert; [|done].
    eapply Forall_impl; [exact Hf|]. intros [| |v]; simpl; [done|done|lia].
  - pose proof (n_past_insert _ i _ (TDone (shared s)) Hi) as Hn. simpl in Hn.
    pose proof (n_past_pos _ i _ Hi eq_refl).
    split; [lia|]. apply Forall_insert; [done|]. simpl. lia.
Qed.

(** C22: the state invariant holds along every interleaving: the counter
    is its start value plus the threads past [counter += 1], and every
    [visits] answered lies between the start value (excluded) and the
    current counter. *)
Theorem tinv_preserved c s s' : tstar s s' -> tinv c s -> tinv c s'.
Proof. apply tstar_preserves. intros i. apply thread_step_inv. Qed.

Lemma tinv_start c n : tinv c (start c n).
Proof.
  split; simpl.
  - induction n; simpl; lia.
  - apply Forall_replicate. done.
Qed.

Lemma length_pcs_tstar s s' : tstar s s' -> length (pcs s') = length (pcs s).
Proof.
  induction 1 as [s|s1 s2 s3 [i Hi] _ IH]; [done|]. rewrite IH.
  destruct (thread_step_cases i s1 s2 Hi) as [[_ ->] | [_ ->]]; simpl; apply length_insert.
Qed.

Lemma n_past_all_done (l : list tpc) : forallb is_done l = true -> n_past l = length l.
Proof. induction l as [|[| |v] l IH]; simpl; try done. intros H. by rewrite IH. Qed.

(** C21: when [n] concurrent requests have all answered, [counter] has
    grown by exactly [n] (no increment is lost) and every answered
    [visits] lies in [(c, c + n]]. *)
Theorem threads_final_bounds c n s :
  tstar (start c n) s -> all_done s = true ->
  shared s = c + Z.of_nat n /\
  Forall (fun pc => exists v, pc = TDone v /\ c < v <= c + Z.of_nat n) (pcs s).
Proof.
  intros Hr Hd.
  destruct (tstar_preserves (tinv c) (fun i => thread_step_inv c i) _ _ Hr (tinv_start c n)) as [Hsh Hf].
  pose proof (length_pcs_tstar _ _ Hr) as Hl. simpl in Hl. rewrite length_replicate in Hl.
  unfold all_done in Hd. rewrite n_past_all_done, Hl in Hsh by done.
  split; [done|]. pose proof (proj1 (forallb_forall _ _) Hd) as Hd'.
  apply Forall_forall. intros pc Hpc.
  rewrite Forall_forall in Hf. specialize (Hf pc Hpc).
  apply list_elem_of_In in Hpc. specialize (Hd' pc Hpc).
  destruct pc as [| |v]; try done. exists v. split; [done | lia].
Qed.

Lemma run_schedule_tstar sched s s' : run_schedule sched s = Some s' -> tstar s s'.
Proof.
  revert s. induction sched as [|i sched IH]; intros s; simpl.
  - intros [= <-]. constructor.
  - destruct (thread_step i s) as [s1|] eqn:E; [|done].
    intros H. econstructor; [by exists i | by apply IH].
Qed.

(** C20: the [visits] of concurrent requests are not unique: two [GET /]
    arriving together may both increment before either reads [counter],
    and both answer [c + 2]; no request answers [c + 1]. *)
Theorem concurrent_duplicate_visits c :
  exists s, tstar (start c 2) s /\ pcs s = [TDone (c + 2); TDone (c + 2)].
Proof.
  exists (mkTSt (c + 1 + 1) [TDone (c + 1 + 1); TDone (c + 1 + 1)]).
  split; [apply (run_schedule_tstar [0; 1; 0; 1]%nat); reflexivity|].
  simpl. by replace (c + 1 + 1) with (c + 2) by lia.
Qed.

Lemma tinv_preserved_witness :
  tstar (start 0 2) (mkTSt 1 [TRead; TInc]) /\ tinv 0 (start 0 2) /\ tinv 0 (mkTSt 1 [TRead; TInc]).
Proof.
  assert (H : tstar (start 0 2) (mkTSt 1 [TRead; TInc]))
    by (apply (run_schedule_tstar [0]%nat); reflexivity).
  split; [exact H|]. split; [apply tinv_start|].
  exact (tinv_preserved 0 _ _ H (tinv_start 0 2)).
Defined.

Lemma threads_final_bounds_witness :
  tstar (start 5 2) (mkTSt 7 [TDone 6; TDone 7]) /\ all_done (mkTSt 7 [TDone 6; TDone 7]) = true /\
  shared (mkTSt 7 [TDone 6; TDone 7]) = 5 + Z.of_nat 2.
Proof.
  assert (H : tstar (start 5 2) (mkTSt 7 [TDone 6; TDone 7]))
    by (apply (run_schedule_tstar [0; 0; 1; 1]%nat); reflexivity).
  split; [exact H|]. split; [reflexivity|].
  exact (proj1 (threads_final_bounds 5 2 _ H eq_refl)).
Defined.

Lemma serial_run c k m :
  run_schedule (concat ((fun i => [i; i]) <$> seq k m))
    (mkTSt (c + Z.of_nat k) (serial_answers c k ++ replicate m TInc))
  = Some (mkTSt (c + Z.of_nat (k + m)) (serial_answers c (k + m))).
Proof.
  revert k. induction m as [|m IH]; intros k.
  - cbn. by rewrite Nat.add_0_r, app_nil_r.
  - assert (Hl : length (serial_answers c k) = k) by (unfold serial_answers; by rewrite length_fmap, length_seq).
    cbn [seq fmap list_fmap concat app run_schedule replicate]. unfold thread_step. cbn [pcs shared].
    rewrite lookup_app_r, Hl, Nat.sub_diag by lia. cbn.
    rewrite insert_app_r_alt, Hl, Nat.sub_diag by lia. cbn.
    rewrite lookup_app_r, Hl, Nat.sub_diag by lia. cbn.
    rewrite insert_app_r_alt, Hl, Nat.sub_diag by lia. cbn.
    replace (serial_answers c k ++ TDone (c + Z.of_nat k + 1) :: replicate m TInc)
      with (serial_answers c (S k) ++ replicate m TInc).
    + replace (c + Z.of_nat k + 1) with (c + Z.of_nat (S k)) by lia.
      rewrite IH. do 3 f_equal; lia.
    + unfold serial_answers. rewrite seq_S, fmap_app, <- app_assoc. cbn. do 3 f_equal. lia.
Qed.

(** C23: when the [n] requests do not overlap, each running both its
    statements before the next starts, they answer [c + 1], ..., [c + n]
    in turn and [counter] ends at [c + n]: [visits] are unique exactly as
    long as requests are served one at a time. *)
Theorem serial_visits c n :
  run_schedule (serial_schedule n) (start c n) = Some (mkTSt (c + Z.of_nat n) (serial_answers c n)).
Proof. pose proof (serial_run c 0 n) as H. by rewrite Z.add_0_r in H. Qed.

End Threads.
