(* ===== verification/Exposition.v ===== *)
(** * The [/metrics] exposition

    What [prometheus_client.generate_latest] collects from the registry of
    [app.py] when [/metrics] is requested: one metric family per metric
    declared at lines 14-21, in declaration order, each with the name of
    its [# HELP] / [# TYPE] lines, its type and its samples.  A counter
    gives [<name>_total] and [<name>_created]; a histogram gives one
    cumulative [<name>_bucket] per bound (label [le]), then [<name>_count],
    [<name>_sum] and [<name>_created], once per child for a labelled
    histogram, the child's labels first.

    With [name[]] in the query the view collects
    [registry.restricted_registry(names)] instead: each family keeps the
    samples whose name is listed, and a family left with none is dropped
    ([metrics_families]).

    Values are kept as the registry holds them: counts, and sums in
    ticks.  Their float rendering, the [_created] timestamps and the move
    of the [_created] samples into a gauge family of their own by the text
    writer are not modelled, nor the collectors the process registers
    besides those of [app.py] (the exporter's [flask_http_*] metrics,
    whose updates [Exporter] models but whose samples are not listed
    here, and the default process, platform and gc collectors).  The children of a
    labelled histogram come in the order of [map_to_list], not in
    prometheus_client's insertion order, and a restricted registry yields
    its families in the order of a Python set: the lemmas below do not
    depend on the order. *)

From S2P Require Import Prelude PyStr PyInt Metrics Runtime Handlers Middleware App.
Import Metrics Runtime App.

Module Exposition.
Local Open Scope Z_scope.

Inductive SampleValue : Type :=
| SNum (v : Z)        (** a counter value or a bucket count *)
| STicks (t : Z)      (** a histogram sum, in ticks *)
| SCreated.           (** the creation timestamp of the metric or child *)

Record Sample := mkSample {
  sname : string;
  slabels : list (string * string);
  svalue : SampleValue
}.

Inductive MetricType : Type := MCounter | MHistogram.

Record Family := mkFamily {
  fname : string;         (** the name of the [# HELP] and [# TYPE] lines *)
  fhelp : string;
  ftype : MetricType;
  fsamples : list Sample
}.

(** [floatToGoString] of the default bounds and of [+Inf]. *)
Definition le_labels : list string :=
  ["0.005"; "0.01"; "0.025"; "0.05"; "0.075"; "0.1"; "0.25"; "0.5"; "0.75"; "1.0";
   "2.5"; "5.0"; "7.5"; "10.0"; "+Inf"].

(** [Counter._child_samples]. *)
Definition counter_samples (name : string) (v : Z) : list Sample :=
  [mkSample (name +:+ "_total") [] (SNum v); mkSample (name +:+ "_created") [] SCreated].

(** [Histogram._child_samples], under the labels of the child: the
    running sum [acc] of the buckets, then the count, which is the final
    [acc], the sum and the creation time. *)
Definition histogram_samples (name : string) (labels : list (string * string)) (h : Histogram)
  : list Sample :=
  zip_with (fun le k => mkSample (name +:+ "_bucket") (labels ++ [("le", le)]) (SNum (cumulative h k)))
           le_labels (seq 1 NBUCKETS) ++
  [mkSample (name +:+ "_count") labels (SNum (cumulative h NBUCKETS));
   mkSample (name +:+ "_sum") labels (STicks (h_sum h));
   mkSample (name +:+ "_created") labels SCreated].

(** The samples of [request_latency]: those of each child, labelled
    [endpoint]. *)
Definition latency_samples (m : gmap string Histogram) : list Sample :=
  concat ((fun '(ep, h) => histogram_samples "request_latency_seconds" [("endpoint", ep)] h)
            <$> map_to_list m).

(** [REGISTRY.collect()] over the four metrics of [app.py]; the text
    format names a counter family [<name>_total]. *)
Definition exposition (r : Registry) : list Family :=
  [mkFamily "app_visits_total" "Número total de visitas" MCounter
            (counter_samples "app_visits" (app_visits_total r));
   mkFamily "calculate_duration_seconds" "Tiempo de ejecución de /calculate" MHistogram
            (histogram_samples "calculate_duration_seconds" [] (calculate_duration_seconds r));
   mkFamily "app_errors_total" "Número total de errores" MCounter
            (counter_samples "app_errors" (app_errors_total r));
   mkFamily "request_latency_seconds" "Latencia de las peticiones" MHistogram
            (latency_samples (request_latency_seconds r))].

Definition all_samples (fs : list Family) : list Sample := concat (fsamples <$> fs).

Definition sample_names (fs : list Family) : list string := sname <$> all_samples fs.

(** The value of the first sample with this name and these labels, as a
    scraper reading the text would find it. *)
Fixpoint first_sample (name : string) (labels : list (string * string)) (l : list Sample)
  : option SampleValue :=
  match l with
  | [] => None
  | smp :: l' => if decide (sname smp = name /\ slabels smp = labels) then Some (svalue smp)
                 else first_sample name labels l'
  end.

Definition find_sample (name : string) (labels : list (string * string)) (fs : list Family)
  : option SampleValue :=
  first_sample name labels (all_samples fs).

(** The sample names [app.py]'s declarations give rise to. *)
Definition declared_sample_names : list string :=
  ["app_visits_total"; "app_errors_total";
   "calculate_duration_seconds_bucket"; "calculate_duration_seconds_count";
   "calculate_duration_seconds_sum";
   "request_latency_seconds_bucket"; "request_latency_seconds_count";
   "request_latency_seconds_sum"].

(** Whether a sample name is asked for: every name without [name[]],
    the names listed otherwise. *)
Definition requested (names : option (list string)) (n : string) : bool :=
  match names with None => true | Some ns => bool_decide (n ∈ ns) end.

(** [Metric._restricted_metric(names)]: the samples whose name is asked
    for; no family when none is. *)
Definition restrict_family (ns : list string) (f : Family) : option Family :=
  match filter (fun smp => requested (Some ns) (sname smp) = true) (fsamples f) with
  | [] => None
  | smp :: l => Some (mkFamily (fname f) (fhelp f) (ftype f) (smp :: l))
  end.

(** What [generate_latest] collects in the [/metrics] view: the registry,
    or [registry.restricted_registry(request.args.getlist('name[]'))]
    when the query has [name[]]. *)
Definition metrics_families (names : option (list string)) (r : Registry) : list Family :=
  match names with
  | None => exposition r
  | Some ns => omap (restrict_family ns) (exposition r)
  end.

(** ** Lemmas on samples *)

Lemma first_sample_app n lb l1 l2 :
  first_sample n lb (l1 ++ l2) =
  match first_sample n lb l1 with Some v => Some v | None => first_sample n lb l2 end.
Proof.
  induction l1 as [|smp l1 IH]; [done|]. simpl.
  by case_decide.
Qed.

Lemma histogram_samples_names name labels h :
  sname <$> histogram_samples name labels h =
  replicate NBUCKETS (name +:+ "_bucket") ++ [name +:+ "_count"; name +:+ "_sum"; name +:+ "_created"].
Proof. reflexivity. Qed.

Lemma first_sample_child ep ep' h :
  first_sample "request_latency_seconds_count" [("endpoint", ep')]
    (histogram_samples "request_latency_seconds" [("endpoint", ep)] h) =
  if decide (ep = ep') then Some (SNum (cumulative h NBUCKETS)) else None.
Proof.
  unfold histogram_samples. rewrite first_sample_app. simpl.
  case_decide as H1; case_decide as H2; subst; try done.
  - destruct H1 as [_ ?]. simplify_eq.
  - exfalso. by apply H1.
Qed.

Lemma first_sample_latency ep l :
  first_sample "request_latency_seconds_count" [("endpoint", ep)]
    (concat ((fun '(k, h) => histogram_samples "request_latency_seconds" [("endpoint", k)] h) <$> l)) =
  (fun h => SNum (cumulative h NBUCKETS)) <$> (list_to_map l : gmap string Histogram) !! ep.
Proof.
  induction l as [|[k h] l IH]; [done|].
  rewrite fmap_cons. cbn [concat]. rewrite first_sample_app, first_sample_child, list_to_map_cons.
  destruct (decide (k = ep)) as [->|Hne].
  - by rewrite lookup_insert_eq.
  - by rewrite lookup_insert_ne.
Qed.

Lemma cumulative_full h : histogram_wf h -> cumulative h NBUCKETS = histogram_count h.
Proof. intros Hh. unfold cumulative, histogram_count. rewrite take_ge; [done|]. unfold histogram_wf in Hh. lia. Qed.

Lemma latency_names m n :
  m ≠ ∅ ->
  n ∈ replicate NBUCKETS ("request_latency_seconds" +:+ "_bucket") ++
      ["request_latency_seconds" +:+ "_count"; "request_latency_seconds" +:+ "_sum";
       "request_latency_seconds" +:+ "_created"] ->
  n ∈ sname <$> latency_samples m.
Proof.
  intros Hne Hn. unfold latency_samples.
  destruct (map_to_list m) as [|[k h] l] eqn:E; [by apply map_to_list_empty_iff in E|].
  rewrite fmap_cons. cbn [concat]. rewrite fmap_app, histogram_samples_names. apply elem_of_app. by left.
Qed.

(** Membership of a name in a list of names computed from constants. *)
Ltac in_concrete := apply (bool_decide_unpack _); vm_compute; reflexivity.

Lemma exposition_names r :
  request_latency_seconds r ≠ ∅ ->
  Forall (fun n => n ∈ sample_names (exposition r)) declared_sample_names.
Proof.
  intros Hne. unfold sample_names, all_samples, exposition. cbn [fmap list_fmap fsamples concat].
  rewrite !fmap_app. unfold declared_sample_names.
  repeat match goal with
         | |- Forall _ (_ :: _) => apply Forall_cons_2
         | |- Forall _ [] => apply Forall_nil_2
         end;
  rewrite !elem_of_app;
    first [left; in_concrete | right; left; in_concrete | right; right; left; in_concrete
          | right; right; right; left; apply latency_names; [done | in_concrete]].
Qed.

(** Restricting to [name[]] keeps exactly the samples whose name is
    asked for, in order. *)
Lemma all_samples_omap_restrict ns fs :
  all_samples (omap (restrict_family ns) fs) =
  filter (fun smp => requested (Some ns) (sname smp) = true) (all_samples fs).
Proof.
  unfold all_samples. induction fs as [|f fs IH]; [done|]. cbn [omap list_omap].
  unfold restrict_family at 1. cbn [concat fmap list_fmap]. rewrite filter_app, <- IH.
  by destruct (filter _ (fsamples f)).
Qed.

Lemma all_samples_restrict names r :
  all_samples (metrics_families names r) =
  filter (fun smp => requested names (sname smp) = true) (all_samples (exposition r)).
Proof.
  destruct names as [ns|]; [apply all_samples_omap_restrict|]. cbn [metrics_families].
  induction (all_samples (exposition r)) as [|x l IH]; [done|]. by rewrite filter_cons_True, <- IH.
Qed.

Lemma sample_names_restrict names r n :
  n ∈ sample_names (metrics_families names r) <->
  n ∈ sample_names (exposition r) /\ requested names n = true.
Proof.
  unfold sample_names. rewrite all_samples_restrict, !list_elem_of_fmap. split.
  - intros (smp & -> & Hin). apply list_elem_of_filter in Hin as [Hr Hin]. eauto.
  - intros [(smp & -> & Hin) Hr]. exists smp. split; [done|]. by apply list_elem_of_filter.
Qed.

(** ** [/metrics] in the pipeline *)

(** Where [/metrics] is registered and no multiprocess directory is set,
    [GET /metrics] answers the registry as it is once [start_timer] has
    run (its own visit is counted, its own latency is not yet observed),
    with the names of its [name[]] query. *)
Lemma metrics_snapshot s a :
  world_wf s -> metrics_registered (environ s) = true -> multiproc_dir (environ s) = false ->
  fst (full_dispatch_request (GET "/metrics" a) s) =
    Ret (mkResponse 200 (BMetrics (visit_counter_inc (registry s)) (metrics_names (GET "/metrics" a)))).
Proof.
  intros Hs Hreg Hmp. eapply full_dispatch_request_outcome; [done|]. apply stry_Ret.
  unfold after_start. rewrite Middleware.start_timer_run.
  rewrite dispatch_request_metrics by done.
  unfold prometheus_metrics, sbind, sget, sret. cbn [snd environ registry set_req_start_time]. by rewrite Hmp.
Qed.

Lemma first_sample_filter names n lb l :
  requested names n = true ->
  first_sample n lb (filter (fun smp => requested names (sname smp) = true) l) = first_sample n lb l.
Proof.
  intros Hn. induction l as [|x l IH]; [done|].
  destruct (decide (requested names (sname x) = true)) as [Hx|Hx].
  - rewrite filter_cons_True by done. simpl. by rewrite IH.
  - rewrite filter_cons_False by done. simpl. rewrite IH.
    case_decide as E; [|done]. destruct E as [<- _]. contradiction.
Qed.

Lemma step_latency_nonempty s req rv s' :
  world_wf s -> step s req rv s' -> request_latency_seconds (registry s') <> ∅.
Proof.
  intros Hs Hst. inversion Hst as [? ? ? ? E]; subst.
  destruct (full_dispatch_request_effect req s Hs) as (rv1 & s1 & lat & E1 & _ & Hm & _).
  rewrite E1 in E. injection E as <- <-. rewrite Hm. apply insert_non_empty.
Qed.

Lemma run_latency_nonempty s reqs s' :
  run s reqs s' -> world_wf s -> request_latency_seconds (registry s) <> ∅ ->
  request_latency_seconds (registry s') <> ∅.
Proof.
  induction 1 as [s|s req rv s1 reqs s2 Hstep _ IH]; intros Hs Hne; [done|].
  destruct (step_effect _ _ _ _ Hs Hstep) as (Hs1 & _).
  apply IH; [done | exact (step_latency_nonempty _ _ _ _ Hs Hstep)].
Qed.

(** ** The exposition's properties *)

(** C28: the [request_latency_seconds_count] sample of an endpoint is the
    number of observations of its child, and there is no such sample for
    an endpoint that was never observed. *)
Theorem exposition_latency_count r ep :
  family_wf (request_latency_seconds r) ->
  find_sample "request_latency_seconds_count" [("endpoint", ep)] (exposition r) =
    (fun h => SNum (histogram_count h)) <$> request_latency_seconds r !! ep.
Proof.
  intros Hwf. unfold find_sample, all_samples, exposition. cbn [fmap list_fmap fsamples concat].
  rewrite !first_sample_app. simpl first_sample at 1 2 3.
  unfold latency_samples. rewrite first_sample_latency, list_to_map_to_list.
  destruct (request_latency_seconds r !! ep) as [h|] eqn:E; [|done]. simpl.
  rewrite cumulative_full; [done|]. exact (Hwf ep h E).
Qed.

(** C10: once a process has served any request, where the exporter
    registered [/metrics] and no multiprocess directory is set, the
    answer of [/metrics] has a sample of every metric [app.py] declares
    that the query asks for (every one without [name[]]), and of no
    other: both counters, and the buckets, count and sum of both
    histograms. *)
Theorem metrics_names_after_request s req rv s1 mid s2 a :
  world_wf s -> step s req rv s1 -> run s1 mid s2 ->
  metrics_registered (environ s2) = true -> multiproc_dir (environ s2) = false ->
  let names := metrics_names (GET "/metrics" a) in
  exists r, fst (full_dispatch_request (GET "/metrics" a) s2) = Ret (mkResponse 200 (BMetrics r names)) /\
    Forall (fun n => n ∈ sample_names (metrics_families names r) <-> requested names n = true)
      declared_sample_names.
Proof.
  intros Hs H1 Hrun Hreg Hmp names.
  destruct (step_effect _ _ _ _ Hs H1) as (Hs1 & _).
  destruct (run_wf_counter _ _ _ Hrun Hs1) as (Hs2 & _).
  pose proof (run_latency_nonempty _ _ _ Hrun Hs1 (step_latency_nonempty _ _ _ _ Hs H1)) as Hne.
  exists (visit_counter_inc (registry s2)). split; [by apply metrics_snapshot|].
  eapply Forall_impl; [by apply exposition_names|]. intros n Hn.
  rewrite sample_names_restrict. tauto.
Qed.

(** C29: the first [/metrics] request of a fresh process that registered
    [/metrics] (no multiprocess directory) reports its own visit, when the
    query asks for [app_visits_total], and no [request_latency_seconds]
    sample at all, whatever it asks for: the labelled histogram has no
    child until a request has finished. *)
Theorem metrics_first_request env t0 rnd el a :
  world_wf (init_state env t0 rnd el) -> metrics_registered env = true -> multiproc_dir env = false ->
  let names := metrics_names (GET "/metrics" a) in
  exists r, fst (full_dispatch_request (GET "/metrics" a) (init_state env t0 rnd el)) =
              Ret (mkResponse 200 (BMetrics r names)) /\
    (requested names "app_visits_total" = true ->
     find_sample "app_visits_total" [] (metrics_families names r) = Some (SNum 1)) /\
    Forall (fun n => n ∉ sample_names (metrics_families names r))
      ["request_latency_seconds_bucket"; "request_latency_seconds_count"; "request_latency_seconds_sum"].
Proof.
  intros Hs Hreg Hmp names. exists (visit_counter_inc registry_init). split; [by apply metrics_snapshot|].
  split.
  - intros Hv. unfold find_sample. rewrite all_samples_restrict, first_sample_filter by done. reflexivity.
  - assert (H0 : Forall (fun n => n ∉ sample_names (exposition (visit_counter_inc registry_init)))
                   ["request_latency_seconds_bucket"; "request_latency_seconds_count"; "request_latency_seconds_sum"])
      by (apply (bool_decide_unpack _); vm_compute; reflexivity).
    eapply Forall_impl; [exact H0|]. intros n Hn; simpl in Hn. rewrite sample_names_restrict. tauto.
Qed.

Lemma exposition_latency_count_witness :
  family_wf (request_latency_seconds (request_latency_observe "health_check" SECOND registry_init)) /\
  find_sample "request_latency_seconds_count" [("endpoint", "health_check")]
    (exposition (request_latency_observe "health_check" SECOND registry_init)) = Some (SNum 1).
Proof.
  assert (Hw : family_wf (request_latency_seconds (request_latency_observe "health_check" SECOND registry_init)))
    by (apply family_wf_observe, family_wf_empty).
  split; [exact Hw|].
  rewrite (exposition_latency_count _ "health_check" Hw). reflexivity.
Defined.

Lemma metrics_names_after_request_witness :
  let s1 := next_state (GET "/" []) demo_state in
  world_wf demo_state /\ step demo_state (GET "/" []) (next_resp (GET "/" []) demo_state) s1 /\
  run s1 [] s1 /\ metrics_registered (environ s1) = true /\ multiproc_dir (environ s1) = false /\
  exists r, fst (full_dispatch_request (GET "/metrics" [("name[]", "app_errors_total")]) s1) =
              Ret (mkResponse 200 (BMetrics r (Some ["app_errors_total"]))) /\
    Forall (fun n => n ∈ sample_names (metrics_families (Some ["app_errors_total"]) r) <->
                     requested (Some ["app_errors_total"]) n = true) declared_sample_names.
Proof.
  intros s1.
  assert (H1 : step demo_state (GET "/" []) (next_resp (GET "/" []) demo_state) s1) by step_by_compute.
  split; [solve_world_wf|]. split; [exact H1|]. split; [apply run_nil|].
  split; [vm_compute; reflexivity|]. split; [vm_compute; reflexivity|].
  apply (metrics_names_after_request demo_state (GET "/" []) (next_resp (GET "/" []) demo_state) s1 [] s1
           [("name[]", "app_errors_total")]);
    [solve_world_wf | exact H1 | apply run_nil | vm_compute; reflexivity | vm_compute; reflexivity].
Defined.

Lemma metrics_first_request_witness :
  world_wf (init_state ∅ 0 (fun _ => 0) (fun _ => 0)) /\ metrics_registered ∅ = true /\ multiproc_dir ∅ = false /\
  exists r, fst (full_dispatch_request (GET "/metrics" []) (init_state ∅ 0 (fun _ => 0) (fun _ => 0))) =
              Ret (mkResponse 200 (BMetrics r None)) /\
    (requested None "app_visits_total" = true ->
     find_sample "app_visits_total" [] (metrics_families None r) = Some (SNum 1)) /\
    Forall (fun n => n ∉ sample_names (metrics_families None r))
      ["request_latency_seconds_bucket"; "request_latency_seconds_count"; "request_latency_seconds_sum"].
Proof.
  split; [solve_world_wf|]. split; [reflexivity|]. split; [reflexivity|].
  apply metrics_first_request; [solve_world_wf | reflexivity | reflexivity].
Defined.

End Exposition.
